(** * Setback compliance checker of [src/index.js]

    A shallow embedding of the geometric core of the service:
    the layer classifier inside [validateDxfFile], [calculateDistance],
    [MIN_SETBACK_DISTANCE] and [checkSetbackDistance].

    JavaScript numbers are IEEE 754 binary64 values.  They are modelled
    with the Standard Library's executable specification of binary
    floating point ([SpecFloat], precision 53, maximal exponent 1024),
    so every definition below evaluates on concrete inputs. *)

From Stdlib Require Import ZArith List String Ascii Bool Lia DecimalString.
From Stdlib Require Import Permutation.
From Stdlib Require Import Floats.SpecFloat.
Import ListNotations.

Local Open Scope string_scope.
Local Open Scope Z_scope.

(** ** JavaScript numbers *)

Module JS.

Definition prec : Z := 53.
Definition emax : Z := 1024.

(** A JavaScript number.  The values a program can hold are the ones
    accepted by [valid]; the operations are defined on the whole type. *)
Definition number : Type := spec_float.

Definition valid (x : number) : bool := valid_binary prec emax x.

Definition NaN : number := S754_nan.
Definition Infinity : number := S754_infinity false.
Definition neg_Infinity : number := S754_infinity true.
Definition pos_zero : number := S754_zero false.

(** An integer literal of the program text. *)
Definition of_Z (z : Z) : number := binary_normalize prec emax z 0 false.

(** The binary operators [+], [-], [*], [/] on numbers: IEEE 754
    round-to-nearest, ties to even. *)
Definition add (x y : number) : number := SFadd prec emax x y.
Definition sub (x y : number) : number := SFsub prec emax x y.
Definition mul (x y : number) : number := SFmul prec emax x y.
Definition div (x y : number) : number := SFdiv prec emax x y.

(** [x ** 2].  ECMA-262 fixes the result of [**] for NaN, infinite and
    zero bases and leaves the finite case to the implementation; the
    engines' [pow] returns the correctly rounded product [x * x] when the
    exponent is the number 2, which agrees with the fixed cases. *)
Definition square (x : number) : number := mul x x.

Definition Math_abs (x : number) : number := SFabs x.
Definition Math_sqrt (x : number) : number := SFsqrt prec emax x.

Definition is_nan (x : number) : bool :=
  match x with S754_nan => true | _ => false end.

(** The relational operators: a comparison with NaN is false. *)
Definition lt (x y : number) : bool := SFltb x y.
Definition gt (x y : number) : bool := SFltb y x.
(** [x >= y] is the negation of [x < y], except that it is false when
    the operands are unordered. *)
Definition ge (x y : number) : bool :=
  match SFcompare x y with
  | Some Lt => false
  | Some _ => true
  | None => false
  end.
(** [x == y] on numbers. *)
Definition eq (x y : number) : bool := SFeqb x y.

Definition is_pos_zero (x : number) : bool :=
  match x with S754_zero false => true | _ => false end.
Definition is_neg_zero (x : number) : bool :=
  match x with S754_zero true => true | _ => false end.

(** [Math.max(a, b)] (ECMA-262 21.3.2.24): NaN if an argument is NaN;
    otherwise the running maximum starts at -Infinity and an argument
    replaces it when it is greater, or when it is +0 and the maximum
    is -0. *)
Definition max_step (highest v : number) : number :=
  if gt v highest || (is_pos_zero v && is_neg_zero highest)
  then v else highest.

Definition Math_max (a b : number) : number :=
  if is_nan a || is_nan b then NaN
  else max_step (max_step neg_Infinity a) b.

(** [ToNumber] of a property value that is a number, or [undefined]
    when the object has no such property. *)
Definition ToNumber (v : option number) : number :=
  match v with
  | Some x => x
  | None => NaN
  end.

(** *** [Number::toString] (ECMA-262 6.1.6.1.20, radix 10)

    The template literal of the verdict converts the distance with this
    operation.  For a positive finite [x] it takes integers [n], [k], [s]
    with [k >= 1], [10^(k-1) <= s < 10^k], [s * 10^(n-k)] converting to
    [x], and [k] as small as possible; among several such decimals the
    one closest to [x], and the even [s] on a tie. *)

(** [s * 10^q] compared with [b * 2^E], exactly. *)
Definition scaled_compare (s q b E : Z) : comparison :=
  Z.compare (s * 10 ^ Z.max q 0 * 2 ^ Z.max (- E) 0)
            (b * 2 ^ Z.max E 0 * 10 ^ Z.max (- q) 0).

(** The integer part of [b * 2^E / 10^q]. *)
Definition scaled_floor (b E q : Z) : Z :=
  (b * 2 ^ Z.max E 0 * 10 ^ Z.max (- q) 0)
  / (2 ^ Z.max (- E) 0 * 10 ^ Z.max q 0).

Section Shortest.
(** The positive finite number [m * 2^e]. *)
Variables (m : positive) (e : Z).

(** In units of [2^(e-2)]: the number and the two ends of the set of
    reals that convert to it.  The lower neighbour is twice as close
    when [m] is the least normal mantissa; an end belongs to the set
    when [m] is even. *)
Let E := e - 2.
Let V := 4 * Zpos m.
Let HI := V + 2.
Let LO :=
  if (Zpos m =? 2 ^ (prec - 1)) && (emin prec emax <? e) then V - 1 else V - 2.
Let closed := Z.even (Zpos m).

Definition converts_back (s q : Z) : bool :=
  match scaled_compare s q LO E with
  | Gt => true | Eq => closed | Lt => false
  end &&
  match scaled_compare s q HI E with
  | Lt => true | Eq => closed | Gt => false
  end.

(** The least [n], from [n0] on, with [m * 2^e < 10^n]. *)
Fixpoint decimal_exponent (fuel : nat) (n0 : Z) : Z :=
  match fuel with
  | O => n0
  | S fuel' =>
      match scaled_compare 1 n0 V E with
      | Gt => n0
      | _ => decimal_exponent fuel' (n0 + 1)
      end
  end.

(** The decimals with [k] digits just below and just above the number:
    the one to print, if one of them converts back. *)
Definition candidate (n k : Z) : option (Z * Z) :=
  let q := n - k in
  let lo := scaled_floor V E q in
  let hi := lo + 1 in
  let pick_lo := Some (lo, n) in
  let pick_hi := if hi =? 10 ^ k then Some (10 ^ (k - 1), n + 1) else Some (hi, n) in
  match converts_back lo q, converts_back hi q with
  | true, true =>
      match scaled_compare (2 * lo + 1) q (2 * V) E with
      | Gt => pick_lo
      | Lt => pick_hi
      | Eq => if Z.even lo then pick_lo else pick_hi
      end
  | true, false => pick_lo
  | false, true => pick_hi
  | false, false => None
  end.

Fixpoint shortest (fuel : nat) (n k : Z) : Z * Z :=
  match fuel with
  | O => (scaled_floor V E (n - k), n)
  | S fuel' =>
      match candidate n k with
      | Some r => r
      | None => shortest fuel' n (k + 1)
      end
  end.

(** The search for the decimal exponent starts two below the estimate
    [log2 x * 0.30103] of [log10 x], which is off by less than one;
    seventeen digits always suffice for binary64. *)
Definition shortest_decimal : Z * Z :=
  let log2 := Z.pos (digits2_pos m) + e - 1 in
  shortest 17 (decimal_exponent 8 (log2 * 30103 / 100000 - 1)) 1.
End Shortest.

Definition digits (z : Z) : string :=
  NilZero.string_of_uint (N.to_uint (Z.to_N z)).

Fixpoint zeros (n : nat) : string :=
  match n with
  | O => EmptyString
  | S n' => String "0" (zeros n')
  end.

(** Steps 6 to 10 of [Number::toString]: the decimal [s] of [k] digits
    with the decimal point after [n] digits. *)
Definition layout (s n : Z) : string :=
  let ds := digits s in
  let k := Z.of_nat (String.length ds) in
  if (k <=? n) && (n <=? 21) then
    ds ++ zeros (Z.to_nat (n - k))
  else if (0 <? n) && (n <=? 21) then
    substring 0 (Z.to_nat n) ds ++ "." ++ substring (Z.to_nat n) (Z.to_nat (k - n)) ds
  else if (-6 <? n) && (n <=? 0) then
    "0." ++ zeros (Z.to_nat (- n)) ++ ds
  else
    let e := n - 1 in
    let sign := if e <? 0 then "-" else "+" in
    if k =? 1 then ds ++ "e" ++ sign ++ digits (Z.abs e)
    else substring 0 1 ds ++ "." ++ substring 1 (Z.to_nat (k - 1)) ds
         ++ "e" ++ sign ++ digits (Z.abs e).

Definition toString (x : number) : string :=
  match x with
  | S754_nan => "NaN"
  | S754_zero _ => "0"
  | S754_infinity false => "Infinity"
  | S754_infinity true => "-Infinity"
  | S754_finite sx m e =>
      let '(s, n) := shortest_decimal m e in
      (if sx then "-" else "") ++ layout s n
  end.

End JS.

(** ** Entities and the distance between two of them *)

(** A drawing entity as the checker reads it: the layer label and the
    four numeric properties.  [None] stands for a property the parsed
    object does not have (reading it gives [undefined]).  Properties
    that hold [null] or a boolean are read in [Dynamic] below. *)
Record Entity : Type := mkEntity {
  layer : option string;
  x : option JS.number;
  y : option JS.number;
  width : option JS.number;
  height : option JS.number
}.

Definition two : JS.number := JS.of_Z 2.
Definition zero : JS.number := JS.of_Z 0.

Definition calculateDistance (entity1 entity2 : Entity) : JS.number :=
  let xDist :=
    JS.Math_max zero
      (JS.sub (JS.Math_abs (JS.sub (JS.ToNumber (x entity1)) (JS.ToNumber (x entity2))))
              (JS.add (JS.div (JS.ToNumber (width entity1)) two)
                      (JS.div (JS.ToNumber (width entity2)) two))) in
  let yDist :=
    JS.Math_max zero
      (JS.sub (JS.Math_abs (JS.sub (JS.ToNumber (y entity1)) (JS.ToNumber (y entity2))))
              (JS.add (JS.div (JS.ToNumber (height entity1)) two)
                      (JS.div (JS.ToNumber (height entity2)) two))) in
  JS.Math_sqrt (JS.add (JS.square xDist) (JS.square yDist)).

Definition MIN_SETBACK_DISTANCE : JS.number := JS.of_Z 10.


(** ** The setback evaluator *)

Record Verdict : Type := mkVerdict {
  compliant : bool;
  message : string
}.

(** The template literal of the compliant verdict. *)
Definition compliant_message (distance : JS.number) : string :=
  "Building is " ++ JS.toString distance ++ " feet away from boundary on one side.".

Definition noncompliant_message : string :=
  "Building does not meet the 10-ft setback requirement on any side.".

(** The inner [for ... of] loop: [Some] is the [return] inside it, [None]
    is falling out of the loop. *)
Fixpoint boundaries_loop (building : Entity) (boundaries : list Entity)
  : option Verdict :=
  match boundaries with
  | [] => None
  | boundary :: rest =>
      let distance := calculateDistance building boundary in
      if JS.ge distance MIN_SETBACK_DISTANCE
      then Some (mkVerdict true (compliant_message distance))
      else boundaries_loop building rest
  end.

(** The outer [for ... of] loop. *)
Fixpoint buildings_loop (buildings boundaries : list Entity) : option Verdict :=
  match buildings with
  | [] => None
  | building :: rest =>
      match boundaries_loop building boundaries with
      | Some verdict => Some verdict
      | None => buildings_loop rest boundaries
      end
  end.

Definition checkSetbackDistance (buildings boundaries : list Entity) : Verdict :=
  match buildings_loop buildings boundaries with
  | Some verdict => verdict
  | None => mkVerdict false noncompliant_message
  end.

(** ** The classifier inside [validateDxfFile] *)

(** [entity.layer === l], a strict equality with a string literal. *)
Definition layer_is (entity : Entity) (l : string) : bool :=
  match layer entity with
  | Some s => String.eqb s l
  | None => false
  end.

(** The body of the [forEach] callback, on the pair of arrays it pushes to. *)
Definition classify_step (groups : list Entity * list Entity) (entity : Entity)
  : list Entity * list Entity :=
  let '(buildings, boundaries) := groups in
  if layer_is entity "BUILDING" then ((buildings ++ [entity])%list, boundaries)
  else if layer_is entity "BOUNDARY" then (buildings, (boundaries ++ [entity])%list)
  else (buildings, boundaries).

Definition classify (entities : list Entity) : list Entity * list Entity :=
  fold_left classify_step entities ([], []).

Record Validations : Type := mkValidations {
  setbackCompliance : Verdict
}.

(** [validateDxfFile] from [const entities = dxf.entities] on; reading
    and parsing the file happen before and are not modelled. *)
Definition validateDxfFile (entities : list Entity) : Validations :=
  let '(buildings, boundaries) := classify entities in
  mkValidations (checkSetbackDistance buildings boundaries).

(** ** Vocabulary of the specification *)

(** The pair clears the setback: the test of the [if] in the inner loop. *)
Definition qualifies (pair : Entity * Entity) : bool :=
  JS.ge (calculateDistance (fst pair) (snd pair)) MIN_SETBACK_DISTANCE.

(** The pairs in iteration order: buildings outside, boundaries inside. *)
Definition pairs (buildings boundaries : list Entity) : list (Entity * Entity) :=
  list_prod buildings boundaries.

(** The entities the classifier drops. *)
Definition ignored (entities : list Entity) : list Entity :=
  filter (fun e => negb (layer_is e "BUILDING") && negb (layer_is e "BOUNDARY"))
         entities.

(** The two tests of the classifier. *)
Definition is_building (e : Entity) : bool := layer_is e "BUILDING".
Definition is_boundary (e : Entity) : bool := layer_is e "BOUNDARY".

(** The metric in the words of the specification: the gap on one axis,
    from the two positions and the two extents on that axis. *)
Definition axisGap (posA posB dimA dimB : JS.number) : JS.number :=
  JS.Math_max zero
    (JS.sub (JS.Math_abs (JS.sub posA posB))
            (JS.add (JS.div dimA two) (JS.div dimB two))).

Definition xGap (a b : Entity) : JS.number :=
  axisGap (JS.ToNumber (x a)) (JS.ToNumber (x b))
          (JS.ToNumber (width a)) (JS.ToNumber (width b)).

Definition yGap (a b : Entity) : JS.number :=
  axisGap (JS.ToNumber (y a)) (JS.ToNumber (y b))
          (JS.ToNumber (height a)) (JS.ToNumber (height b)).

(** On one axis: the distance of the two centres and the sum of the two
    half extents, as the code computes them. *)
Definition centre_distance (posA posB : JS.number) : JS.number :=
  JS.Math_abs (JS.sub posA posB).

Definition half_extents (dimA dimB : JS.number) : JS.number :=
  JS.add (JS.div dimA two) (JS.div dimB two).

(** The value before the clamp: the signed separation of the two
    projections on one axis. *)
Definition separation (posA posB dimA dimB : JS.number) : JS.number :=
  JS.sub (centre_distance posA posB) (half_extents dimA dimB).

Definition xSeparation (a b : Entity) : JS.number :=
  separation (JS.ToNumber (x a)) (JS.ToNumber (x b))
             (JS.ToNumber (width a)) (JS.ToNumber (width b)).

Definition ySeparation (a b : Entity) : JS.number :=
  separation (JS.ToNumber (y a)) (JS.ToNumber (y b))
             (JS.ToNumber (height a)) (JS.ToNumber (height b)).

(** The projections of the two rectangles on an axis overlap or touch:
    |a.pos - b.pos| <= a.dim/2 + b.dim/2. *)
Definition overlap_on_x (a b : Entity) : bool :=
  JS.ge (half_extents (JS.ToNumber (width a)) (JS.ToNumber (width b)))
        (centre_distance (JS.ToNumber (x a)) (JS.ToNumber (x b))).

Definition overlap_on_y (a b : Entity) : bool :=
  JS.ge (half_extents (JS.ToNumber (height a)) (JS.ToNumber (height b)))
        (centre_distance (JS.ToNumber (y a)) (JS.ToNumber (y b))).

(** The property is absent, or it is the number NaN. *)
Definition missing (v : option JS.number) : bool := JS.is_nan (JS.ToNumber v).

(** One of the four numeric properties of the entity is missing. *)
Definition malformed (e : Entity) : bool :=
  missing (x e) || missing (y e) || missing (width e) || missing (height e).

(** Neither NaN nor infinite. *)
Definition is_finite (v : JS.number) : bool :=
  match v with
  | S754_zero _ | S754_finite _ _ _ => true
  | _ => false
  end.

(** A finite binary64 number. *)
Definition is_number (v : JS.number) : bool := is_finite v && JS.valid v.

(** The four numeric properties of the entity are finite numbers. *)
Definition numeric (e : Entity) : bool :=
  is_number (JS.ToNumber (x e)) && is_number (JS.ToNumber (y e))
  && is_number (JS.ToNumber (width e)) && is_number (JS.ToNumber (height e)).

(** The entity is a rectangle: a finite centre, extents that are not
    negative. *)
Definition is_rectangle (e : Entity) : bool :=
  is_finite (JS.ToNumber (x e)) && is_finite (JS.ToNumber (y e))
  && JS.ge (JS.ToNumber (width e)) zero && JS.ge (JS.ToNumber (height e)) zero.

(** ** Scenario data *)

(** A rectangle with integer centre and extents. *)
Definition rect (l : string) (px py w h : Z) : Entity :=
  mkEntity (Some l) (Some (JS.of_Z px)) (Some (JS.of_Z py))
           (Some (JS.of_Z w)) (Some (JS.of_Z h)).

(** Scenario data: a 4 by 4 building at the origin, and 2 by 2
    boundaries on the x axis. *)
Definition building_0 : Entity := rect "BUILDING" 0 0 4 4.
Definition boundary_at (px : Z) : Entity := rect "BOUNDARY" px 0 2 2.

(** A building whose parsed object has no [x] property. *)
Definition no_x : Entity :=
  mkEntity (Some "BUILDING") None (Some (JS.of_Z 0)) (Some (JS.of_Z 4)) (Some (JS.of_Z 4)).

(** The two entities share an infinite x position. *)
Definition at_infinity : Entity :=
  mkEntity (Some "BUILDING") (Some JS.Infinity) (Some (JS.of_Z 0))
           (Some (JS.of_Z 4)) (Some (JS.of_Z 4)).

(** A building with a negative width and height. *)
Definition negative_extents : Entity := rect "BUILDING" 0 0 (-4) (-4).

(** The whole numbers [first], [first + 1], ..., [count] of them. *)
Definition whole_numbers (first : Z) (count : nat) : list Z :=
  map (fun i => first + Z.of_nat i) (seq 0 count).

(** The two numbers are the same binary64 value (NaN is NaN here, and
    the two zeros differ). *)
Definition identical (u v : JS.number) : bool :=
  match u, v with
  | S754_nan, S754_nan => true
  | S754_zero s, S754_zero s' => Bool.eqb s s'
  | S754_infinity s, S754_infinity s' => Bool.eqb s s'
  | S754_finite s m e, S754_finite s' m' e' =>
      Bool.eqb s s' && Pos.eqb m m' && Z.eqb e e'
  | _, _ => false
  end.

Definition same_verdict (u v : Verdict) : bool :=
  Bool.eqb (compliant u) (compliant v) && String.eqb (message u) (message v).

(** ** Predicates on numbers *)

(** The number is not NaN and carries the sign bit [s]. *)
Definition has_sign (s : bool) (v : JS.number) : Prop :=
  match v with
  | S754_nan => False
  | S754_zero s' | S754_infinity s' | S754_finite s' _ _ => s' = s
  end.

(** Not NaN, and zero or positive. *)
Definition nonneg (v : JS.number) : Prop :=
  match v with
  | S754_nan => False
  | S754_zero _ => True
  | S754_infinity s | S754_finite s _ _ => s = false
  end.

(** [fexp] at the binary64 parameters. *)
Definition fexp64 (e : Z) : Z := Z.max (e - 53) (-1074).

(** The size of a result: zero, or finite with [digits + exponent]
    at most [k] (its magnitude is below [2^k]). *)
Definition below (k : Z) (v : JS.number) : Prop :=
  match v with
  | S754_zero _ => True
  | S754_finite _ m e => Z.pos (digits2_pos m) + e <= k
  | _ => False
  end.

(** No bit is recorded as lost. *)
Definition nothing_lost (mrs : shr_record) : Prop :=
  shr_r mrs = false /\ shr_s mrs = false.

(** The largest mantissa of a binary64 number. *)
Definition max_mantissa : Z := 2 ^ 53 - 1.

(** The magnitude is at most half the largest binary64 number. *)
Definition at_most_half_max (v : JS.number) : Prop :=
  match v with
  | S754_finite _ m e => Z.pos m <= max_mantissa /\ e <= 970
  | _ => False
  end.

(** The size of half a binary64 number. *)
Definition half_sized (v : JS.number) : Prop :=
  below 1022 v \/ at_most_half_max v.

(** The mantissa sits at the exponent [fexp] assigns to its size. *)
Definition canonical (v : JS.number) : Prop :=
  match v with
  | S754_finite _ m e => fexp64 (Z.pos (digits2_pos m) + e) = e
  | _ => True
  end.

(** ** Entities as the objects the code receives *)

(** The checker never tests what an entity holds.  The operators [-]
    and [/] of [calculateDistance] convert the value of a property with
    [ToNumber], whatever it is.  This section reads the same code on
    properties that are absent or hold [null], a boolean or a number.
    Strings (converted by [StringToNumber]), BigInts, symbols and
    objects, on which the operators throw or run code of the object,
    are not modelled. *)

Module Dynamic.

Inductive Value : Type :=
  | Undefined
  | Null
  | Boolean (b : bool)
  | Number (n : JS.number).

(** [ToNumber] (ECMA-262 7.1.4). *)
Definition ToNumber (v : Value) : JS.number :=
  match v with
  | Undefined => JS.NaN
  | Null => JS.pos_zero
  | Boolean true => JS.of_Z 1
  | Boolean false => JS.pos_zero
  | Number n => n
  end.

(** [Undefined] is also the value of a property the object does not
    have. *)
Record Entity : Type := mkEntity {
  layer : option string;
  x : Value;
  y : Value;
  width : Value;
  height : Value
}.

Definition calculateDistance (entity1 entity2 : Entity) : JS.number :=
  let xDist :=
    JS.Math_max zero
      (JS.sub (JS.Math_abs (JS.sub (ToNumber (x entity1)) (ToNumber (x entity2))))
              (JS.add (JS.div (ToNumber (width entity1)) two)
                      (JS.div (ToNumber (width entity2)) two))) in
  let yDist :=
    JS.Math_max zero
      (JS.sub (JS.Math_abs (JS.sub (ToNumber (y entity1)) (ToNumber (y entity2))))
              (JS.add (JS.div (ToNumber (height entity1)) two)
                      (JS.div (ToNumber (height entity2)) two))) in
  JS.Math_sqrt (JS.add (JS.square xDist) (JS.square yDist)).

Fixpoint boundaries_loop (building : Entity) (boundaries : list Entity)
  : option Verdict :=
  match boundaries with
  | [] => None
  | boundary :: rest =>
      let distance := calculateDistance building boundary in
      if JS.ge distance MIN_SETBACK_DISTANCE
      then Some (mkVerdict true (compliant_message distance))
      else boundaries_loop building rest
  end.

Fixpoint buildings_loop (buildings boundaries : list Entity) : option Verdict :=
  match buildings with
  | [] => None
  | building :: rest =>
      match boundaries_loop building boundaries with
      | Some verdict => Some verdict
      | None => buildings_loop rest boundaries
      end
  end.

Definition checkSetbackDistance (buildings boundaries : list Entity) : Verdict :=
  match buildings_loop buildings boundaries with
  | Some verdict => verdict
  | None => mkVerdict false noncompliant_message
  end.

(** The property is missing, or what it holds is not a number ([NaN]
    counted as not a number). *)
Definition not_numeric (v : Value) : bool :=
  match v with
  | Number n => JS.is_nan n
  | _ => true
  end.

(** A numeric field of the entity is malformed or missing. *)
Definition malformed (e : Entity) : bool :=
  not_numeric (x e) || not_numeric (y e)
  || not_numeric (width e) || not_numeric (height e).



(** A rectangle whose four properties hold whole numbers. *)
Definition rect (l : string) (px py w h : Z) : Entity :=
  mkEntity (Some l) (Number (JS.of_Z px)) (Number (JS.of_Z py))
           (Number (JS.of_Z w)) (Number (JS.of_Z h)).

End Dynamic.


(** An entity of numbers and absent properties, as an object. *)
Definition property (v : option JS.number) : Dynamic.Value :=
  match v with
  | Some n => Dynamic.Number n
  | None => Dynamic.Undefined
  end.

Definition object (e : Entity) : Dynamic.Entity :=
  Dynamic.mkEntity (layer e) (property (x e)) (property (y e))
                   (property (width e)) (property (height e)).




(** ** The service around the checker *)

(** [convertDwgToDxf], the full [validateDxfFile] and the handler of
    [POST /upload] talk to a conversion service, to the parser and to the
    disk.  One run is modelled against an environment that says what
    each of these collaborators answers; the code then decides which
    calls are made, in which order, what is on the disk afterwards and
    what the request is answered with.  An exception is modelled by its
    [message], the only part of it the code reads. *)

Module Service.

Inductive outcome (A : Type) : Type :=
  | Returns (a : A)
  | Throws (message : string).

Arguments Returns {A} a.
Arguments Throws {A} message.

(** What an awaited promise comes to: it settles with an outcome, or it
    stays pending, and then the code after the [await] never runs.  An
    outcome is read as the promise settled with it. *)
Inductive completion (A : Type) : Type :=
  | Settled (o : outcome A)
  | Pending.

Arguments Settled {A} o.
Arguments Pending {A}.

Coercion Settled : outcome >-> completion.

(** *** [inputFilePath.replace(/\.dwg$/i, '.dxf')] *)

(** The letter [c] is [lower] or [upper]: the [i] flag on an ASCII
    letter of the pattern. *)
Definition letter (lower upper c : ascii) : bool :=
  Ascii.eqb c lower || Ascii.eqb c upper.

(** The pattern matches at the start of [s]: a dot, the letters d, w, g
    in either case, and then the end of the input. *)
Definition matches_dwg (s : string) : bool :=
  match s with
  | String c0 (String c1 (String c2 (String c3 EmptyString))) =>
      Ascii.eqb c0 "." && letter "d" "D" c1 && letter "w" "W" c2 && letter "g" "G" c3
  | _ => false
  end.

(** [replace] with a pattern that has no [g] flag: the first position
    where the pattern matches is replaced, the text before it is kept. *)
Fixpoint replace_dwg (s : string) : string :=
  if matches_dwg s then ".dxf"
  else
    match s with
    | EmptyString => EmptyString
    | String c rest => String c (replace_dwg rest)
    end.

(** *** The data of a conversion job, as far as the code reads it *)

(** [None] is a property that is [undefined] or [null]; names, ids and
    urls are strings, as the conversion service gives them. *)
Record File : Type := mkFile { file_url : string }.

Record Form : Type := mkForm {
  form_url : string;
  parameters : option (list (string * string))
}.

Record Result : Type := mkResult {
  form : option Form;
  files : option (list File)
}.

Record Task : Type := mkTask {
  name : string;
  result : option Result
}.

Record Job : Type := mkJob {
  id : string;
  tasks : list Task
}.

(** What the parser returns: [dxf.entities]. *)
Record Dxf : Type := mkDxf { entities : option (list Entity) }.

(** A field of the multipart form: a text value, or the read stream of
    a file. *)
Inductive FieldValue : Type :=
  | Text (value : string)
  | ReadStream (path : string).

Definition FormData : Type := list (string * FieldValue).

(** How a write stream ends: with [finish]; with [error] and whatever
    is then at the path; or not at all, when the stream that is piped
    into it fails: the writer then gets neither event, and the code
    listens to the writer only. *)
Inductive WriteResult : Type :=
  | Finished
  | Failed (message : string) (remains : option string)
  | Stalled (remains : option string).

(** The calls to the collaborators, as the run makes them. *)
Inductive Call : Type :=
  | JobsCreate
  | AxiosPost (url : string) (formData : FormData)
  | JobsWait (id : string)
  | AxiosGet (url : string)
  | WriteStream (path : string) (data : string)
  | ReadFileSync (path : string)
  | ParseSync (data : string)
  | UnlinkSync (path : string).

(** The answers of the collaborators in one run, and the texts the
    runtime gives its own errors: [type_error p] for reading the
    property [p] of [undefined] or [null] (and ["entries"] for
    [Object.entries] of it), [no_such_file op path] for the operation
    [op] on a path that does not exist. *)
Record Environment : Type := mkEnvironment {
  jobs_create : outcome Job;
  axios_post : string -> FormData -> outcome unit;
  jobs_wait : string -> outcome Job;
  axios_get : string -> outcome string;
  write_stream : string -> string -> WriteResult;
  parseSync : string -> outcome (option Dxf);
  type_error : string -> string;
  no_such_file : string -> string -> string
}.

(** The disk maps a path to the contents of the file there. *)
Definition Disk : Type := string -> option string.

Definition store (disk : Disk) (path : string) (contents : option string) : Disk :=
  fun p => if String.eqb p path then contents else disk p.

Record State : Type := mkState {
  disk : Disk;
  calls : list Call
}.

(** A computation that may throw or never come to an end, on the disk
    and the list of calls. *)
Definition M (A : Type) : Type := State -> State * completion A.

Definition ret {A : Type} (a : A) : M A := fun s => (s, Settled (Returns a)).

Definition throw {A : Type} (message : string) : M A :=
  fun s => (s, Settled (Throws message)).

(** [const x = await m; k(x)]: nothing follows a promise that stays
    pending. *)
Definition bind {A B : Type} (m : M A) (k : A -> M B) : M B :=
  fun s =>
    match m s with
    | (s', Settled (Returns a)) => k a s'
    | (s', Settled (Throws message)) => (s', Settled (Throws message))
    | (s', Pending) => (s', Pending)
    end.

(** [try { m } catch (error) { handler(error.message) }]. *)
Definition try_catch {A : Type} (m : M A) (handler : string -> M A) : M A :=
  fun s =>
    match m s with
    | (s', Settled (Returns a)) => (s', Settled (Returns a))
    | (s', Settled (Throws message)) => handler message s'
    | (s', Pending) => (s', Pending)
    end.

Notation "x <- m ;; k" := (bind m (fun x => k))
  (at level 61, m at next level, right associativity).
Notation "m ;;; k" := (bind m (fun _ => k))
  (at level 61, right associativity).

Definition record (c : Call) : M unit :=
  fun s => (mkState (disk s) (calls s ++ [c])%list, Settled (Returns tt)).

(** An awaited promise of a collaborator: it is taken to settle. *)
Definition answer {A : Type} (o : outcome A) : M A := fun s => (s, Settled o).

Section Run.

Variable env : Environment.

(** Reading the property [property] of [o]. *)
Definition read {A : Type} (property : string) (o : option A) : M A :=
  match o with
  | Some a => ret a
  | None => throw (type_error env property)
  end.

(** [tasks.filter(task => task.name === n)[0]]. *)
Definition first_named (n : string) (ts : list Task) : option Task :=
  nth_error (filter (fun task => String.eqb (name task) n) ts) 0.

Definition append (formData : FormData) (key : string) (value : FieldValue) : FormData :=
  (formData ++ [(key, value)])%list.

(** The form of the upload: every parameter, then the file. *)
Definition upload_form (entries : list (string * string)) (inputFilePath : string)
  : FormData :=
  append
    (fold_left (fun formData entry => append formData (fst entry) (Text (snd entry)))
               entries [])
    "file" (ReadStream inputFilePath).

(** The write stream and the promise on it: on [finish] the data is at
    the path and the promise resolves; on [error] it rejects; when the
    stream stalls it stays pending. *)
Definition pipe_to_file (path data : string) : M unit :=
  record (WriteStream path data) ;;;
  fun s =>
    match write_stream env path data with
    | Finished =>
        (mkState (store (disk s) path (Some data)) (calls s), Settled (Returns tt))
    | Failed message remains =>
        (mkState (store (disk s) path remains) (calls s), Settled (Throws message))
    | Stalled remains =>
        (mkState (store (disk s) path remains) (calls s), Pending)
    end.

(** The [try] block up to the download.  What follows it in the source
    (the output path, the write stream, the promise) does not throw
    inside the block: the promise is returned without [await], so an
    error of the writer is not caught by the [catch]. *)
Definition download (inputFilePath : string) : M string :=
  try_catch
    (record JobsCreate ;;;
     job <- answer (jobs_create env) ;;
     uploadTask <- read "result" (first_named "import-upload" (tasks job)) ;;
     uploadResult <- read "form" (result uploadTask) ;;
     uploadForm <- read "parameters" (form uploadResult) ;;
     entries <- read "entries" (parameters uploadForm) ;;
     let formData := upload_form entries inputFilePath in
     record (AxiosPost (form_url uploadForm) formData) ;;;
     answer (axios_post env (form_url uploadForm) formData) ;;;
     record (JobsWait (id job)) ;;;
     completedJob <- answer (jobs_wait env (id job)) ;;
     exportTask <- read "result" (first_named "export-url" (tasks completedJob)) ;;
     exportResult <- read "files" (result exportTask) ;;
     exportFiles <- read "0" (files exportResult) ;;
     file <- read "url" (nth_error exportFiles 0) ;;
     let downloadUrl := file_url file in
     record (AxiosGet downloadUrl) ;;;
     answer (axios_get env downloadUrl))
    (fun message => throw ("Conversion error: " ++ message)).

Definition convertDwgToDxf (inputFilePath : string) : M string :=
  data <- download inputFilePath ;;
  let outputFilePath := replace_dwg inputFilePath in
  pipe_to_file outputFilePath data ;;;
  ret outputFilePath.

Definition readFileSync (path : string) : M string :=
  record (ReadFileSync path) ;;;
  fun s =>
    match disk s path with
    | Some data => (s, Settled (Returns data))
    | None => (s, Settled (Throws (no_such_file env "open" path)))
    end.

Definition unlinkSync (path : string) : M unit :=
  record (UnlinkSync path) ;;;
  fun s =>
    match disk s path with
    | Some _ => (mkState (store (disk s) path None) (calls s), Settled (Returns tt))
    | None => (s, Settled (Throws (no_such_file env "unlink" path)))
    end.

(** [validateDxfFile] as a whole; the part from the entity list on is
    the function of the same name above. *)
Definition validateDxfFile (filePath : string) : M Validations :=
  try_catch
    (data <- readFileSync filePath ;;
     record (ParseSync data) ;;;
     parsed <- answer (parseSync env data) ;;
     dxf <- read "entities" parsed ;;
     entities <- read "forEach" (entities dxf) ;;
     ret (validateDxfFile entities))
    (fun message => throw ("Error processing DXF file: " ++ message)).

(** [req.file] and the response. *)
Record UploadedFile : Type := mkUploadedFile { path : string }.

Inductive Body : Type :=
  | ValidationsJson (validations : Validations)
  | ErrorJson (error : string).

Record Response : Type := mkResponse {
  status : Z;
  body : Body
}.

(** The handler of [POST /upload]. *)
Definition upload (file : option UploadedFile) : M Response :=
  try_catch
    (uploaded <- read "path" file ;;
     let dwgFilePath := path uploaded in
     dxfFilePath <- convertDwgToDxf dwgFilePath ;;
     validationResult <- validateDxfFile dxfFilePath ;;
     unlinkSync dwgFilePath ;;;
     unlinkSync dxfFilePath ;;;
     ret (mkResponse 200 (ValidationsJson validationResult)))
    (fun message => ret (mkResponse 500 (ErrorJson message))).

End Run.

End Service.

(** The eight spellings of the extension that the pattern accepts. *)
Definition dwg_extensions : list string :=
  [".dwg"; ".dwG"; ".dWg"; ".dWG"; ".Dwg"; ".DwG"; ".DWg"; ".DWG"].

(** The answer of the handler's [catch]. *)
Definition failure (message : string) : Service.Response :=
  Service.mkResponse 500 (Service.ErrorJson message).

Definition is_unlink (c : Service.Call) : bool :=
  match c with
  | Service.UnlinkSync _ => true
  | _ => false
  end.

(** ** Scenario data for the service *)

(** A job as the conversion service creates it, and the same job once it
    is complete. *)
Definition created_job : Service.Job :=
  Service.mkJob "job-1"
    [Service.mkTask "import-upload"
       (Some (Service.mkResult
                (Some (Service.mkForm "https://upload.example/form"
                         (Some [("key", "k-1"); ("policy", "p-1")])))
                None));
     Service.mkTask "convert" None;
     Service.mkTask "export-url" None].

Definition completed_job : Service.Job :=
  Service.mkJob "job-1"
    [Service.mkTask "import-upload" None;
     Service.mkTask "convert" None;
     Service.mkTask "export-url"
       (Some (Service.mkResult None
                (Some [Service.mkFile "https://files.example/plan.dxf"])))].

(** Every collaborator answers; the parser finds scenario A. *)
Definition cloud : Service.Environment :=
  Service.mkEnvironment
    (Service.Returns created_job)
    (fun _ _ => Service.Returns tt)
    (fun _ => Service.Returns completed_job)
    (fun _ => Service.Returns "0 SECTION 2 ENTITIES")
    (fun _ _ => Service.Finished)
    (fun _ => Service.Returns
                (Some (Service.mkDxf (Some [building_0; boundary_at 20]))))
    (fun property =>
       "Cannot read properties of undefined (reading '" ++ property ++ "')")
    (fun operation path =>
       "ENOENT: no such file or directory, " ++ operation ++ " '" ++ path ++ "'").

(** The conversion service cannot be reached. *)
Definition offline : Service.Environment :=
  Service.mkEnvironment
    (Service.Throws "getaddrinfo ENOTFOUND api.cloudconvert.com")
    (Service.axios_post cloud) (Service.jobs_wait cloud) (Service.axios_get cloud)
    (Service.write_stream cloud) (Service.parseSync cloud)
    (Service.type_error cloud) (Service.no_such_file cloud).

(** The created job has no upload task. *)
Definition cloud_without_upload_task : Service.Environment :=
  Service.mkEnvironment
    (Service.Returns (Service.mkJob "job-2" [Service.mkTask "convert" None]))
    (Service.axios_post cloud) (Service.jobs_wait cloud) (Service.axios_get cloud)
    (Service.write_stream cloud) (Service.parseSync cloud)
    (Service.type_error cloud) (Service.no_such_file cloud).

(** The stream of the download fails while it is piped to the file. *)
Definition cloud_with_broken_download : Service.Environment :=
  Service.mkEnvironment
    (Service.jobs_create cloud)
    (Service.axios_post cloud) (Service.jobs_wait cloud) (Service.axios_get cloud)
    (fun _ _ => Service.Stalled (Some "0 SECTION")) (Service.parseSync cloud)
    (Service.type_error cloud) (Service.no_such_file cloud).

(** The parser returns [null]. *)
Definition cloud_with_silent_parser : Service.Environment :=
  Service.mkEnvironment
    (Service.jobs_create cloud)
    (Service.axios_post cloud) (Service.jobs_wait cloud) (Service.axios_get cloud)
    (Service.write_stream cloud) (fun _ => Service.Returns None)
    (fun property =>
       "Cannot read properties of null (reading '" ++ property ++ "')")
    (Service.no_such_file cloud).

(** Paths of an upload that kept its extension, of its conversion, and
    of an upload that was stored without an extension. *)
Definition plan_dwg : string := "uploads/plan.dwg".
Definition plan_dxf : string := "uploads/plan.dxf".
Definition bare_upload : string := "uploads/3f9a2c".

(** The state of a run that starts with the upload at [path] on the
    disk and no call made. *)
Definition uploaded_at (path : string) : Service.State :=
  Service.mkState (Service.store (fun _ => None) path (Some "AC1027")) [].

(** * Properties *)

(** ** The number model on known values *)

(** [Number::toString] on values whose printed form is well known. *)
Lemma toString_examples :
  JS.toString (JS.div (JS.of_Z 1) (JS.of_Z 10)) = "0.1"
  /\ JS.toString (JS.add (JS.div (JS.of_Z 1) (JS.of_Z 10))
                         (JS.div (JS.of_Z 2) (JS.of_Z 10))) = "0.30000000000000004"
  /\ JS.toString (JS.Math_sqrt (JS.of_Z 2)) = "1.4142135623730951"
  /\ JS.toString (JS.of_Z (10 ^ 21)) = "1e+21"
  /\ JS.toString (JS.of_Z 123456789012345678901) = "123456789012345680000"
  /\ JS.toString (JS.div (JS.of_Z 1) (JS.of_Z (10 ^ 7))) = "1e-7"
  /\ JS.toString (JS.div (JS.of_Z 1) (JS.of_Z (10 ^ 6))) = "0.000001"
  /\ JS.toString (JS.div (JS.of_Z (-35)) (JS.of_Z 2)) = "-17.5"
  /\ JS.toString (S754_finite false 1 (-1074)) = "5e-324"
  /\ JS.toString (S754_finite false 2 (-1074)) = "1e-323"
  /\ JS.toString (S754_finite false 9007199254740991 971)
     = "1.7976931348623157e+308"
  /\ JS.toString JS.NaN = "NaN"
  /\ JS.toString JS.Infinity = "Infinity"
  /\ JS.toString (S754_zero true) = "0".
Proof. repeat split; vm_compute; reflexivity. Qed.

(** [Math.max] on zeros, infinities and NaN. *)
Lemma Math_max_examples :
  JS.Math_max zero (S754_zero true) = JS.pos_zero
  /\ JS.Math_max (S754_zero true) (S754_zero true) = S754_zero true
  /\ JS.Math_max zero JS.neg_Infinity = JS.pos_zero
  /\ JS.Math_max zero JS.Infinity = JS.Infinity
  /\ JS.Math_max zero JS.NaN = JS.NaN
  /\ JS.Math_max zero (JS.of_Z (-3)) = JS.pos_zero
  /\ JS.Math_max zero (JS.of_Z 3) = JS.of_Z 3.
Proof. repeat split. Qed.

(** ** The evaluator *)

Lemma boundaries_loop_find (building : Entity) (boundaries : list Entity) :
  boundaries_loop building boundaries =
  match find qualifies (map (pair building) boundaries) with
  | Some p => Some (mkVerdict true (compliant_message (calculateDistance (fst p) (snd p))))
  | None => None
  end.
Proof.
  induction boundaries as [|boundary rest IH]; simpl; [reflexivity|].
  unfold qualifies at 1; simpl.
  destruct (JS.ge _ _); [reflexivity | exact IH].
Qed.

Lemma find_app {A : Type} (f : A -> bool) (l1 l2 : list A) :
  find f (l1 ++ l2)%list =
  match find f l1 with Some a => Some a | None => find f l2 end.
Proof.
  induction l1 as [|a l1 IH]; simpl; [reflexivity|].
  destruct (f a); [reflexivity | exact IH].
Qed.

Lemma buildings_loop_find (buildings boundaries : list Entity) :
  buildings_loop buildings boundaries =
  match find qualifies (pairs buildings boundaries) with
  | Some p => Some (mkVerdict true (compliant_message (calculateDistance (fst p) (snd p))))
  | None => None
  end.
Proof.
  unfold pairs.
  induction buildings as [|building rest IH]; simpl; [reflexivity|].
  rewrite find_app, boundaries_loop_find.
  destruct (find qualifies (map (pair building) boundaries)); [reflexivity | exact IH].
Qed.

Lemma checkSetbackDistance_find (buildings boundaries : list Entity) :
  checkSetbackDistance buildings boundaries =
  match find qualifies (pairs buildings boundaries) with
  | Some p => mkVerdict true (compliant_message (calculateDistance (fst p) (snd p)))
  | None => mkVerdict false noncompliant_message
  end.
Proof.
  unfold checkSetbackDistance. rewrite buildings_loop_find.
  destruct (find qualifies _); reflexivity.
Qed.

(** [find] returns the first element that passes the test. *)
Lemma find_first {A : Type} (f : A -> bool) (l : list A) (a : A) :
  find f l = Some a <->
  exists before after,
    l = (before ++ a :: after)%list /\ f a = true /\
    Forall (fun b => f b = false) before.
Proof.
  split.
  - revert a. induction l as [|b l IH]; simpl; intros a H; [discriminate|].
    destruct (f b) eqn:Hb.
    + injection H as <-. exists [], l. repeat split; auto.
    + destruct (IH a H) as (before & after & -> & Ha & Hbefore).
      exists (b :: before), after. repeat split; auto.
  - intros (before & after & -> & Ha & Hbefore).
    induction Hbefore as [|b before Hb _ IH]; simpl.
    + now rewrite Ha.
    + now rewrite Hb.
Qed.

Lemma find_none_iff {A : Type} (f : A -> bool) (l : list A) :
  find f l = None <-> forall a, In a l -> f a = false.
Proof.
  split.
  - apply find_none.
  - induction l as [|b l IH]; simpl; intros H; [reflexivity|].
    rewrite (H b (or_introl eq_refl)). apply IH. intros a Ha. apply H. now right.
Qed.

Lemma compliant_iff_find (buildings boundaries : list Entity) :
  compliant (checkSetbackDistance buildings boundaries) = true <->
  find qualifies (pairs buildings boundaries) <> None.
Proof.
  rewrite checkSetbackDistance_find.
  destruct (find qualifies _); simpl; split; congruence.
Qed.

Lemma in_pairs (buildings boundaries : list Entity) (b bd : Entity) :
  In (b, bd) (pairs buildings boundaries) <-> In b buildings /\ In bd boundaries.
Proof. apply in_prod_iff. Qed.

Lemma identical_eq (u v : JS.number) : identical u v = true -> u = v.
Proof.
  destruct u as [s| s| |s m e], v as [s'| s'| |s' m' e']; simpl; intros H;
    try discriminate; try reflexivity.
  - apply Bool.eqb_prop in H. now subst.
  - apply Bool.eqb_prop in H. now subst.
  - apply andb_true_iff in H. destruct H as [H He].
    apply andb_true_iff in H. destruct H as [Hs Hm].
    apply Bool.eqb_prop in Hs. apply Pos.eqb_eq in Hm. apply Z.eqb_eq in He.
    now subst.
Qed.

Lemma same_verdict_eq (u v : Verdict) : same_verdict u v = true -> u = v.
Proof.
  destruct u as [c m], v as [c' m']. unfold same_verdict. simpl. intros H.
  apply andb_true_iff in H. destruct H as [Hc Hm].
  apply Bool.eqb_prop in Hc. apply String.eqb_eq in Hm. now subst.
Qed.

Lemma in_whole_numbers (first : Z) (count : nat) (n : Z) :
  first <= n < first + Z.of_nat count -> In n (whole_numbers first count).
Proof.
  intros H. unfold whole_numbers. apply in_map_iff.
  exists (Z.to_nat (n - first)). split; [lia|].
  apply in_seq. lia.
Qed.

Lemma list_prod_flat_map {A B : Type} (l : list A) (l' : list B) :
  list_prod l l' = flat_map (fun a => map (fun b => (a, b)) l') l.
Proof. induction l as [|a l IH]; simpl; [reflexivity | now rewrite IH]. Qed.

(** C1.  The verdict is compliant if and only if some (building,
    boundary) pair has a distance of at least 10.  The evaluator walks
    the pairs with the buildings outside and the boundaries inside, both
    in the given order, and answers with the first pair that passes the
    test; the message is the fixed text around the decimal form of that
    pair's distance.  The instances: the first passing pair is quoted,
    not the farthest (17, not 47); a pair that fails is skipped; the
    buildings are the outer loop (17, where the boundaries outside would
    give 92); a distance that is not a whole number is quoted with all
    its digits; a distance of exactly 10 passes and one of 9 does not. *)
Theorem C1_compliant_iff_first_qualifying_pair
  (buildings boundaries : list Entity) :
  (compliant (checkSetbackDistance buildings boundaries) = true <->
   exists building boundary,
     In building buildings /\ In boundary boundaries /\
     JS.ge (calculateDistance building boundary) (JS.of_Z 10) = true)
  /\
  checkSetbackDistance buildings boundaries =
    match find (fun pair => JS.ge (calculateDistance (fst pair) (snd pair)) (JS.of_Z 10))
            (flat_map (fun building => map (fun boundary => (building, boundary)) boundaries)
                      buildings) with
    | Some (building, boundary) =>
        mkVerdict true
          ("Building is " ++ JS.toString (calculateDistance building boundary)
           ++ " feet away from boundary on one side.")
    | None =>
        mkVerdict false
          "Building does not meet the 10-ft setback requirement on any side."
    end
  /\
  (calculateDistance building_0 (boundary_at 20) = JS.of_Z 17 /\
   calculateDistance building_0 (boundary_at 50) = JS.of_Z 47 /\
   checkSetbackDistance [building_0] [boundary_at 20; boundary_at 50] =
     mkVerdict true "Building is 17 feet away from boundary on one side." /\
   checkSetbackDistance [building_0] [boundary_at 50; boundary_at 20] =
     mkVerdict true "Building is 47 feet away from boundary on one side." /\
   checkSetbackDistance [building_0] [boundary_at 5; boundary_at 20; boundary_at 50] =
     mkVerdict true "Building is 17 feet away from boundary on one side." /\
   checkSetbackDistance [building_0; rect "BUILDING" 100 0 4 4]
                        [boundary_at 5; boundary_at 20] =
     mkVerdict true "Building is 17 feet away from boundary on one side." /\
   checkSetbackDistance [rect "BUILDING" 100 0 4 4; building_0]
                        [boundary_at 5; boundary_at 20] =
     mkVerdict true "Building is 92 feet away from boundary on one side." /\
   checkSetbackDistance [building_0] [rect "BOUNDARY" 13 13 2 2] =
     mkVerdict true "Building is 14.142135623730951 feet away from boundary on one side." /\
   checkSetbackDistance [building_0] [boundary_at 13] =
     mkVerdict true "Building is 10 feet away from boundary on one side." /\
   checkSetbackDistance [building_0] [boundary_at 12] =
     mkVerdict false "Building does not meet the 10-ft setback requirement on any side.").
Proof.
  split; [|split].
  - change (JS.of_Z 10) with MIN_SETBACK_DISTANCE.
    rewrite compliant_iff_find. split.
    + destruct (find qualifies (pairs buildings boundaries)) as [[b bd]|] eqn:Hfind;
        [intros _ | congruence].
      exists b, bd.
      destruct (find_some _ _ Hfind) as [Hin Hq].
      apply in_pairs in Hin. tauto.
    + intros (b & bd & Hb & Hbd & Hq) Hnone.
      rewrite find_none_iff in Hnone.
      specialize (Hnone (b, bd) (proj2 (in_pairs _ _ _ _) (conj Hb Hbd))).
      unfold qualifies in Hnone; simpl in Hnone. congruence.
  - rewrite checkSetbackDistance_find. unfold pairs.
    rewrite list_prod_flat_map.
    change (fun pair : Entity * Entity =>
              JS.ge (calculateDistance (fst pair) (snd pair)) (JS.of_Z 10))
      with qualifies.
    destruct (find qualifies _) as [[b bd]|]; reflexivity.
  - repeat split; vm_compute; reflexivity.
Qed.

(** C4.  When no (building, boundary) pair has a distance of at least
    10, in particular when one of the two sequences is empty, the
    evaluator returns the non-compliant verdict, whose message is one
    constant string with no distance in it.  The evaluator is a total
    function: it has no error result. *)
Theorem C4_no_qualifying_pair_noncompliant
  (buildings boundaries : list Entity)
  (Hnone : buildings = [] \/ boundaries = [] \/
           forall building boundary,
             In building buildings -> In boundary boundaries ->
             JS.ge (calculateDistance building boundary) MIN_SETBACK_DISTANCE = false) :
  checkSetbackDistance buildings boundaries =
    mkVerdict false
      "Building does not meet the 10-ft setback requirement on any side.".
Proof.
  rewrite checkSetbackDistance_find.
  assert (Hfind : find qualifies (pairs buildings boundaries) = None).
  { apply find_none_iff. intros [b bd] Hin. apply in_pairs in Hin.
    destruct Hin as [Hb Hbd].
    destruct Hnone as [-> | [-> | Hall]]; [destruct Hb | destruct Hbd |].
    exact (Hall b bd Hb Hbd). }
  now rewrite Hfind.
Qed.

(** Scenario B: the boundary is 2 away from the building.  Scenario C:
    no building at all. *)
Lemma C4_witness_scenarios_B_and_C :
  calculateDistance building_0 (boundary_at 5) = JS.of_Z 2 /\
  checkSetbackDistance [building_0] [boundary_at 5] =
    mkVerdict false
      "Building does not meet the 10-ft setback requirement on any side." /\
  checkSetbackDistance [] [boundary_at 5; boundary_at 20] =
    mkVerdict false
      "Building does not meet the 10-ft setback requirement on any side.".
Proof.
  split; [vm_compute; reflexivity | split].
  - apply (C4_no_qualifying_pair_noncompliant [building_0] [boundary_at 5]).
    right; right. intros building boundary [<- | []] [<- | []].
    vm_compute. reflexivity.
  - apply (C4_no_qualifying_pair_noncompliant [] [boundary_at 5; boundary_at 20]).
    left. reflexivity.
Defined.

(** Whole-number distances from 10 to 1000: the verdict quotes the
    decimal numeral of the distance. *)
Lemma whole_distances_quoted (n : Z) :
  10 <= n <= 1000 ->
  checkSetbackDistance [building_0] [boundary_at (n + 3)] =
  mkVerdict true
    ("Building is " ++ NilZero.string_of_uint (N.to_uint (Z.to_N n))
     ++ " feet away from boundary on one side.").
Proof.
  intros Hn.
  assert (Hall :
    forallb (fun n =>
               same_verdict
                 (checkSetbackDistance [building_0] [boundary_at (n + 3)])
                 (mkVerdict true
                    ("Building is " ++ NilZero.string_of_uint (N.to_uint (Z.to_N n))
                     ++ " feet away from boundary on one side.")))
            (whole_numbers 10 991) = true).
  { vm_compute. reflexivity. }
  rewrite forallb_forall in Hall.
  apply same_verdict_eq. apply Hall. apply in_whole_numbers. lia.
Qed.

(** C10.  Every verdict has one of two shapes.  A compliant verdict
    quotes the distance of the first pair, in iteration order, that
    passes the test, and that distance is at least 10; a non-compliant
    verdict carries exactly the fixed message.  The quoted text is the
    decimal form of the distance: for every whole-number distance from
    10 to 1000 it is the decimal numeral of that number, and a distance
    that is not a whole number is quoted with the digits that identify
    it. *)
Theorem C10_verdict_invariant (buildings boundaries : list Entity) :
  (let verdict := checkSetbackDistance buildings boundaries in
   if compliant verdict then
     exists building boundary before after,
       pairs buildings boundaries = (before ++ (building, boundary) :: after)%list /\
       Forall (fun p => JS.ge (calculateDistance (fst p) (snd p)) MIN_SETBACK_DISTANCE = false)
              before /\
       JS.ge (calculateDistance building boundary) MIN_SETBACK_DISTANCE = true /\
       JS.ge (calculateDistance building boundary) (JS.of_Z 10) = true /\
       message verdict =
         "Building is " ++ JS.toString (calculateDistance building boundary)
         ++ " feet away from boundary on one side."
   else
     message verdict = noncompliant_message /\
     message verdict =
       "Building does not meet the 10-ft setback requirement on any side." /\
     Forall (fun p => JS.ge (calculateDistance (fst p) (snd p)) MIN_SETBACK_DISTANCE = false)
            (pairs buildings boundaries))
  /\ (forall n : Z,
        10 <= n <= 1000 ->
        calculateDistance building_0 (boundary_at (n + 3)) = JS.of_Z n
        /\ checkSetbackDistance [building_0] [boundary_at (n + 3)] =
           mkVerdict true
             ("Building is " ++ NilZero.string_of_uint (N.to_uint (Z.to_N n))
              ++ " feet away from boundary on one side."))
  /\ (calculateDistance building_0 (rect "BOUNDARY" 13 13 2 2)
      = JS.Math_sqrt (JS.of_Z 200)
      /\ message (checkSetbackDistance [building_0] [rect "BOUNDARY" 13 13 2 2])
         = "Building is 14.142135623730951 feet away from boundary on one side."
      /\ message (checkSetbackDistance [building_0; rect "BUILDING" 0 0 4 10]
                                       [boundary_at 5; rect "BOUNDARY" 20 30 2 6])
         = "Building is 30.23243291566195 feet away from boundary on one side."
      /\ message (checkSetbackDistance [rect "BUILDING" 0 0 4 10]
                                       [boundary_at 5; rect "BOUNDARY" 20 30 2 6])
         = "Building is 27.80287754891569 feet away from boundary on one side."
      /\ message (checkSetbackDistance [building_0] [boundary_at 12])
         = "Building does not meet the 10-ft setback requirement on any side.").
Proof.
  split; [|split].
  - cbv zeta. rewrite checkSetbackDistance_find.
    destruct (find qualifies (pairs buildings boundaries)) as [[b bd]|] eqn:Hfind; simpl.
    + apply find_first in Hfind.
      destruct Hfind as (before & after & Heq & Hq & Hbefore).
      exists b, bd, before, after. repeat split; assumption.
    + split; [reflexivity|]. split; [reflexivity|].
      apply Forall_forall. intros p Hp.
      exact (proj1 (find_none_iff _ _) Hfind p Hp).
  - intros n Hn. split; [|exact (whole_distances_quoted n Hn)].
    assert (Hall :
      forallb (fun n => identical (calculateDistance building_0 (boundary_at (n + 3)))
                                  (JS.of_Z n))
              (whole_numbers 10 991) = true).
    { vm_compute. reflexivity. }
    rewrite forallb_forall in Hall.
    apply identical_eq. apply Hall. apply in_whole_numbers. lia.
  - repeat split; vm_compute; reflexivity.
Qed.

(** ** The classifier *)

Lemma layer_is_iff (e : Entity) (l : string) :
  layer_is e l = true <-> layer e = Some l.
Proof.
  unfold layer_is. destruct (layer e) as [s|]; [|split; discriminate].
  rewrite String.eqb_eq. split; congruence.
Qed.

Lemma building_not_boundary (e : Entity) :
  is_building e = true -> is_boundary e = false.
Proof.
  unfold is_building, is_boundary. intros H. apply layer_is_iff in H.
  unfold layer_is. rewrite H. reflexivity.
Qed.

Lemma classify_from (entities buildings boundaries : list Entity) :
  fold_left classify_step entities (buildings, boundaries) =
  ((buildings ++ filter is_building entities)%list,
   (boundaries ++ filter is_boundary entities)%list).
Proof.
  revert buildings boundaries.
  induction entities as [|e entities IH]; intros buildings boundaries; simpl.
  - now rewrite !app_nil_r.
  - fold (is_building e). fold (is_boundary e).
    destruct (is_building e) eqn:Hb.
    + rewrite (building_not_boundary e Hb), IH, <- app_assoc. reflexivity.
    + destruct (is_boundary e); rewrite IH; [rewrite <- app_assoc|]; reflexivity.
Qed.

Lemma partition_lengths (entities : list Entity) :
  (List.length (filter is_building entities) + List.length (filter is_boundary entities)
   + List.length (ignored entities) = List.length entities)%nat.
Proof.
  unfold ignored. fold is_building is_boundary.
  induction entities as [|e entities IH]; simpl; [reflexivity|].
  fold (is_building e) (is_boundary e).
  destruct (is_building e) eqn:Hb.
  - rewrite (building_not_boundary e Hb). simpl. lia.
  - destruct (is_boundary e); simpl; lia.
Qed.

(** C3.  The classifier returns, as buildings, the entities whose layer
    is exactly the string BUILDING and, as boundaries, the ones whose
    layer is exactly BOUNDARY, each group in the order of the input.
    Every other entity (a label written in lower case, say) is dropped:
    the two groups and the ignored entities add up to the input.  An
    empty input gives two empty groups. *)
Theorem C3_classifier_partitions_by_layer (entities : list Entity) :
  classify entities =
    (filter (fun e => layer_is e "BUILDING") entities,
     filter (fun e => layer_is e "BOUNDARY") entities)
  /\ (forall e, layer_is e "BUILDING" = true <-> layer e = Some "BUILDING")
  /\ (forall e, layer_is e "BOUNDARY" = true <-> layer e = Some "BOUNDARY")
  /\ (List.length (fst (classify entities)) + List.length (snd (classify entities))
      + List.length (ignored entities) = List.length entities)%nat
  /\ classify [] = ([], [])
  /\ classify [rect "building" 0 0 1 1; rect "BOUNDARY" 1 0 1 1;
               rect "BUILDING" 2 0 1 1; rect "Boundary" 3 0 1 1;
               rect "BUILDING" 4 0 1 1]
     = ([rect "BUILDING" 2 0 1 1; rect "BUILDING" 4 0 1 1],
        [rect "BOUNDARY" 1 0 1 1]).
Proof.
  assert (Hc : classify entities =
               (filter is_building entities, filter is_boundary entities)).
  { unfold classify. now rewrite classify_from. }
  repeat split.
  - exact Hc.
  - apply layer_is_iff.
  - apply layer_is_iff.
  - apply layer_is_iff.
  - apply layer_is_iff.
  - rewrite Hc. simpl. apply partition_lengths.
Qed.

(** ** The distance metric *)

(** [Math.max(0, v)]: NaN for NaN, [v] when [v] is greater than 0, and
    +0 for every other [v] (negative, -0, +0, -Infinity). *)
Lemma Math_max_zero (v : JS.number) :
  JS.Math_max zero v =
  if JS.is_nan v then JS.NaN
  else if JS.lt zero v then v
  else JS.pos_zero.
Proof. destruct v as [[|]|[|]| |[|] m e]; reflexivity. Qed.

(** C2.  [calculateDistance] is the square root of the sum of the
    squares of the two axis gaps, where the gap on an axis is
    max(0, |a.pos - b.pos| - (a.dim/2 + b.dim/2)), with the widths on
    the x axis and the heights on the y axis.  The operations are those
    of IEEE 754 binary64: difference, absolute value, quotient, sum,
    product and square root, each rounded to nearest.  On a grid of
    whole-number positions the result is the root of the sum of the
    squared whole-number gaps; the instances use different widths and
    heights, so that exchanging them changes the result. *)
Theorem C2_distance_is_root_of_squared_axis_gaps (a b : Entity) :
  let clamp := fun v : JS.number =>
    match v with
    | S754_nan => S754_nan
    | _ => if SFltb (S754_zero false) v then v else S754_zero false
    end in
  let gap := fun posA posB dimA dimB : JS.number =>
    clamp (SFsub 53 1024 (SFabs (SFsub 53 1024 posA posB))
                 (SFadd 53 1024 (SFdiv 53 1024 dimA (JS.of_Z 2))
                                (SFdiv 53 1024 dimB (JS.of_Z 2)))) in
  calculateDistance a b =
    JS.Math_sqrt (JS.add (JS.square (xGap a b)) (JS.square (yGap a b)))
  /\ xGap a b =
       JS.Math_max (JS.of_Z 0)
         (JS.sub (JS.Math_abs (JS.sub (JS.ToNumber (x a)) (JS.ToNumber (x b))))
                 (JS.add (JS.div (JS.ToNumber (width a)) (JS.of_Z 2))
                         (JS.div (JS.ToNumber (width b)) (JS.of_Z 2))))
  /\ yGap a b =
       JS.Math_max (JS.of_Z 0)
         (JS.sub (JS.Math_abs (JS.sub (JS.ToNumber (y a)) (JS.ToNumber (y b))))
                 (JS.add (JS.div (JS.ToNumber (height a)) (JS.of_Z 2))
                         (JS.div (JS.ToNumber (height b)) (JS.of_Z 2))))
  /\ (forall v, JS.Math_max (JS.of_Z 0) v =
                if JS.is_nan v then JS.NaN
                else if JS.lt (JS.of_Z 0) v then v else JS.pos_zero)
  /\ (forall n : JS.number, JS.ToNumber (Some n) = n)
  /\ xGap a b = gap (JS.ToNumber (x a)) (JS.ToNumber (x b))
                    (JS.ToNumber (width a)) (JS.ToNumber (width b))
  /\ yGap a b = gap (JS.ToNumber (y a)) (JS.ToNumber (y b))
                    (JS.ToNumber (height a)) (JS.ToNumber (height b))
  /\ calculateDistance a b =
       SFsqrt 53 1024
         (SFadd 53 1024 (SFmul 53 1024 (xGap a b) (xGap a b))
                        (SFmul 53 1024 (yGap a b) (yGap a b)))
  /\ (forall px py : Z,
        -40 <= px <= 40 -> -40 <= py <= 40 ->
        let gx := Z.max 0 (Z.abs px - 3) in
        let gy := Z.max 0 (Z.abs py - 3) in
        calculateDistance building_0 (rect "BOUNDARY" px py 2 2)
        = SFsqrt 53 1024 (JS.of_Z (gx * gx + gy * gy)))
  /\ (calculateDistance building_0 (rect "BOUNDARY" 6 7 2 2) = JS.of_Z 5
      /\ JS.of_Z 5 = S754_finite false 5629499534213120 (-50)
      /\ calculateDistance (rect "BUILDING" 0 0 4 10) (rect "BOUNDARY" 20 30 2 6)
         = S754_finite false 7825814310570264 (-48)
      /\ JS.toString (calculateDistance (rect "BUILDING" 0 0 4 10)
                                        (rect "BOUNDARY" 20 30 2 6))
         = "27.80287754891569"
      /\ JS.toString (calculateDistance (rect "BUILDING" 0 0 10 4)
                                        (rect "BOUNDARY" 20 30 6 2))
         = "29.546573405388315").
Proof.
  cbv zeta.
  assert (Hclamp : forall v : JS.number,
            JS.Math_max zero v =
            match v with
            | S754_nan => S754_nan
            | _ => if SFltb (S754_zero false) v then v else S754_zero false
            end).
  { intros v. destruct v as [[|]|[|]| |[|] m e]; reflexivity. }
  split; [reflexivity|]. split; [reflexivity|]. split; [reflexivity|].
  split; [exact Math_max_zero|].
  split; [reflexivity|].
  split; [unfold xGap, axisGap; rewrite Hclamp; reflexivity|].
  split; [unfold yGap, axisGap; rewrite Hclamp; reflexivity|].
  split; [reflexivity|].
  split.
  - intros px py Hx Hy.
    assert (Hall :
      forallb (fun p =>
                 let gx := Z.max 0 (Z.abs (fst p) - 3) in
                 let gy := Z.max 0 (Z.abs (snd p) - 3) in
                 identical (calculateDistance building_0 (rect "BOUNDARY" (fst p) (snd p) 2 2))
                           (SFsqrt 53 1024 (JS.of_Z (gx * gx + gy * gy))))
              (list_prod (whole_numbers (-40) 81) (whole_numbers (-40) 81)) = true).
    { vm_compute. reflexivity. }
    rewrite forallb_forall in Hall.
    apply identical_eq.
    apply (Hall (px, py)). apply in_prod; apply in_whole_numbers; lia.
  - repeat split; vm_compute; reflexivity.
Qed.

(** C9.  Scenario A: a 4 by 4 building at (0,0) and a 2 by 2 boundary at
    (20,0).  The centres are 20 apart, the half widths are 2 and 1, so
    the x gap is 17; the y gap is 0; the distance is 17, which is at
    least 10, and the verdict is compliant with 17 in its message. *)
Theorem C9_scenario_A :
  let building := rect "BUILDING" 0 0 4 4 in
  let boundary := rect "BOUNDARY" 20 0 2 2 in
  JS.Math_abs (JS.sub (JS.of_Z 0) (JS.of_Z 20)) = JS.of_Z 20
  /\ JS.add (JS.div (JS.of_Z 4) two) (JS.div (JS.of_Z 2) two) = JS.of_Z 3
  /\ xGap building boundary = JS.of_Z 17
  /\ yGap building boundary = JS.of_Z 0
  /\ calculateDistance building boundary = JS.of_Z 17
  /\ JS.ge (JS.of_Z 17) MIN_SETBACK_DISTANCE = true
  /\ JS.toString (JS.of_Z 17) = "17"
  /\ checkSetbackDistance [building] [boundary] =
       mkVerdict true "Building is 17 feet away from boundary on one side."
  /\ index 0 "17" (message (checkSetbackDistance [building] [boundary])) = Some 12%nat
  /\ validateDxfFile [building; boundary] =
       mkValidations
         (mkVerdict true "Building is 17 feet away from boundary on one side.").
Proof.
  cbv zeta. repeat split; vm_compute; reflexivity.
Qed.

(** ** Signs and NaN through the arithmetic *)

Section Rounding.
Lemma iter_pos_invariant {A : Type} (P : A -> Prop) (f : A -> A) :
  (forall a, P a -> P (f a)) ->
  forall n a, P a -> P (iter_pos f n a).
Proof.
  intros Hf. induction n as [n IH|n IH|]; intros a Ha; simpl; auto.
Qed.

Lemma shr_1_nonneg (mrs : shr_record) :
  0 <= shr_m mrs -> 0 <= shr_m (shr_1 mrs).
Proof.
  destruct mrs as [[|[p|p|]|p] r s]; simpl; intros H; lia.
Qed.

Lemma shr_fexp_nonneg (m e : Z) (l : location) :
  0 <= m -> 0 <= shr_m (fst (shr_fexp JS.prec JS.emax m e l)).
Proof.
  intros Hm. unfold shr_fexp, shr.
  assert (H0 : 0 <= shr_m (shr_record_of_loc m l)).
  { destruct l as [|[| |]]; exact Hm. }
  destruct (fexp _ _ _ - e) as [|p|p]; simpl; try exact H0.
  apply (iter_pos_invariant (fun mrs => 0 <= shr_m mrs)); [exact shr_1_nonneg | exact H0].
Qed.

Lemma round_nearest_even_nonneg (m : Z) (l : location) :
  0 <= m -> 0 <= round_nearest_even m l.
Proof.
  intros Hm. destruct l as [|[| |]]; simpl; try lia.
  destruct (Z.even m); lia.
Qed.

(** Rounding a non-negative mantissa never gives NaN, and the result
    has the sign that was asked for. *)
Lemma binary_round_aux_sign (s : bool) (m e : Z) (l : location) :
  0 <= m -> has_sign s (binary_round_aux JS.prec JS.emax s m e l).
Proof.
  intros Hm. unfold binary_round_aux.
  pose proof (shr_fexp_nonneg m e l Hm) as H1.
  destruct (shr_fexp JS.prec JS.emax m e l) as [mrs' e'].
  simpl in H1.
  pose proof (shr_fexp_nonneg _ e' loc_Exact
                (round_nearest_even_nonneg _ (loc_of_shr_record mrs') H1)) as H2.
  destruct (shr_fexp JS.prec JS.emax _ e' loc_Exact) as [mrs'' e''].
  simpl in H2.
  destruct (shr_m mrs'') as [|p|p]; [reflexivity | | lia].
  destruct (e'' <=? _); reflexivity.
Qed.

(** The sign asked for only decides the sign of the result. *)
Lemma binary_round_aux_abs (s s' : bool) (m e : Z) (l : location) :
  SFabs (binary_round_aux JS.prec JS.emax s m e l) =
  SFabs (binary_round_aux JS.prec JS.emax s' m e l).
Proof.
  unfold binary_round_aux.
  destruct (shr_fexp JS.prec JS.emax m e l) as [mrs' e'].
  destruct (shr_fexp JS.prec JS.emax _ e' loc_Exact) as [mrs'' e''].
  destruct (shr_m mrs''); [reflexivity | | reflexivity].
  destruct (e'' <=? _); reflexivity.
Qed.

Lemma binary_round_sign (s : bool) (m : positive) (e : Z) :
  has_sign s (binary_round JS.prec JS.emax s m e).
Proof.
  unfold binary_round. destruct (shl_align _ _ _) as [mz ez].
  apply binary_round_aux_sign. lia.
Qed.

Lemma binary_round_abs (s s' : bool) (m : positive) (e : Z) :
  SFabs (binary_round JS.prec JS.emax s m e) =
  SFabs (binary_round JS.prec JS.emax s' m e).
Proof.
  unfold binary_round. destruct (shl_align _ _ _) as [mz ez].
  apply binary_round_aux_abs.
Qed.
End Rounding.

(** *** Symmetry of the operands *)

Lemma binary_normalize_opp_abs (z e : Z) :
  SFabs (binary_normalize JS.prec JS.emax (- z) e false) =
  SFabs (binary_normalize JS.prec JS.emax z e false).
Proof.
  destruct z as [|p|p]; simpl; [reflexivity | |]; apply binary_round_abs.
Qed.

Lemma abs_sub_comm (p q : JS.number) :
  JS.Math_abs (JS.sub p q) = JS.Math_abs (JS.sub q p).
Proof.
  unfold JS.Math_abs, JS.sub.
  destruct p as [sp|sp| |sp mp ep], q as [sq|sq| |sq mq eq];
    try (destruct sp, sq; reflexivity); try reflexivity.
  unfold SFsub. rewrite (Z.min_comm eq ep).
  rewrite <- binary_normalize_opp_abs. f_equal. f_equal. lia.
Qed.

Lemma add_comm (p q : JS.number) : JS.add p q = JS.add q p.
Proof.
  unfold JS.add.
  destruct p as [sp|sp| |sp mp ep], q as [sq|sq| |sq mq eq];
    try (destruct sp, sq; reflexivity); try reflexivity.
  unfold SFadd. rewrite (Z.min_comm eq ep). f_equal. lia.
Qed.

Lemma axisGap_comm (posA posB dimA dimB : JS.number) :
  axisGap posA posB dimA dimB = axisGap posB posA dimB dimA.
Proof.
  unfold axisGap. now rewrite abs_sub_comm, add_comm.
Qed.

Lemma compare_refl (v : JS.number) :
  SFcompare v v = if JS.is_nan v then None else Some Eq.
Proof.
  destruct v as [s|s| |s m e]; simpl; try reflexivity.
  - destruct s; reflexivity.
  - rewrite Z.compare_refl, Pos.compare_cont_refl. destruct s; reflexivity.
Qed.

(** C8.  The distance is symmetric: swapping the two entities gives the
    same number.  (When that number is NaN the two calls still agree,
    though the [==] of the language answers false on NaN.) *)
Theorem C8_distance_symmetric (a b : Entity) :
  calculateDistance a b = calculateDistance b a
  /\ JS.eq (calculateDistance a b) (calculateDistance b a)
     = negb (JS.is_nan (calculateDistance a b)).
Proof.
  assert (Hsym : calculateDistance a b = calculateDistance b a).
  { unfold calculateDistance.
    change (JS.Math_sqrt (JS.add (JS.square (xGap a b)) (JS.square (yGap a b))) =
            JS.Math_sqrt (JS.add (JS.square (xGap b a)) (JS.square (yGap b a)))).
    unfold xGap, yGap.
    now rewrite (axisGap_comm (JS.ToNumber (x a))), (axisGap_comm (JS.ToNumber (y a))). }
  split; [exact Hsym|].
  rewrite <- Hsym. unfold JS.eq, SFeqb. rewrite compare_refl.
  destruct (JS.is_nan _); reflexivity.
Qed.

(** *** NaN through the metric *)

Lemma is_nan_eq (v : JS.number) : JS.is_nan v = true <-> v = JS.NaN.
Proof. unfold JS.NaN. destruct v; simpl; split; intros H; congruence. Qed.

Lemma axisGap_nan (posA posB dimA dimB : JS.number) :
  JS.is_nan posA || JS.is_nan posB || JS.is_nan dimA || JS.is_nan dimB = true ->
  axisGap posA posB dimA dimB = JS.NaN.
Proof.
  intros H. unfold axisGap.
  assert (Hsep : JS.sub (JS.Math_abs (JS.sub posA posB))
                        (JS.add (JS.div dimA two) (JS.div dimB two)) = JS.NaN).
  { repeat rewrite orb_true_iff in H. rewrite !is_nan_eq in H.
    destruct H as [[[-> | ->] | ->] | ->].
    - reflexivity.
    - destruct posA; reflexivity.
    - destruct (JS.Math_abs _); reflexivity.
    - destruct (JS.Math_abs _), (JS.div dimA two); reflexivity. }
  rewrite Hsep. reflexivity.
Qed.

Lemma distance_nan (a b : Entity) :
  xGap a b = JS.NaN \/ yGap a b = JS.NaN -> calculateDistance a b = JS.NaN.
Proof.
  change (calculateDistance a b)
    with (JS.Math_sqrt (JS.add (JS.square (xGap a b)) (JS.square (yGap a b)))).
  intros [-> | ->]; [reflexivity|].
  destruct (JS.square (xGap a b)); reflexivity.
Qed.

Lemma malformed_distance_nan (a b : Entity) :
  malformed a = true \/ malformed b = true -> calculateDistance a b = JS.NaN.
Proof.
  unfold malformed, missing. intros H. apply distance_nan.
  repeat rewrite orb_true_iff in H.
  destruct H as [[[[H | H] | H] | H] | [[[H | H] | H] | H]];
    [left | right | left | right | left | right | left | right];
    apply axisGap_nan; rewrite H; repeat rewrite orb_true_r; reflexivity.
Qed.

(** On entities of numbers: a property that is absent or NaN makes
    the distance NaN, and the pair never passes the test. *)
Lemma malformed_pair_never_qualifies (building boundary : Entity)
  (Hbad : malformed building = true \/ malformed boundary = true) :
  calculateDistance building boundary = JS.NaN
  /\ JS.ge (calculateDistance building boundary) MIN_SETBACK_DISTANCE = false
  /\ (forall buildings boundaries,
        find qualifies (pairs buildings boundaries) <> Some (building, boundary))
  /\ checkSetbackDistance [building] [boundary] =
       mkVerdict false noncompliant_message.
Proof.
  pose proof (malformed_distance_nan building boundary Hbad) as Hnan.
  assert (Hq : qualifies (building, boundary) = false).
  { unfold qualifies. simpl. rewrite Hnan. reflexivity. }
  repeat split.
  - exact Hnan.
  - rewrite Hnan. reflexivity.
  - intros buildings boundaries Hfind.
    apply find_some in Hfind. destruct Hfind as [_ Hq']. congruence.
  - unfold checkSetbackDistance. simpl.
    unfold qualifies in Hq. simpl in Hq. rewrite Hq. reflexivity.
Qed.

(** *** The same code on objects *)




(** An entity of numbers and absent properties is read the same way
    as an object. *)
Lemma distance_of_objects (a b : Entity) :
  calculateDistance a b = Dynamic.calculateDistance (object a) (object b).
Proof.
  destruct a as [la [xa|] [ya|] [wa|] [ha|]], b as [lb [xb|] [yb|] [wb|] [hb|]];
    reflexivity.
Qed.






(** *** Non-negative values through the metric *)

Lemma ge_zero_iff (v : JS.number) : JS.ge v zero = true <-> nonneg v.
Proof.
  destruct v as [s|[|]| |[|] m e]; simpl; split; intros H;
    try reflexivity; try discriminate; try contradiction; exact I.
Qed.

Lemma nonneg_not_lt_zero (v : JS.number) : nonneg v -> JS.lt v zero = false.
Proof. destruct v as [s|[|]| |[|] m e]; simpl; intros H; congruence || reflexivity || contradiction. Qed.

Lemma nonneg_not_nan (v : JS.number) : nonneg v -> JS.is_nan v = false.
Proof. destruct v; simpl; intros H; reflexivity || contradiction. Qed.

Lemma has_sign_nonneg (v : JS.number) : has_sign false v -> nonneg v.
Proof. destruct v; simpl; auto. Qed.

Lemma nonneg_clamp (v : JS.number) :
  JS.is_nan v = false -> nonneg (JS.Math_max zero v).
Proof. destruct v as [[|]|[|]| |[|] m e]; simpl; intros H; congruence || exact I. Qed.

Lemma nonneg_square (v : JS.number) :
  JS.is_nan v = false -> nonneg (JS.square v).
Proof.
  destruct v as [s|s| |s m e]; simpl; intros H; try discriminate.
  - exact I.
  - destruct s; reflexivity.
  - apply has_sign_nonneg. unfold JS.square, JS.mul, SFmul.
    rewrite xorb_nilpotent. apply binary_round_aux_sign. lia.
Qed.

Lemma nonneg_add (v w : JS.number) :
  nonneg v -> nonneg w -> nonneg (JS.add v w).
Proof.
  destruct v as [sv|sv| |sv mv ev], w as [sw|sw| |sw mw ew]; simpl;
    intros Hv Hw; subst; try contradiction; try reflexivity; try exact I.
  - destruct sv, sw; exact I.
  - apply has_sign_nonneg. unfold JS.add, SFadd. simpl cond_Zopp.
    destruct (shl_align mv ev _) as [mv' ev'], (shl_align mw ew _) as [mw' ew'].
    simpl. apply binary_round_sign.
Qed.

Lemma nonneg_sqrt (v : JS.number) : nonneg v -> nonneg (JS.Math_sqrt v).
Proof.
  destruct v as [s|s| |s m e]; simpl; intros H; subst; try contradiction;
    try reflexivity; try exact I.
  apply has_sign_nonneg. unfold JS.Math_sqrt, SFsqrt, SFsqrt_core_binary.
  set (m' := match (e - 2 * _)%Z with Z.pos _ => _ | _ => _ end).
  pose proof (Z.sqrtrem_spec m') as Hspec.
  assert (Hm' : 0 <= m').
  { subst m'. destruct (e - 2 * _)%Z; try lia. apply Z.shiftl_nonneg. lia. }
  specialize (Hspec Hm').
  destruct (Z.sqrtrem m') as [q r].
  apply binary_round_aux_sign. lia.
Qed.

Lemma nonneg_half (v : JS.number) : nonneg v -> nonneg (JS.div v two).
Proof.
  change two with (S754_finite false 4503599627370496 (-51)).
  destruct v as [s|s| |s m e]; simpl; intros H; subst; try contradiction;
    try reflexivity; try exact I.
  apply has_sign_nonneg. unfold JS.div, SFdiv, SFdiv_core_binary.
  set (m' := match (e - -51 - _)%Z with Z.pos _ => _ | Z0 => _ | Z.neg _ => _ end).
  assert (Hm' : 0 <= m').
  { subst m'. destruct (e - -51 - _)%Z; try lia. apply Z.shiftl_nonneg. lia. }
  pose proof (Z.div_pos m' 4503599627370496 Hm' eq_refl) as Hq.
  unfold Z.div in Hq.
  destruct (Z.div_eucl m' 4503599627370496) as [q r].
  apply binary_round_aux_sign. exact Hq.
Qed.

(** *** Counting binary digits *)

Lemma digits2_pos_size (p : positive) : digits2_pos p = Pos.size p.
Proof. induction p as [p IH|p IH|]; simpl; congruence. Qed.

Lemma Zdigits2_log2 (z : Z) : 0 < z -> Zdigits2 z = Z.log2 z + 1.
Proof.
  destruct z as [|p|p]; try lia. intros _. simpl. rewrite digits2_pos_size.
  destruct p as [p|p|]; simpl; lia.
Qed.

Lemma Zdigits2_nonneg (z : Z) : 0 <= Zdigits2 z.
Proof. destruct z; simpl; lia. Qed.

Lemma Zdigits2_le (a b : Z) : 0 <= a <= b -> Zdigits2 a <= Zdigits2 b.
Proof.
  intros [Ha Hab].
  destruct (Z.eq_dec a 0) as [-> | Hnz]; [apply Zdigits2_nonneg|].
  rewrite !Zdigits2_log2 by lia.
  pose proof (Z.log2_le_mono a b Hab). lia.
Qed.

Lemma Zdigits2_double (a : Z) : 0 < a -> Zdigits2 (2 * a) = Zdigits2 a + 1.
Proof.
  intros Ha. rewrite !Zdigits2_log2 by lia. rewrite Z.log2_double by lia. lia.
Qed.

Lemma Zdigits2_succ (a : Z) : 0 <= a -> Zdigits2 (a + 1) <= Zdigits2 a + 1.
Proof.
  intros Ha. destruct (Z.eq_dec a 0) as [-> | Hnz]; [simpl; lia|].
  rewrite !Zdigits2_log2 by lia.
  pose proof (Z.log2_succ_le a). unfold Z.succ in *. lia.
Qed.

Lemma Zdigits2_add (a b : Z) :
  Zdigits2 (a + b) <= Z.max (Zdigits2 a) (Zdigits2 b) + 1.
Proof.
  assert (Habs : forall z, Zdigits2 z = Zdigits2 (Z.abs z)).
  { intros [|p|p]; reflexivity. }
  rewrite (Habs (a + b)), (Habs a), (Habs b).
  set (c := Z.max (Z.abs a) (Z.abs b)).
  assert (Hc : Z.max (Zdigits2 (Z.abs a)) (Zdigits2 (Z.abs b)) = Zdigits2 c).
  { subst c. destruct (Z.max_spec (Z.abs a) (Z.abs b)) as [[H ->] | [H ->]].
    - apply Z.max_r, Zdigits2_le. lia.
    - apply Z.max_l, Zdigits2_le. lia. }
  rewrite Hc.
  destruct (Z.eq_dec c 0) as [H0 | Hnz].
  - assert (Z.abs (a + b) = 0) as -> by lia. rewrite H0. simpl. lia.
  - rewrite <- Zdigits2_double by lia. apply Zdigits2_le. lia.
Qed.

Lemma Zdigits2_shiftl (a n : Z) :
  0 < a -> 0 <= n -> Zdigits2 (Z.shiftl a n) = Zdigits2 a + n.
Proof.
  intros Ha Hn.
  assert (0 < Z.shiftl a n).
  { rewrite Z.shiftl_mul_pow2 by lia. apply Z.mul_pos_pos; [lia|].
    apply Z.pow_pos_nonneg; lia. }
  rewrite !Zdigits2_log2 by lia. rewrite Z.log2_shiftl by lia. lia.
Qed.

Lemma Zdigits2_div_pow2 (a n : Z) :
  0 <= a -> 0 <= n -> Zdigits2 (a / 2 ^ n) = Z.max 0 (Zdigits2 a - n).
Proof.
  intros Ha Hn. rewrite <- Z.shiftr_div_pow2 by lia.
  destruct (Z.eq_dec a 0) as [-> | Hnz].
  { rewrite Z.shiftr_0_l. simpl. lia. }
  destruct (Z.eq_dec (Z.shiftr a n) 0) as [H0 | Hq].
  - rewrite H0. apply Z.shiftr_eq_0_iff in H0.
    rewrite (Zdigits2_log2 a) by lia. simpl. lia.
  - assert (0 <= Z.shiftr a n) by (apply Z.shiftr_nonneg; lia).
    rewrite !Zdigits2_log2 by lia. rewrite Z.log2_shiftr by lia.
    assert (~ Z.log2 a < n).
    { intros Hlt. apply Hq. apply Z.shiftr_eq_0; lia. }
    lia.
Qed.

Lemma digits2_pos_iter_xO (m d : positive) :
  Z.pos (digits2_pos (Pos.iter xO m d)) = Z.pos (digits2_pos m) + Z.pos d.
Proof.
  induction d as [|d IH] using Pos.peano_ind.
  - simpl. lia.
  - rewrite Pos.iter_succ. simpl. lia.
Qed.

Lemma shr_1_digits (mrs : shr_record) :
  0 <= shr_m mrs ->
  0 <= shr_m (shr_1 mrs) /\
  Zdigits2 (shr_m (shr_1 mrs)) = Z.max 0 (Zdigits2 (shr_m mrs) - 1).
Proof.
  destruct mrs as [[|[p|p|]|p] r s];
    cbn [shr_1 shr_m Zdigits2 digits2_pos]; intros H; split;
    rewrite ?Pos2Z.inj_succ; lia.
Qed.

Lemma iter_shr_1_digits (n : positive) (mrs : shr_record) :
  0 <= shr_m mrs ->
  0 <= shr_m (iter_pos shr_1 n mrs) /\
  Zdigits2 (shr_m (iter_pos shr_1 n mrs)) = Z.max 0 (Zdigits2 (shr_m mrs) - Z.pos n).
Proof.
  revert mrs. induction n as [n IH|n IH|]; intros mrs H; simpl.
  - destruct (shr_1_digits mrs H) as [H1 E1].
    destruct (IH _ H1) as [H2 E2]. destruct (IH _ H2) as [H3 E3].
    split; [exact H3|]. rewrite E3, E2, E1. lia.
  - destruct (IH _ H) as [H2 E2]. destruct (IH _ H2) as [H3 E3].
    split; [exact H3|]. rewrite E3, E2. lia.
  - apply shr_1_digits, H.
Qed.

Lemma fexp_eq (e : Z) : fexp JS.prec JS.emax e = fexp64 e.
Proof. reflexivity. Qed.

(** The two cases of [shr_fexp]: nothing moves, or the mantissa is
    shifted down to the exponent that [fexp] asks for. *)
Lemma shr_fexp_digits (m e : Z) (l : location) :
  0 <= m ->
  let d := Zdigits2 m in
  let r := shr_fexp JS.prec JS.emax m e l in
  0 <= shr_m (fst r) /\
  ((fexp64 (d + e) <= e /\ snd r = e /\ shr_m (fst r) = m) \/
   (e < fexp64 (d + e) /\ snd r = fexp64 (d + e) /\
    Zdigits2 (shr_m (fst r)) = Z.max 0 (d + e - fexp64 (d + e)))).
Proof.
  intros Hm d r. subst r. unfold shr_fexp, shr. rewrite fexp_eq. fold d.
  assert (H0 : shr_m (shr_record_of_loc m l) = m).
  { destruct l as [|[| |]]; reflexivity. }
  destruct (fexp64 (d + e) - e) as [|p|p] eqn:Hn; simpl.
  - rewrite H0. split; [lia|]. left. repeat split; lia.
  - destruct (iter_shr_1_digits p (shr_record_of_loc m l)) as [Hp Ed]; [lia|].
    split; [exact Hp|]. right. rewrite Ed, H0. fold d. repeat split; lia.
  - rewrite H0. split; [lia|]. left. repeat split; lia.
Qed.

Lemma round_nearest_even_digits (m : Z) (l : location) :
  0 <= m ->
  0 <= round_nearest_even m l /\
  Zdigits2 (round_nearest_even m l) <= Zdigits2 m + 1.
Proof.
  intros Hm. pose proof (Zdigits2_succ m Hm).
  destruct l as [|[| |]]; simpl; try (split; lia).
  destruct (Z.even m); split; lia.
Qed.

(** Rounding does not overflow when the magnitude is below [2^1023]. *)
Lemma binary_round_aux_below (s : bool) (m e : Z) (l : location) (k : Z) :
  0 <= m -> Zdigits2 m + e <= k -> e <= 971 -> 971 <= k <= 1023 ->
  below (k + 1) (binary_round_aux JS.prec JS.emax s m e l).
Proof.
  intros Hm Hd He Hk. unfold binary_round_aux.
  pose proof (shr_fexp_digits m e l Hm) as H1. cbv zeta in H1.
  destruct (shr_fexp JS.prec JS.emax m e l) as [mrs1 e1]. simpl in H1.
  destruct H1 as [Hm1 H1].
  assert (B1 : Zdigits2 (shr_m mrs1) + e1 <= k /\ e1 <= 971).
  { unfold fexp64 in H1. destruct H1 as [(_ & -> & ->) | (Hlt & -> & Ed)]; lia. }
  destruct (round_nearest_even_digits (shr_m mrs1) (loc_of_shr_record mrs1) Hm1)
    as [Hm2 Hd2].
  set (m2 := round_nearest_even _ _) in *.
  pose proof (shr_fexp_digits m2 e1 loc_Exact Hm2) as H3. cbv zeta in H3.
  destruct (shr_fexp JS.prec JS.emax m2 e1 loc_Exact) as [mrs3 e3]. simpl in H3.
  destruct H3 as [Hm3 H3].
  assert (B3 : Zdigits2 (shr_m mrs3) + e3 <= k + 1 /\ e3 <= 971).
  { unfold fexp64 in H3. destruct H3 as [(_ & -> & ->) | (Hlt & -> & Ed)]; lia. }
  destruct (shr_m mrs3) as [|p|p]; [exact I | | lia].
  replace (e3 <=? JS.emax - JS.prec) with true
    by (symmetry; apply Z.leb_le; unfold JS.emax, JS.prec; lia).
  simpl. simpl in B3. lia.
Qed.

Lemma binary_round_below (s : bool) (m : positive) (e k : Z) :
  Z.pos (digits2_pos m) + e <= k -> 971 <= k <= 1023 ->
  below (k + 1) (binary_round JS.prec JS.emax s m e).
Proof.
  intros Hd Hk. unfold binary_round, shl_align. rewrite fexp_eq.
  unfold fexp64.
  destruct (Z.max _ _ - e) as [|p|p] eqn:Hn.
  - apply binary_round_aux_below; cbn [Zdigits2]; lia.
  - apply binary_round_aux_below; cbn [Zdigits2]; lia.
  - apply binary_round_aux_below; try lia.
    cbn [Zdigits2]. rewrite digits2_pos_iter_xO. lia.
Qed.

Lemma binary_normalize_below (z e k : Z) :
  Zdigits2 z + e <= k -> 971 <= k <= 1023 ->
  below (k + 1) (binary_normalize JS.prec JS.emax z e false).
Proof.
  intros Hd Hk. destruct z as [|p|p]; simpl; [exact I | |];
    apply binary_round_below; assumption.
Qed.

Lemma below_finite (k : Z) (v : JS.number) : below k v -> is_finite v = true.
Proof. destruct v; simpl; intros H; reflexivity || contradiction. Qed.

(** Halving a number below [2^1022] gives a number below [2^1022]. *)
Lemma half_below (v : JS.number) : below 1022 v -> below 1022 (JS.div v two).
Proof.
  change two with (S754_finite false 4503599627370496 (-51)).
  destruct v as [s|s| |s m e]; cbn [below]; intros H; try contradiction; [exact I|].
  unfold JS.div, SFdiv, SFdiv_core_binary.
  cbn [Zdigits2 digits2_pos]. rewrite fexp_eq.
  set (d := Z.pos (digits2_pos m)) in *.
  change (Z.pos (Pos.succ _)) with 53.
  set (e' := Z.min (fexp64 (d + e - (53 + -51))) (e - -51)).
  set (m' := match (e - -51 - e')%Z with Z.pos _ => _ | Z0 => _ | Z.neg _ => _ end).
  assert (He' : e' <= 967) by (subst e'; unfold fexp64; lia).
  assert (Hm' : 0 <= m' /\ Zdigits2 m' + e' <= d + e + 51).
  { subst m'. destruct (e - -51 - e')%Z as [|p|p] eqn:Hs.
    - cbn [Zdigits2]. fold d. lia.
    - rewrite Zdigits2_shiftl by lia. cbn [Zdigits2]. fold d.
      split; [apply Z.shiftl_nonneg|]; lia.
    - simpl. lia. }
  destruct Hm' as [Hm' Hdm'].
  pose proof (Zdigits2_div_pow2 m' 52 Hm' ltac:(lia)) as Hq.
  pose proof (Z.div_pos m' (2 ^ 52) Hm' eq_refl) as Hq0.
  change (2 ^ 52) with 4503599627370496 in *.
  unfold Z.div in Hq, Hq0.
  destruct (Z.div_eucl m' 4503599627370496) as [q r].
  change 1022 with (1021 + 1).
  apply binary_round_aux_below; lia.
Qed.

Lemma shl_align_digits (m : positive) (e ez : Z) :
  ez <= e ->
  Z.pos (digits2_pos (fst (shl_align m e ez))) + ez = Z.pos (digits2_pos m) + e.
Proof.
  intros H. unfold shl_align.
  destruct (ez - e) as [|p|p] eqn:Hn; cbn [fst]; try lia.
  rewrite digits2_pos_iter_xO. lia.
Qed.

(** The sum of two numbers below [2^1022] is finite. *)
Lemma add_below (v w : JS.number) :
  below 1022 v -> below 1022 w -> is_finite (JS.add v w) = true.
Proof.
  destruct v as [sv|sv| |sv mv ev], w as [sw|sw| |sw mw ew]; cbn [below];
    intros Hv Hw; try contradiction; try reflexivity.
  - destruct sv, sw; reflexivity.
  - apply (below_finite (1023 + 1)). unfold JS.add, SFadd.
    apply binary_normalize_below; [|lia].
    pose proof (shl_align_digits mv ev (Z.min ev ew) ltac:(lia)) as Dv.
    pose proof (shl_align_digits mw ew (Z.min ev ew) ltac:(lia)) as Dw.
    set (a := cond_Zopp sv _). set (b := cond_Zopp sw _).
    assert (Da : Zdigits2 a = Z.pos (digits2_pos (fst (shl_align mv ev (Z.min ev ew))))).
    { subst a. destruct sv; reflexivity. }
    assert (Db : Zdigits2 b = Z.pos (digits2_pos (fst (shl_align mw ew (Z.min ev ew))))).
    { subst b. destruct sw; reflexivity. }
    pose proof (Zdigits2_add a b). lia.
Qed.

Lemma sub_not_nan (v w : JS.number) :
  nonneg v -> is_finite w = true -> JS.is_nan (JS.sub v w) = false.
Proof.
  destruct v as [sv|sv| |sv mv ev], w as [sw|sw| |sw mw ew]; simpl;
    intros Hv Hw; try contradiction; try discriminate; try reflexivity.
  - destruct sv, sw; reflexivity.
  - unfold JS.sub, SFsub.
    destruct (_ - _)%Z as [|p|p]; simpl; [reflexivity | |];
      match goal with
      | |- JS.is_nan (binary_round _ _ ?s ?m ?e) = false =>
          pose proof (binary_round_sign s m e) as Hs;
          destruct (binary_round JS.prec JS.emax s m e); simpl in Hs;
          reflexivity || contradiction
      end.
Qed.

Lemma abs_sub_nonneg (v w : JS.number) :
  is_finite v = true -> is_finite w = true ->
  nonneg (JS.Math_abs (JS.sub v w)).
Proof.
  destruct v as [sv|sv| |sv mv ev], w as [sw|sw| |sw mw ew]; simpl;
    intros Hv Hw; try discriminate; try reflexivity; try exact I.
  - destruct sv, sw; exact I.
  - unfold JS.sub, SFsub.
    destruct (_ - _)%Z as [|p|p]; simpl; [exact I | |];
      match goal with
      | |- nonneg (JS.Math_abs (binary_round _ _ ?s ?m ?e)) =>
          pose proof (binary_round_sign s m e) as Hs;
          destruct (binary_round JS.prec JS.emax s m e); simpl in Hs;
          simpl; auto
      end.
Qed.

(** *** The value of a shifted mantissa *)

Lemma pow2_xO (n : positive) : 2 ^ Z.pos n~0 = 2 ^ Z.pos n * 2 ^ Z.pos n.
Proof.
  replace (Z.pos n~0) with (Z.pos n + Z.pos n) by lia.
  now rewrite Z.pow_add_r by lia.
Qed.

Lemma pow2_xI (n : positive) : 2 ^ Z.pos n~1 = 2 * (2 ^ Z.pos n * 2 ^ Z.pos n).
Proof.
  replace (Z.pos n~1) with (1 + (Z.pos n + Z.pos n)) by lia.
  now rewrite !Z.pow_add_r by lia.
Qed.

Lemma pow2_pos (n : Z) : 0 <= n -> 0 < 2 ^ n.
Proof. intros H. apply Z.pow_pos_nonneg; lia. Qed.

Lemma shr_1_value (mrs : shr_record) :
  0 <= shr_m mrs -> shr_m (shr_1 mrs) = shr_m mrs / 2.
Proof.
  intros H. rewrite <- Z.div2_div.
  destruct mrs as [[|[p|p|]|p] r s]; try reflexivity. simpl in H. lia.
Qed.

Lemma iter_shr_1_value (n : positive) (mrs : shr_record) :
  0 <= shr_m mrs ->
  shr_m (iter_pos shr_1 n mrs) = shr_m mrs / 2 ^ Z.pos n.
Proof.
  revert mrs. induction n as [n IH|n IH|]; intros mrs H; simpl iter_pos.
  - pose proof (shr_1_nonneg mrs H) as H1.
    pose proof (proj1 (iter_shr_1_digits n _ H1)) as H2.
    pose proof (pow2_pos (Z.pos n) ltac:(lia)) as Hp.
    rewrite IH, IH, shr_1_value by assumption.
    rewrite !Z.div_div by lia. now rewrite pow2_xI.
  - pose proof (proj1 (iter_shr_1_digits n _ H)) as H2.
    pose proof (pow2_pos (Z.pos n) ltac:(lia)) as Hp.
    rewrite IH, IH by assumption.
    rewrite Z.div_div by lia. now rewrite pow2_xO.
  - rewrite shr_1_value by assumption. reflexivity.
Qed.

Lemma shr_1_exact (mrs : shr_record) (k : Z) :
  0 <= shr_m mrs -> nothing_lost mrs -> shr_m mrs = 2 * k ->
  nothing_lost (shr_1 mrs).
Proof.
  destruct mrs as [m r s]. unfold nothing_lost. cbn [shr_m shr_r shr_s].
  intros H0 [-> ->] Hk.
  destruct m as [|[p|p|]|p]; cbn; try (split; reflexivity); lia.
Qed.

(** Shifting out bits that are all zero records no loss. *)
Lemma iter_shr_1_exact (n : positive) (mrs : shr_record) (k : Z) :
  0 <= shr_m mrs -> nothing_lost mrs -> shr_m mrs = k * 2 ^ Z.pos n ->
  nothing_lost (iter_pos shr_1 n mrs).
Proof.
  revert mrs k. induction n as [n IH|n IH|]; intros mrs k H0 Hl Hk; simpl iter_pos.
  - pose proof (pow2_pos (Z.pos n) ltac:(lia)) as Hp.
    rewrite pow2_xI in Hk.
    assert (E1 : shr_m mrs = 2 * (k * 2 ^ Z.pos n * 2 ^ Z.pos n)) by lia.
    pose proof (shr_1_exact mrs _ H0 Hl E1) as Hl1.
    pose proof (shr_1_nonneg mrs H0) as H1.
    assert (V1 : shr_m (shr_1 mrs) = k * 2 ^ Z.pos n * 2 ^ Z.pos n).
    { rewrite shr_1_value, E1 by assumption.
      rewrite Z.mul_comm, Z.div_mul by lia. reflexivity. }
    pose proof (IH _ _ H1 Hl1 V1) as Hl2.
    pose proof (proj1 (iter_shr_1_digits n _ H1)) as H2.
    apply (IH _ k H2 Hl2).
    rewrite iter_shr_1_value, V1 by assumption. now rewrite Z.div_mul by lia.
  - pose proof (pow2_pos (Z.pos n) ltac:(lia)) as Hp.
    rewrite pow2_xO, Z.mul_assoc in Hk.
    pose proof (IH _ _ H0 Hl Hk) as Hl2.
    pose proof (proj1 (iter_shr_1_digits n _ H0)) as H2.
    apply (IH _ k H2 Hl2).
    rewrite iter_shr_1_value, Hk by assumption. now rewrite Z.div_mul by lia.
  - apply (shr_1_exact mrs k H0 Hl). rewrite Hk. change (2 ^ 1) with 2. lia.
Qed.

Lemma Zdigits2_lt_pow2 (m k : Z) : 0 <= k -> 0 <= m < 2 ^ k -> Zdigits2 m <= k.
Proof.
  intros Hk [Hm Hlt]. destruct (Z.eq_dec m 0) as [-> | Hnz]; [simpl; lia|].
  rewrite Zdigits2_log2 by lia.
  pose proof (proj1 (Z.log2_lt_pow2 m k ltac:(lia)) Hlt). lia.
Qed.

(** [shr_fexp] on an exact mantissa: the value after the shift, and the
    location when the bits shifted out are zero. *)
Lemma shr_fexp_exact (m e : Z) :
  0 <= m ->
  let d := Zdigits2 m in
  let n := fexp64 (d + e) - e in
  let r := shr_fexp JS.prec JS.emax m e loc_Exact in
  0 < n ->
  shr_m (fst r) = m / 2 ^ n /\
  (forall k, m = k * 2 ^ n -> loc_of_shr_record (fst r) = loc_Exact).
Proof.
  intros Hm d n r Hn. subst r. unfold shr_fexp, shr. rewrite fexp_eq.
  fold d. fold n. destruct n as [|p|p]; try lia. simpl fst.
  split.
  - now rewrite iter_shr_1_value.
  - intros k Hk.
    destruct (iter_shr_1_exact p (shr_record_of_loc m loc_Exact) k) as [Hr Hs];
      [exact Hm | split; reflexivity | exact Hk |].
    destruct (iter_pos shr_1 p _) as [m' r' s']. simpl in Hr, Hs. now subst.
Qed.

Lemma shr_fexp_no_shift (m e : Z) (l : location) :
  fexp64 (Zdigits2 m + e) <= e ->
  shr_fexp JS.prec JS.emax m e l = (shr_record_of_loc m l, e).
Proof.
  intros H. unfold shr_fexp, shr. rewrite fexp_eq.
  destruct (fexp64 (Zdigits2 m + e) - e) as [|p|p] eqn:Hn; try reflexivity. lia.
Qed.

(** Rounding an exact mantissa whose value is at most the largest
    binary64 number gives zero or a finite number. *)
Lemma binary_round_aux_no_overflow (s : bool) (m e : Z) :
  0 <= m -> e <= 971 -> m <= max_mantissa * 2 ^ (971 - e) ->
  e <= fexp64 (Zdigits2 m + e) ->
  is_finite (binary_round_aux JS.prec JS.emax s m e loc_Exact) = true.
Proof.
  intros Hm He Hv Hpre.
  pose proof (pow2_pos (971 - e) ltac:(lia)) as Hpow.
  assert (Hd : Zdigits2 m + e <= 1024).
  { assert (Zdigits2 m <= 1024 - e); [|lia].
    apply Zdigits2_lt_pow2; [lia|]. split; [lia|].
    replace (1024 - e) with (53 + (971 - e)) by lia.
    rewrite Z.pow_add_r by lia. unfold max_mantissa in Hv. nia. }
  (* after the first shift and the rounding: a mantissa that fits *)
  assert (Hfit : forall m2 e1, 0 <= m2 -> e1 <= 971 -> Zdigits2 m2 + e1 <= 1024 ->
            is_finite
              (let '(mrs3, e3) := shr_fexp JS.prec JS.emax m2 e1 loc_Exact in
               match shr_m mrs3 with
               | 0 => S754_zero s
               | Z.pos p => if e3 <=? JS.emax - JS.prec
                            then S754_finite s p e3 else S754_infinity s
               | Z.neg _ => S754_nan
               end) = true).
  { intros m2 e1 Hm2 He1 Hd2.
    pose proof (shr_fexp_digits m2 e1 loc_Exact Hm2) as H3. cbv zeta in H3.
    destruct (shr_fexp JS.prec JS.emax m2 e1 loc_Exact) as [mrs3 e3].
    simpl in H3. destruct H3 as [Hm3 H3].
    assert (e3 <= 971).
    { unfold fexp64 in H3. destruct H3 as [(_ & -> & _) | (_ & -> & _)]; lia. }
    destruct (shr_m mrs3) as [|p|p]; [reflexivity | | lia].
    replace (e3 <=? JS.emax - JS.prec) with true
      by (symmetry; apply Z.leb_le; unfold JS.emax, JS.prec; lia).
    reflexivity. }
  unfold binary_round_aux.
  destruct (Z_le_gt_dec (fexp64 (Zdigits2 m + e)) e) as [Hno | Hshift].
  - rewrite shr_fexp_no_shift by exact Hno. simpl shr_m. simpl round_nearest_even.
    apply Hfit; lia.
  - pose proof (shr_fexp_exact m e Hm) as Hex. cbv zeta in Hex.
    pose proof (shr_fexp_digits m e loc_Exact Hm) as Hdig. cbv zeta in Hdig.
    destruct (shr_fexp JS.prec JS.emax m e loc_Exact) as [mrs1 e1].
    simpl fst in Hex, Hdig. simpl snd in Hdig.
    destruct (Hex ltac:(lia)) as [Hval Hloc]. destruct Hdig as [Hm1 Hdig].
    assert (Hdig1 : e1 = fexp64 (Zdigits2 m + e) /\
                    Zdigits2 (shr_m mrs1)
                    = Z.max 0 (Zdigits2 m + e - fexp64 (Zdigits2 m + e))).
    { destruct Hdig as [(Hle & _) | (_ & E1 & E)]; [lia | split; assumption]. }
    destruct Hdig1 as [-> Hdig1].
    destruct (round_nearest_even_digits (shr_m mrs1) (loc_of_shr_record mrs1) Hm1)
      as [Hm2 Hd2].
    apply Hfit; [exact Hm2 | unfold fexp64; lia |].
    destruct (Z_le_gt_dec (fexp64 (Zdigits2 m + e)) 970) as [Hsmall | Hbig].
    + unfold fexp64 in *. lia.
    + assert (Hn' : fexp64 (Zdigits2 m + e) - e = 971 - e)
        by (unfold fexp64 in *; lia).
      rewrite Hn' in Hval, Hloc.
      assert (Hm1le : shr_m mrs1 <= max_mantissa).
      { rewrite Hval. apply Z.div_le_upper_bound; lia. }
      assert (Hm2le : round_nearest_even (shr_m mrs1) (loc_of_shr_record mrs1)
                      <= max_mantissa).
      { destruct (Z.eq_dec (shr_m mrs1) max_mantissa) as [Heq | Hne].
        - rewrite (Hloc max_mantissa); [simpl; lia|].
          rewrite Hval in Heq.
          pose proof (Z.mul_div_le m (2 ^ (971 - e)) Hpow). lia.
        - destruct (loc_of_shr_record mrs1) as [|[| |]]; simpl; try lia.
          destruct (Z.even _); lia. }
      pose proof (Zdigits2_le _ max_mantissa (conj Hm2 Hm2le)) as Hd53.
      change (Zdigits2 max_mantissa) with 53 in Hd53.
      assert (fexp64 (Zdigits2 m + e) = 971) by (unfold fexp64 in *; lia).
      lia.
Qed.

Lemma iter_xO_value (m d : positive) :
  Z.pos (Pos.iter xO m d) = Z.pos m * 2 ^ Z.pos d.
Proof.
  induction d as [|d IH] using Pos.peano_ind.
  - simpl. lia.
  - rewrite Pos.iter_succ, Pos2Z.inj_xO, IH, Pos2Z.inj_succ, Z.pow_succ_r by lia.
    lia.
Qed.

Lemma binary_round_no_overflow (s : bool) (m : positive) (e : Z) :
  e <= 971 -> Z.pos m <= max_mantissa * 2 ^ (971 - e) ->
  is_finite (binary_round JS.prec JS.emax s m e) = true.
Proof.
  intros He Hv. unfold binary_round, shl_align. rewrite fexp_eq.
  destruct (fexp64 (Z.pos (digits2_pos m) + e) - e) as [|p|p] eqn:Hn.
  - apply binary_round_aux_no_overflow; cbn [Zdigits2]; lia.
  - apply binary_round_aux_no_overflow; cbn [Zdigits2]; lia.
  - apply binary_round_aux_no_overflow; cbn [Zdigits2]; try lia.
    + rewrite iter_xO_value.
      replace (971 - fexp64 (Z.pos (digits2_pos m) + e))
        with ((971 - e) + Z.pos p) by lia.
      rewrite Z.pow_add_r by lia.
      pose proof (pow2_pos (Z.pos p) ltac:(lia)). nia.
    + rewrite digits2_pos_iter_xO.
      replace (Z.pos (digits2_pos m) + Z.pos p + fexp64 (Z.pos (digits2_pos m) + e))
        with (Z.pos (digits2_pos m) + e) by lia.
      lia.
Qed.

Lemma binary_normalize_no_overflow (z e : Z) :
  e <= 971 -> Z.abs z <= max_mantissa * 2 ^ (971 - e) ->
  is_finite (binary_normalize JS.prec JS.emax z e false) = true.
Proof.
  intros He Hv. destruct z as [|p|p]; simpl; [reflexivity | |];
    apply binary_round_no_overflow; assumption.
Qed.

Lemma div_eucl_shiftl_53 (m : positive) :
  Z.div_eucl (Z.shiftl (Z.pos m) 53) 4503599627370496 = (Z.pos m~0, 0).
Proof.
  rewrite Z.shiftl_mul_pow2 by lia.
  pose proof (Z.div_mul (Z.pos m~0) 4503599627370496 ltac:(lia)) as Hq.
  pose proof (Z.mod_mul (Z.pos m~0) 4503599627370496 ltac:(lia)) as Hr.
  replace (Z.pos m * 2 ^ 53) with (Z.pos m~0 * 4503599627370496)
    by (change (2 ^ 53) with (2 * 4503599627370496); lia).
  unfold Z.div, Z.modulo in Hq, Hr.
  destruct (Z.div_eucl _ _) as [q r]. now subst.
Qed.

Lemma positive_lt_pow2_size (m : positive) :
  Z.pos m < 2 ^ Z.pos (digits2_pos m).
Proof.
  pose proof (Zdigits2_log2 (Z.pos m) ltac:(lia)) as H. cbn [Zdigits2] in H.
  pose proof (Z.log2_spec (Z.pos m) ltac:(lia)) as [_ Hlt].
  unfold Z.succ in Hlt. now rewrite H.
Qed.

(** Halving a large number only lowers its exponent. *)
Lemma half_of_large (s : bool) (m : positive) (e : Z) :
  digits2_pos m = 53%positive -> 970 <= e <= 971 ->
  JS.div (S754_finite s m e) two = S754_finite s m (e - 1).
Proof.
  intros Hd He.
  change two with (S754_finite false 4503599627370496 (-51)).
  unfold JS.div, SFdiv, SFdiv_core_binary.
  cbn [Zdigits2 digits2_pos]. rewrite Hd, xorb_false_r.
  assert (Hcase : e = 970 \/ e = 971) by lia.
  destruct Hcase as [-> | ->];
    cbn -[Z.div_eucl Z.shiftl binary_round_aux new_location];
    rewrite div_eucl_shiftl_53;
    change (new_location 4503599627370496 0) with loc_Exact;
    unfold binary_round_aux, shr_fexp;
    cbn [Zdigits2 digits2_pos]; rewrite Hd; cbn;
    rewrite Hd; reflexivity.
Qed.

Lemma half_of_valid (v : JS.number) :
  is_finite v = true -> JS.valid v = true -> half_sized (JS.div v two).
Proof.
  destruct v as [s|s| |s m e]; cbn [is_finite]; intros Hf Hv; try discriminate.
  - left. exact I.
  - destruct (Z_le_gt_dec (Z.pos (digits2_pos m) + e) 1022) as [Hsmall | Hlarge].
    + left. apply half_below. exact Hsmall.
    + right. unfold JS.valid, valid_binary, bounded, canonical_mantissa in Hv.
      rewrite fexp_eq in Hv. apply andb_true_iff in Hv. destruct Hv as [Hc He].
      apply Z.eqb_eq in Hc. apply Z.leb_le in He.
      unfold JS.emax, JS.prec, fexp64 in *.
      assert (Hd : digits2_pos m = 53%positive) by lia.
      rewrite (half_of_large s m e Hd) by lia.
      pose proof (positive_lt_pow2_size m) as Hm. rewrite Hd in Hm.
      unfold at_most_half_max, max_mantissa. lia.
Qed.

Lemma shl_align_value (m : positive) (e ez : Z) :
  ez <= e -> Z.pos (fst (shl_align m e ez)) = Z.pos m * 2 ^ (e - ez).
Proof.
  intros H. unfold shl_align.
  destruct (ez - e) as [|p|p] eqn:Hn; cbn [fst]; try lia.
  - replace (e - ez) with 0 by lia. lia.
  - rewrite iter_xO_value. f_equal. f_equal. lia.
Qed.

Lemma aligned_half_sized (s : bool) (m : positive) (e ez : Z) :
  half_sized (S754_finite s m e) -> ez <= e -> ez <= 970 ->
  Z.pos (fst (shl_align m e ez)) <= max_mantissa * 2 ^ (970 - ez).
Proof.
  intros Hh Hez Hez'. rewrite shl_align_value by exact Hez.
  pose proof (pow2_pos (e - ez) ltac:(lia)) as Hp.
  destruct Hh as [Hb | [Hm He]]; cbn [below] in *.
  - pose proof (positive_lt_pow2_size m) as Hm.
    set (d := Z.pos (digits2_pos m)) in *.
    assert (H1 : Z.pos m * 2 ^ (e - ez) < 2 ^ d * 2 ^ (e - ez)) by nia.
    assert (H2 : 2 ^ (d + (e - ez)) <= 2 ^ (52 + (970 - ez))).
    { apply Z.pow_le_mono_r; lia. }
    rewrite !Z.pow_add_r in H2 by lia.
    pose proof (pow2_pos (970 - ez) ltac:(lia)).
    unfold max_mantissa.
    change (2 ^ 52) with 4503599627370496 in H2.
    change (2 ^ 53 - 1) with 9007199254740991. nia.
  - assert (H2 : 2 ^ (e - ez) <= 2 ^ (970 - ez)) by (apply Z.pow_le_mono_r; lia).
    unfold max_mantissa in *.
    change (2 ^ 53 - 1) with 9007199254740991 in *. nia.
Qed.

(** The sum of two halves of binary64 numbers does not overflow. *)
Lemma add_half_sized (v w : JS.number) :
  half_sized v -> half_sized w -> is_finite (JS.add v w) = true.
Proof.
  intros Hv Hw.
  destruct Hv as [Hv | Hv], Hw as [Hw | Hw];
    try (now apply add_below);
    destruct v as [sv|sv| |sv mv ev], w as [sw|sw| |sw mw ew];
    cbn [below at_most_half_max] in Hv, Hw; try contradiction; try reflexivity.
  all: unfold JS.add, SFadd; apply binary_normalize_no_overflow; [lia|].
  all: set (ez := Z.min ev ew).
  all: assert (Hez : ez <= 970) by (subst ez; lia).
  all: replace (971 - ez) with (1 + (970 - ez)) by lia;
       rewrite Z.pow_add_r by lia; change (2 ^ 1) with 2.
  1: pose proof (aligned_half_sized sv mv ev ez (or_introl Hv) ltac:(subst ez; lia) Hez) as Ha;
     pose proof (aligned_half_sized sw mw ew ez (or_intror Hw) ltac:(subst ez; lia) Hez) as Hb.
  2: pose proof (aligned_half_sized sv mv ev ez (or_intror Hv) ltac:(subst ez; lia) Hez) as Ha;
     pose proof (aligned_half_sized sw mw ew ez (or_introl Hw) ltac:(subst ez; lia) Hez) as Hb.
  3: pose proof (aligned_half_sized sv mv ev ez (or_intror Hv) ltac:(subst ez; lia) Hez) as Ha;
     pose proof (aligned_half_sized sw mw ew ez (or_intror Hw) ltac:(subst ez; lia) Hez) as Hb.
  all: unfold max_mantissa in *; change (2 ^ 53 - 1) with 9007199254740991 in *.
  all: destruct sv, sw; cbn [cond_Zopp]; lia.
Qed.

Lemma separation_of_numbers (posA posB dimA dimB : JS.number) :
  is_finite posA = true -> is_finite posB = true ->
  is_number dimA = true -> is_number dimB = true ->
  JS.is_nan (separation posA posB dimA dimB) = false.
Proof.
  intros HA HB HdA HdB. unfold is_number in *.
  apply andb_true_iff in HdA, HdB.
  unfold separation, centre_distance, half_extents. apply sub_not_nan.
  - now apply abs_sub_nonneg.
  - apply add_half_sized; now apply half_of_valid.
Qed.

(** *** Canonical results *)

Lemma valid_canonical (v : JS.number) : JS.valid v = true -> canonical v.
Proof.
  destruct v as [s|s| |s m e]; simpl; auto.
  unfold JS.valid, valid_binary, bounded, canonical_mantissa. rewrite fexp_eq.
  intros H. apply andb_true_iff in H. now apply Z.eqb_eq.
Qed.

Lemma fexp64_mono (a b : Z) : a <= b -> fexp64 a <= fexp64 b.
Proof. unfold fexp64. lia. Qed.

(** Rounding a mantissa that is not above its exponent gives a canonical
    result. *)
Lemma binary_round_aux_canonical (s : bool) (m e : Z) (l : location) :
  0 <= m -> e <= fexp64 (Zdigits2 m + e) ->
  canonical (binary_round_aux JS.prec JS.emax s m e l).
Proof.
  intros Hm Hpre. unfold binary_round_aux.
  pose proof (shr_fexp_digits m e l Hm) as H1. cbv zeta in H1.
  destruct (shr_fexp JS.prec JS.emax m e l) as [mrs1 e1]. simpl in H1.
  destruct H1 as [Hm1 H1].
  assert (K1 : fexp64 (Zdigits2 (shr_m mrs1) + e1) = e1).
  { destruct H1 as [(Hle & -> & ->) | (Hlt & -> & Ed)]; [lia|].
    rewrite Ed. unfold fexp64 in *. lia. }
  destruct (round_nearest_even_digits (shr_m mrs1) (loc_of_shr_record mrs1) Hm1)
    as [Hm2 Hd2].
  assert (Hge : shr_m mrs1 <= round_nearest_even (shr_m mrs1) (loc_of_shr_record mrs1)).
  { destruct (loc_of_shr_record mrs1) as [|[| |]]; simpl; try lia.
    destruct (Z.even _); lia. }
  pose proof (Zdigits2_le _ _ (conj Hm1 Hge)) as Hdge.
  set (m2 := round_nearest_even _ _) in *.
  pose proof (shr_fexp_digits m2 e1 loc_Exact Hm2) as H3. cbv zeta in H3.
  destruct (shr_fexp JS.prec JS.emax m2 e1 loc_Exact) as [mrs3 e3]. simpl in H3.
  destruct H3 as [Hm3 H3].
  destruct (shr_m mrs3) as [|p|p] eqn:Hp; [exact I | | exact I].
  assert (K3 : fexp64 (Zdigits2 (Z.pos p) + e3) = e3).
  { destruct H3 as [(Hle & -> & ->) | (Hlt & -> & Ed)].
    - pose proof (fexp64_mono _ _ (proj1 (Z.add_le_mono_r _ _ e1) Hdge)). lia.
    - assert (0 < Zdigits2 (Z.pos p)) by (simpl; lia).
      f_equal. lia. }
  destruct (e3 <=? _); [exact K3 | exact I].
Qed.

Lemma binary_round_canonical (s : bool) (m : positive) (e : Z) :
  canonical (binary_round JS.prec JS.emax s m e).
Proof.
  unfold binary_round, shl_align. rewrite fexp_eq.
  destruct (fexp64 (Z.pos (digits2_pos m) + e) - e) as [|p|p] eqn:Hn;
    apply binary_round_aux_canonical; cbn [Zdigits2]; try lia.
  rewrite digits2_pos_iter_xO.
  replace (Z.pos (digits2_pos m) + Z.pos p + fexp64 (Z.pos (digits2_pos m) + e))
    with (Z.pos (digits2_pos m) + e) by lia.
  lia.
Qed.

Lemma binary_normalize_canonical (z e : Z) :
  canonical (binary_normalize JS.prec JS.emax z e false).
Proof. destruct z; simpl; [exact I | |]; apply binary_round_canonical. Qed.

Lemma sub_canonical (v w : JS.number) :
  canonical v -> canonical w -> canonical (JS.sub v w).
Proof.
  destruct v as [sv|sv| |sv mv ev], w as [sw|sw| |sw mw ew];
    cbn [canonical]; intros Hv Hw; try exact I;
    try (destruct sv, sw; exact I); try assumption.
  apply binary_normalize_canonical.
Qed.

Lemma add_canonical (v w : JS.number) :
  canonical v -> canonical w -> canonical (JS.add v w).
Proof.
  destruct v as [sv|sv| |sv mv ev], w as [sw|sw| |sw mw ew];
    cbn [canonical]; intros Hv Hw; try exact I;
    try (destruct sv, sw; exact I); try assumption.
  apply binary_normalize_canonical.
Qed.

Lemma abs_canonical (v : JS.number) : canonical v -> canonical (JS.Math_abs v).
Proof. destruct v; simpl; auto. Qed.

Lemma half_canonical (v : JS.number) : canonical (JS.div v two).
Proof.
  change two with (S754_finite false 4503599627370496 (-51)).
  destruct v as [s|s| |s m e]; try exact I.
  unfold JS.div, SFdiv, SFdiv_core_binary.
  cbn [Zdigits2 digits2_pos]. rewrite fexp_eq.
  set (d := Z.pos (digits2_pos m)) in *.
  change (Z.pos (Pos.succ _)) with 53.
  set (e' := Z.min (fexp64 (d + e - (53 + -51))) (e - -51)).
  set (m' := match (e - -51 - e')%Z with Z.pos _ => _ | Z0 => _ | Z.neg _ => _ end).
  assert (Hm' : 0 <= m' /\ Zdigits2 m' + e' = d + e + 51).
  { subst m'. destruct (e - -51 - e')%Z as [|p|p] eqn:Hs.
    - cbn [Zdigits2]. fold d. lia.
    - rewrite Zdigits2_shiftl by lia. cbn [Zdigits2]. fold d.
      split; [apply Z.shiftl_nonneg|]; lia.
    - subst e'. lia. }
  destruct Hm' as [Hm' Hdm'].
  pose proof (Zdigits2_div_pow2 m' 52 Hm' ltac:(lia)) as Hq.
  pose proof (Z.div_pos m' (2 ^ 52) Hm' eq_refl) as Hq0.
  change (2 ^ 52) with 4503599627370496 in *.
  unfold Z.div in Hq, Hq0.
  destruct (Z.div_eucl m' 4503599627370496) as [q r].
  apply binary_round_aux_canonical; [exact Hq0|].
  rewrite Hq. clearbody m'. subst e'. unfold fexp64 in *. lia.
Qed.

(** *** Comparison and subtraction agree *)

Lemma positive_ge_pow2_size (m : positive) :
  2 ^ (Z.pos (digits2_pos m) - 1) <= Z.pos m.
Proof.
  pose proof (Zdigits2_log2 (Z.pos m) ltac:(lia)) as H. cbn [Zdigits2] in H.
  pose proof (Z.log2_spec (Z.pos m) ltac:(lia)) as [Hle _].
  rewrite H. now replace (Z.log2 (Z.pos m) + 1 - 1) with (Z.log2 (Z.pos m)) by lia.
Qed.

(** For canonical positive numbers, [b >= a] says that the aligned
    mantissa of [a] is at most the one of [b]. *)
Lemma ge_aligned (ma mb : positive) (ea eb : Z) :
  fexp64 (Z.pos (digits2_pos ma) + ea) = ea ->
  fexp64 (Z.pos (digits2_pos mb) + eb) = eb ->
  JS.ge (S754_finite false mb eb) (S754_finite false ma ea) = true ->
  Z.pos (fst (shl_align ma ea (Z.min ea eb)))
  <= Z.pos (fst (shl_align mb eb (Z.min ea eb))).
Proof.
  intros Ca Cb Hge. unfold JS.ge in Hge. cbn [SFcompare] in Hge.
  rewrite !shl_align_value by lia.
  destruct (Z.compare_spec eb ea) as [Heq | Hlt | Hgt]; try discriminate.
  - subst eb. rewrite Z.min_id, Z.sub_diag. change (2 ^ 0) with 1.
    rewrite Pos.compare_cont_spec in Hge. simpl in Hge.
    destruct (Pos.compare_spec mb ma); try discriminate; lia.
  - rewrite Z.min_l by lia. rewrite Z.sub_diag. change (2 ^ 0) with 1.
    pose proof (positive_lt_pow2_size ma) as Ha.
    pose proof (positive_ge_pow2_size mb) as Hb.
    set (da := Z.pos (digits2_pos ma)) in *.
    set (db := Z.pos (digits2_pos mb)) in *.
    assert (Hd : da + ea < db + eb).
    { destruct (Z_lt_ge_dec (da + ea) (db + eb)) as [H | H]; [exact H|].
      pose proof (fexp64_mono (db + eb) (da + ea) ltac:(lia)). lia. }
    assert (Hp : 2 ^ da <= 2 ^ (db - 1) * 2 ^ (eb - ea)).
    { rewrite <- Z.pow_add_r by (subst db; lia). apply Z.pow_le_mono_r; lia. }
    pose proof (pow2_pos (eb - ea) ltac:(lia)). nia.
Qed.

(** When the half extents reach the distance of the centres, the
    separation is not positive. *)
Lemma overlap_separation (A S : JS.number) :
  nonneg A -> canonical A -> is_finite S = true -> canonical S ->
  JS.ge S A = true -> JS.ge zero (JS.sub A S) = true.
Proof.
  destruct A as [sa|sa| |sa ma ea], S as [ss|ss| |ss ms es];
    cbn [nonneg canonical is_finite]; intros HA CA HS CS Hge;
    try contradiction; try discriminate; subst.
  all: try (destruct ss; (reflexivity || discriminate)).
  all: try (destruct sa, ss; (reflexivity || discriminate)).
  destruct ss; [discriminate|].
  pose proof (ge_aligned ma ms ea es CA CS Hge) as Hle.
  unfold JS.sub, SFsub. cbn [cond_Zopp].
  destruct (_ - _)%Z as [|p|p] eqn:Hd; [reflexivity | lia |].
  cbn [binary_normalize].
  pose proof (binary_round_sign true p (Z.min ea es)) as Hs.
  destruct (binary_round JS.prec JS.emax true p (Z.min ea es)) as [s'|s'| |s' m' e'];
    simpl in Hs; try contradiction; subst; reflexivity.
Qed.

Lemma axisGap_clamps (posA posB dimA dimB : JS.number) :
  axisGap posA posB dimA dimB = JS.Math_max zero (separation posA posB dimA dimB).
Proof. reflexivity. Qed.

Lemma distance_nonneg (a b : Entity) :
  JS.is_nan (xSeparation a b) = false ->
  JS.is_nan (ySeparation a b) = false ->
  nonneg (calculateDistance a b).
Proof.
  intros Hx Hy.
  change (calculateDistance a b)
    with (JS.Math_sqrt (JS.add (JS.square (JS.Math_max zero (xSeparation a b)))
                               (JS.square (JS.Math_max zero (ySeparation a b))))).
  apply nonneg_sqrt, nonneg_add; apply nonneg_square, nonneg_not_nan, nonneg_clamp;
    assumption.
Qed.

Lemma separation_nan_distance_nan (a b : Entity) :
  JS.is_nan (xSeparation a b) || JS.is_nan (ySeparation a b) = true ->
  calculateDistance a b = JS.NaN.
Proof.
  intros H. apply distance_nan. apply orb_true_iff in H.
  unfold xGap, yGap. rewrite !axisGap_clamps.
  destruct H as [H | H]; [left | right]; apply is_nan_eq in H;
    [fold (xSeparation a b) | fold (ySeparation a b)]; rewrite H; reflexivity.
Qed.

(** C6, as the specification states it, fails: an entity without an x
    position gives the distance NaN, which is not at least 0; so does a
    pair of entities at the same infinite position. *)
Lemma C6_counterexample_nan_distance :
  calculateDistance no_x (boundary_at 20) = JS.NaN
  /\ JS.ge (calculateDistance no_x (boundary_at 20)) zero = false
  /\ calculateDistance at_infinity at_infinity = JS.NaN
  /\ JS.ge (calculateDistance at_infinity at_infinity) zero = false.
Proof. repeat split. Qed.

Lemma numeric_fields (e : Entity) :
  numeric e = true ->
  (is_finite (JS.ToNumber (x e)) = true /\ is_finite (JS.ToNumber (y e)) = true)
  /\ (is_number (JS.ToNumber (width e)) = true
      /\ is_number (JS.ToNumber (height e)) = true).
Proof.
  unfold numeric, is_number. repeat rewrite andb_true_iff. tauto.
Qed.

Lemma numeric_separations (a b : Entity) :
  numeric a = true -> numeric b = true ->
  JS.is_nan (xSeparation a b) = false /\ JS.is_nan (ySeparation a b) = false.
Proof.
  intros Ha Hb.
  destruct (numeric_fields a Ha) as [[Hxa Hya] [Hwa Hha]].
  destruct (numeric_fields b Hb) as [[Hxb Hyb] [Hwb Hhb]].
  split; apply separation_of_numbers; assumption.
Qed.

(** C6, amended.  The distance is never negative.  The clamp and the
    steps after it bring in no NaN and no negative value: each gap, and
    the distance, is at least 0 unless the separation that enters the
    clamp is already NaN, and the distance is NaN exactly when one of the
    two separations is.  When the positions and extents of both entities
    are finite numbers no separation is NaN, so the distance is at
    least 0. *)
Theorem C6_distance_nonnegative_or_nan (a b : Entity) :
  JS.lt (calculateDistance a b) zero = false
  /\ JS.ge (calculateDistance a b) zero
     = negb (JS.is_nan (xSeparation a b) || JS.is_nan (ySeparation a b))
  /\ JS.is_nan (calculateDistance a b)
     = JS.is_nan (xSeparation a b) || JS.is_nan (ySeparation a b)
  /\ JS.ge (xGap a b) zero = negb (JS.is_nan (xSeparation a b))
  /\ JS.ge (yGap a b) zero = negb (JS.is_nan (ySeparation a b))
  /\ JS.lt (xGap a b) zero = false
  /\ JS.lt (yGap a b) zero = false
  /\ (numeric a = true -> numeric b = true ->
      JS.ge (calculateDistance a b) zero = true
      /\ JS.is_nan (calculateDistance a b) = false).
Proof.
  assert (Hgap : forall v, JS.ge (JS.Math_max zero v) zero = negb (JS.is_nan v)
                           /\ JS.lt (JS.Math_max zero v) zero = false).
  { intros v. destruct v as [[|]|[|]| |[|] m e]; split; reflexivity. }
  assert (Hnum : numeric a = true -> numeric b = true ->
                 JS.is_nan (xSeparation a b) || JS.is_nan (ySeparation a b) = false).
  { intros Ha Hb. destruct (numeric_separations a b Ha Hb) as [-> ->]. reflexivity. }
  destruct (JS.is_nan (xSeparation a b) || JS.is_nan (ySeparation a b)) eqn:Hnan.
  - rewrite (separation_nan_distance_nan a b Hnan).
    repeat split; try apply Hgap;
      match goal with
      | Ha : numeric a = true, Hb : numeric b = true |- _ =>
          specialize (Hnum Ha Hb); discriminate
      end.
  - apply orb_false_iff in Hnan. destruct Hnan as [Hx Hy].
    pose proof (distance_nonneg a b Hx Hy) as Hd.
    repeat split; try apply Hgap.
    + now apply nonneg_not_lt_zero.
    + now apply ge_zero_iff.
    + now apply nonneg_not_nan.
    + now apply ge_zero_iff.
    + now apply nonneg_not_nan.
Qed.

(** Scenario A has finite numbers everywhere. *)
Lemma C6_witness_scenario_A :
  JS.ge (calculateDistance building_0 (boundary_at 20)) zero = true
  /\ JS.is_nan (calculateDistance building_0 (boundary_at 20)) = false.
Proof.
  apply (C6_distance_nonnegative_or_nan building_0 (boundary_at 20)); reflexivity.
Defined.

(** *** Overlapping rectangles *)

Lemma clamp_nonpositive (v : JS.number) :
  JS.ge zero v = true -> JS.Math_max zero v = JS.pos_zero.
Proof.
  destruct v as [[|]|[|]| |[|] m e]; simpl; intros H;
    try discriminate; reflexivity.
Qed.

Lemma sub_diag (v : JS.number) :
  is_finite v = true -> JS.sub v v = JS.pos_zero.
Proof.
  destruct v as [[|]|s| |s m e]; simpl; intros H; try discriminate; try reflexivity.
  unfold JS.sub, SFsub. rewrite Z.sub_diag. reflexivity.
Qed.

Lemma separation_diag (pos dim : JS.number) :
  is_finite pos = true -> JS.ge dim zero = true ->
  JS.ge zero (separation pos pos dim dim) = true.
Proof.
  intros Hpos Hdim. unfold separation, centre_distance, half_extents. rewrite (sub_diag pos Hpos).
  apply ge_zero_iff in Hdim.
  pose proof (nonneg_add _ _ (nonneg_half dim Hdim) (nonneg_half dim Hdim)) as Hsum.
  destruct (JS.add _ _) as [[|]|s| |s m e]; simpl in Hsum; subst;
    try contradiction; reflexivity.
Qed.

(** C7, as the specification states it, fails for some entities: with
    negative extents the distance of an entity to itself is the square
    root of 32, and without a position it is NaN. *)
Lemma C7_counterexample_self_distance :
  JS.toString (calculateDistance negative_extents negative_extents)
    = "5.656854249492381"
  /\ JS.eq (calculateDistance negative_extents negative_extents) zero = false
  /\ calculateDistance no_x no_x = JS.NaN
  /\ JS.eq (calculateDistance no_x no_x) zero = false.
Proof. repeat split; vm_compute; reflexivity. Qed.

Lemma overlap_clamps_to_zero (posA posB dimA dimB : JS.number) :
  is_number posA = true -> is_number posB = true ->
  is_number dimA = true -> is_number dimB = true ->
  JS.ge (half_extents dimA dimB) (centre_distance posA posB) = true ->
  axisGap posA posB dimA dimB = JS.pos_zero.
Proof.
  unfold is_number. rewrite !andb_true_iff.
  intros [FA VA] [FB VB] [FdA VdA] [FdB VdB] Hge.
  apply clamp_nonpositive. unfold separation, centre_distance, half_extents.
  apply overlap_separation.
  - now apply abs_sub_nonneg.
  - apply abs_canonical, sub_canonical; now apply valid_canonical.
  - apply add_half_sized; now apply half_of_valid.
  - apply add_canonical; apply half_canonical.
  - exact Hge.
Qed.

Lemma self_overlap (pos dim : JS.number) :
  is_finite pos = true -> JS.ge dim zero = true ->
  JS.ge (half_extents dim dim) (centre_distance pos pos) = true.
Proof.
  intros Hpos Hdim. unfold centre_distance. rewrite (sub_diag pos Hpos).
  apply ge_zero_iff in Hdim. apply ge_zero_iff.
  apply nonneg_add; now apply nonneg_half.
Qed.

(** C7, amended.  For two entities whose positions and extents are
    finite numbers: on an axis where the projections overlap or touch,
    |a.pos - b.pos| <= a.dim/2 + b.dim/2, the gap is exactly +0, and when
    this holds on both axes the distance is exactly +0.  An entity with
    a finite centre and extents that are not negative overlaps itself on
    both axes, and its distance to itself is +0. *)
Theorem C7_overlap_gives_zero (a b : Entity) :
  (numeric a = true -> numeric b = true ->
   overlap_on_x a b = true -> xGap a b = JS.pos_zero)
  /\ (numeric a = true -> numeric b = true ->
      overlap_on_y a b = true -> yGap a b = JS.pos_zero)
  /\ (numeric a = true -> numeric b = true ->
      overlap_on_x a b = true -> overlap_on_y a b = true ->
      calculateDistance a b = JS.pos_zero)
  /\ (is_rectangle a = true ->
      overlap_on_x a a = true /\ overlap_on_y a a = true
      /\ calculateDistance a a = JS.pos_zero).
Proof.
  assert (Hx : numeric a = true -> numeric b = true ->
               overlap_on_x a b = true -> xGap a b = JS.pos_zero).
  { unfold numeric. rewrite !andb_true_iff.
    intros [[[? ?] ?] ?] [[[? ?] ?] ?] Ho.
    now apply overlap_clamps_to_zero. }
  assert (Hy : numeric a = true -> numeric b = true ->
               overlap_on_y a b = true -> yGap a b = JS.pos_zero).
  { unfold numeric. rewrite !andb_true_iff.
    intros [[[? ?] ?] ?] [[[? ?] ?] ?] Ho.
    now apply overlap_clamps_to_zero. }
  split; [exact Hx | split; [exact Hy | split]].
  - intros Ha Hb Hox Hoy.
    change (calculateDistance a b)
      with (JS.Math_sqrt (JS.add (JS.square (xGap a b)) (JS.square (yGap a b)))).
    rewrite (Hx Ha Hb Hox), (Hy Ha Hb Hoy). reflexivity.
  - unfold is_rectangle. rewrite !andb_true_iff.
    intros [[[Fx Fy] Gw] Gh].
    split; [now apply self_overlap | split; [now apply self_overlap|]].
    change (calculateDistance a a)
      with (JS.Math_sqrt (JS.add (JS.square (JS.Math_max zero (xSeparation a a)))
                                 (JS.square (JS.Math_max zero (ySeparation a a))))).
    unfold xSeparation, ySeparation.
    rewrite (clamp_nonpositive _ (separation_diag _ _ Fx Gw)),
            (clamp_nonpositive _ (separation_diag _ _ Fy Gh)).
    reflexivity.
Qed.

(** Scenario D and a partial overlap: the same rectangle twice, and two
    rectangles that share a corner region; in scenario A the rectangles
    overlap on the y axis only. *)
Lemma C7_witness_overlapping_rectangles :
  calculateDistance building_0 building_0 = JS.pos_zero
  /\ calculateDistance building_0 (rect "BOUNDARY" 2 2 2 2) = JS.pos_zero
  /\ overlap_on_x building_0 (boundary_at 20) = false
  /\ yGap building_0 (boundary_at 20) = JS.pos_zero.
Proof.
  split; [|split; [|split]].
  - apply (C7_overlap_gives_zero building_0 building_0). reflexivity.
  - apply (C7_overlap_gives_zero building_0 (rect "BOUNDARY" 2 2 2 2)); reflexivity.
  - reflexivity.
  - apply (C7_overlap_gives_zero building_0 (boundary_at 20)); reflexivity.
Defined.

(** ** The output path of the conversion *)

Lemma matches_dwg_length (s : string) :
  Service.matches_dwg s = true -> String.length s = 4%nat.
Proof.
  destruct s as [|c0 [|c1 [|c2 [|c3 [|c4 s]]]]]; simpl; intros H;
    try discriminate; reflexivity.
Qed.

Lemma length_append (s t : string) :
  String.length (s ++ t) = (String.length s + String.length t)%nat.
Proof. induction s as [|c s IH]; simpl; [reflexivity | now rewrite IH]. Qed.

(** The extension is replaced where it is, whatever comes before it. *)
Lemma replace_dwg_suffix (stem ext : string) :
  Service.matches_dwg ext = true ->
  Service.replace_dwg (stem ++ ext) = stem ++ ".dxf".
Proof.
  intros Hext. induction stem as [|c stem IH].
  - simpl append. destruct ext as [|c0 ext]; [discriminate|].
    cbn [Service.replace_dwg]. rewrite Hext. reflexivity.
  - simpl append. cbn [Service.replace_dwg].
    destruct (Service.matches_dwg (String c (stem ++ ext))) eqn:Hm.
    + apply matches_dwg_length in Hm. apply matches_dwg_length in Hext.
      simpl in Hm. rewrite length_append in Hm. lia.
    + now rewrite IH.
Qed.

Lemma replace_dwg_cases (s : string) :
  (exists stem ext, s = stem ++ ext /\ Service.matches_dwg ext = true
                    /\ Service.replace_dwg s = stem ++ ".dxf")
  \/ ((forall stem ext, s = stem ++ ext -> Service.matches_dwg ext = false)
      /\ Service.replace_dwg s = s).
Proof.
  induction s as [|c s IH].
  - right. split; [|reflexivity].
    intros stem ext H. destruct stem; [|discriminate]. simpl in H. now subst.
  - destruct (Service.matches_dwg (String c s)) eqn:Hm.
    + left. exists "", (String c s). repeat split; [exact Hm|].
      cbn [Service.replace_dwg]. now rewrite Hm.
    + destruct IH as [(stem & ext & -> & Hext & Hr) | [Hnone Hr]].
      * left. exists (String c stem), ext. repeat split; [exact Hext|].
        now rewrite <- (replace_dwg_suffix (String c stem) ext Hext).
      * right. split.
        -- intros stem ext H. destruct stem as [|c' stem]; simpl in H.
           ++ now subst.
           ++ injection H as -> ->. now apply (Hnone stem).
        -- cbn [Service.replace_dwg]. rewrite Hm. now rewrite Hr.
Qed.

Lemma append_inj_l (s t u : string) : s ++ t = s ++ u -> t = u.
Proof. induction s as [|c s IH]; simpl; intros H; [exact H|]. injection H. exact IH. Qed.

Lemma matches_dwg_not_dxf (ext : string) :
  Service.matches_dwg ext = true -> ext <> ".dxf".
Proof. intros H ->. discriminate. Qed.

Lemma letter_cases (lower upper c : ascii) :
  Service.letter lower upper c = true <-> c = lower \/ c = upper.
Proof.
  unfold Service.letter. rewrite orb_true_iff, !Ascii.eqb_eq. tauto.
Qed.

Lemma matches_dwg_spellings (ext : string) :
  Service.matches_dwg ext = true <-> In ext dwg_extensions.
Proof.
  split.
  - destruct ext as [|c0 [|c1 [|c2 [|c3 [|c4 ext]]]]]; try discriminate.
    cbn [Service.matches_dwg]. rewrite !andb_true_iff, !letter_cases, Ascii.eqb_eq.
    intros [[[-> [-> | ->]] [-> | ->]] [-> | ->]]; simpl; tauto.
  - intros H. simpl in H.
    repeat (destruct H as [<- | H]; [reflexivity|]). contradiction.
Qed.

Lemma replace_dwg_fixed_iff (s : string) :
  Service.replace_dwg s = s <->
  forall stem ext, s = stem ++ ext -> Service.matches_dwg ext = false.
Proof.
  split.
  - intros Hfix stem ext ->.
    destruct (Service.matches_dwg ext) eqn:Hext; [|reflexivity].
    rewrite (replace_dwg_suffix stem ext Hext) in Hfix.
    apply append_inj_l in Hfix. subst ext. discriminate.
  - intros Hnone.
    destruct (replace_dwg_cases s) as [(stem & ext & Hs & Hext & _) | [_ Hr]];
      [|exact Hr].
    rewrite (Hnone stem ext Hs) in Hext. discriminate.
Qed.

(** X1.  The output path of the conversion is the input path with its
    extension [.dwg], in any mix of upper and lower case, replaced by
    [.dxf]; what comes before the extension is kept as it is, also when
    it contains the extension's letters. *)
Theorem output_path_replaces_the_extension (stem ext : string) :
  In ext dwg_extensions ->
  Service.replace_dwg (stem ++ ext) = stem ++ ".dxf"
  /\ Service.replace_dwg (stem ++ ext ++ ext) = stem ++ ext ++ ".dxf".
Proof.
  intros H. apply matches_dwg_spellings in H. split.
  - exact (replace_dwg_suffix stem ext H).
  - assert (Hassoc : forall a b c : string, a ++ b ++ c = (a ++ b) ++ c).
    { intros a b c. induction a as [|ch a IH]; simpl; [reflexivity | now rewrite IH]. }
    rewrite !Hassoc. exact (replace_dwg_suffix (stem ++ ext) ext H).
Qed.

Lemma output_path_replaces_the_extension_witness :
  In ".DWG" dwg_extensions
  /\ Service.replace_dwg "uploads/plan.DWG" = "uploads/plan.dxf"
  /\ Service.replace_dwg "uploads/plan.DWG.DWG" = "uploads/plan.DWG.dxf".
Proof.
  split; [simpl; tauto|].
  apply (output_path_replaces_the_extension "uploads/plan" ".DWG"). simpl. tauto.
Defined.

(** X2.  The output path equals the input path exactly when the input
    path does not end in one of the eight spellings of [.dwg]. *)
Theorem output_path_is_input_path_iff (input : string) :
  Service.replace_dwg input = input <->
  ~ exists stem ext, In ext dwg_extensions /\ input = stem ++ ext.
Proof.
  rewrite replace_dwg_fixed_iff. split.
  - intros Hnone (stem & ext & Hin & Hs).
    apply matches_dwg_spellings in Hin. rewrite (Hnone stem ext Hs) in Hin.
    discriminate.
  - intros Hno stem ext Hs.
    destruct (Service.matches_dwg ext) eqn:Hext; [|reflexivity].
    exfalso. apply Hno. exists stem, ext. split; [|exact Hs].
    now apply matches_dwg_spellings.
Qed.

(** X3.  The output path has the length of the input path, never ends
    in [.dwg] in any spelling, and is left unchanged by a second
    replacement. *)
Theorem output_path_shape (input : string) :
  String.length (Service.replace_dwg input) = String.length input
  /\ (forall stem ext, Service.replace_dwg input = stem ++ ext -> ~ In ext dwg_extensions)
  /\ Service.replace_dwg (Service.replace_dwg input) = Service.replace_dwg input.
Proof.
  assert (Hnone : forall stem ext,
            Service.replace_dwg input = stem ++ ext -> Service.matches_dwg ext = false).
  { destruct (replace_dwg_cases input) as [(stem0 & ext0 & Hs & Hext0 & Hr) | [Hnone Hr]].
    - rewrite Hr. intros stem ext Heq.
      destruct (Service.matches_dwg ext) eqn:Hext; [|reflexivity].
      exfalso. pose proof (matches_dwg_length _ Hext) as Hl.
      assert (Hlen : String.length stem0 = String.length stem).
      { apply (f_equal String.length) in Heq. rewrite !length_append in Heq.
        simpl in Heq. lia. }
      clear Hs Hr. revert stem Heq Hlen.
      induction stem0 as [|c stem0 IH]; intros [|c' stem] Heq Hlen;
        simpl in Hlen; try discriminate.
      + simpl in Heq. subst ext. discriminate.
      + simpl in Heq. injection Heq as _ Heq. apply (IH stem Heq). lia.
    - rewrite Hr. exact Hnone. }
  split; [|split].
  - destruct (replace_dwg_cases input) as [(stem & ext & -> & Hext & ->) | [_ ->]];
      [|reflexivity].
    apply matches_dwg_length in Hext. rewrite !length_append, Hext. reflexivity.
  - intros stem ext Heq Hin. apply matches_dwg_spellings in Hin.
    rewrite (Hnone stem ext Heq) in Hin. discriminate.
  - apply replace_dwg_fixed_iff. exact Hnone.
Qed.

(** ** Runs of the conversion *)

(** In the statements below a pair is read against the type it is
    compared with, so that an outcome stands for the promise settled
    with it. *)
Arguments pair {A B} & _ _.
Import (coercions) Service.

Ltac run_step :=
  match goal with
  | H : (_, _) = (_, _) |- _ => inversion H; subst; clear H
  | H : context [match ?x with _ => _ end] |- _ => destruct x eqn:?
  end.

Ltac run H :=
  unfold Service.download, Service.try_catch, Service.bind, Service.record,
    Service.answer, Service.read, Service.ret, Service.throw in H;
  cbn beta iota in H;
  repeat (run_step; cbn [Service.disk Service.calls fst snd] in * ).

Lemma app_assoc_cons {A : Type} (l : list A) (a : A) (l' : list A) :
  ((l ++ [a]) ++ l')%list = (l ++ a :: l')%list.
Proof. now rewrite <- app_assoc. Qed.

(** The download returns: every step before it succeeded, in order. *)
Lemma download_returns (env : Service.Environment) (input : string)
  (s s' : Service.State) (data : string) :
  Service.download env input s = (s', Service.Returns data) ->
  Service.disk s' = Service.disk s /\
  exists job uploadTask uploadResult uploadForm entries
         completedJob exportTask exportResult exportFiles file,
    Service.jobs_create env = Service.Returns job
    /\ Service.first_named "import-upload" (Service.tasks job) = Some uploadTask
    /\ Service.result uploadTask = Some uploadResult
    /\ Service.form uploadResult = Some uploadForm
    /\ Service.parameters uploadForm = Some entries
    /\ Service.axios_post env (Service.form_url uploadForm)
         (Service.upload_form entries input) = Service.Returns tt
    /\ Service.jobs_wait env (Service.id job) = Service.Returns completedJob
    /\ Service.first_named "export-url" (Service.tasks completedJob) = Some exportTask
    /\ Service.result exportTask = Some exportResult
    /\ Service.files exportResult = Some exportFiles
    /\ nth_error exportFiles 0 = Some file
    /\ Service.axios_get env (Service.file_url file) = Service.Returns data
    /\ Service.calls s' =
         (Service.calls s ++
          [Service.JobsCreate;
           Service.AxiosPost (Service.form_url uploadForm)
                             (Service.upload_form entries input);
           Service.JobsWait (Service.id job);
           Service.AxiosGet (Service.file_url file)])%list.
Proof.
  intros H. run H.
  split; [reflexivity|].
  match goal with u : unit |- _ => destruct u end.
  do 10 eexists. repeat split; try eassumption.
  now rewrite !app_assoc_cons.
Qed.

Lemma prefix_append (s t : string) : String.prefix s (s ++ t) = true.
Proof.
  induction s as [|c s IH]; simpl; [now destruct t|].
  destruct (ascii_dec c c); [exact IH | congruence].
Qed.

Ltac calls_prefix :=
  first
    [ exists 1%nat, "", [], "", ""; split; [lia|]; rewrite ?app_assoc_cons; reflexivity
    | exists 2%nat; do 2 eexists; exists "", ""; split; [lia|];
      rewrite ?app_assoc_cons; reflexivity
    | exists 3%nat; do 3 eexists; exists ""; split; [lia|];
      rewrite ?app_assoc_cons; reflexivity
    | exists 4%nat; do 4 eexists; split; [lia|]; rewrite ?app_assoc_cons; reflexivity ].

(** The download throws: the message is wrapped, the disk is untouched,
    and the calls stop where the failure was. *)
Lemma download_throws (env : Service.Environment) (input : string)
  (s s' : Service.State) (message : string) :
  Service.download env input s = (s', Service.Throws message) ->
  Service.disk s' = Service.disk s
  /\ (exists cause, message = "Conversion error: " ++ cause)
  /\ exists (n : nat) url formData id url',
       (1 <= n <= 4)%nat /\
       Service.calls s' =
         (Service.calls s ++
          firstn n [Service.JobsCreate; Service.AxiosPost url formData;
                    Service.JobsWait id; Service.AxiosGet url'])%list.
Proof.
  intros H. run H.
  all: split; [reflexivity|]; split; [eexists; reflexivity|].
  all: calls_prefix.
Qed.

(** The download comes to an end: every promise awaited in it is a
    collaborator's. *)
Lemma download_settles (env : Service.Environment) (input : string)
  (s s' : Service.State) :
  Service.download env input s <> (s', Service.Pending).
Proof. intros H. run H. Qed.

(** The conversion is the download followed by the write stream. *)
Lemma convertDwgToDxf_cases (env : Service.Environment) (input : string)
  (s : Service.State) :
  let output := Service.replace_dwg input in
  match Service.download env input s with
  | (s1, Service.Pending) =>
      Service.convertDwgToDxf env input s = (s1, Service.Pending)
  | (s1, Service.Settled (Service.Throws message)) =>
      Service.convertDwgToDxf env input s = (s1, Service.Throws message)
  | (s1, Service.Settled (Service.Returns data)) =>
      let written := (Service.calls s1 ++ [Service.WriteStream output data])%list in
      match Service.write_stream env output data with
      | Service.Finished =>
          Service.convertDwgToDxf env input s =
          (Service.mkState (Service.store (Service.disk s1) output (Some data)) written,
           Service.Returns output)
      | Service.Failed message remains =>
          Service.convertDwgToDxf env input s =
          (Service.mkState (Service.store (Service.disk s1) output remains) written,
           Service.Throws message)
      | Service.Stalled remains =>
          Service.convertDwgToDxf env input s =
          (Service.mkState (Service.store (Service.disk s1) output remains) written,
           Service.Pending)
      end
  end.
Proof.
  cbv zeta. unfold Service.convertDwgToDxf, Service.bind.
  destruct (Service.download env input s) as [s1 [[data|message]|]]; try reflexivity.
  unfold Service.pipe_to_file, Service.bind, Service.record, Service.ret.
  cbn [Service.disk Service.calls].
  destruct (Service.write_stream env _ data); reflexivity.
Qed.

Lemma store_same (disk : Service.Disk) (path : string) (contents : option string) :
  Service.store disk path contents path = contents.
Proof. unfold Service.store. now rewrite String.eqb_refl. Qed.

Lemma store_other (disk : Service.Disk) (path q : string) (contents : option string) :
  q <> path -> Service.store disk path contents q = disk q.
Proof.
  intros H. unfold Service.store.
  destruct (String.eqb_spec q path); [contradiction | reflexivity].
Qed.

(** Which task the code picks: the first one with the name. *)
Lemma first_named_find (n : string) (ts : list Service.Task) :
  Service.first_named n ts = find (fun task => String.eqb (Service.name task) n) ts.
Proof.
  unfold Service.first_named.
  induction ts as [|t ts IH]; simpl; [reflexivity|].
  destruct (String.eqb (Service.name t) n); [reflexivity | exact IH].
Qed.

Lemma upload_form_entries (entries : list (string * string)) (input : string) :
  Service.upload_form entries input =
  (map (fun entry => (fst entry, Service.Text (snd entry))) entries
   ++ [("file", Service.ReadStream input)])%list.
Proof.
  unfold Service.upload_form, Service.append. f_equal.
  assert (H : forall acc,
             fold_left (fun formData entry =>
                          (formData ++ [(fst entry, Service.Text (snd entry))])%list)
                       entries acc
             = (acc ++ map (fun entry => (fst entry, Service.Text (snd entry))) entries)%list).
  { induction entries as [|e entries IH]; intros acc; simpl.
    - now rewrite app_nil_r.
    - now rewrite IH, <- app_assoc. }
  apply (H []).
Qed.

(** ** Runs of the validation *)

Ltac run_validate H :=
  unfold Service.validateDxfFile, Service.readFileSync, Service.try_catch,
    Service.bind, Service.record, Service.answer, Service.read, Service.ret,
    Service.throw in H;
  cbn beta iota in H; cbn [Service.disk Service.calls] in H;
  repeat (run_step; cbn [Service.disk Service.calls fst snd] in * ).

Lemma validateDxfFile_returns (env : Service.Environment) (filePath : string)
  (s s' : Service.State) (validations : Validations) :
  Service.validateDxfFile env filePath s = (s', Service.Returns validations) ->
  Service.disk s' = Service.disk s /\
  exists data dxf entities,
    Service.disk s filePath = Some data
    /\ Service.parseSync env data = Service.Returns (Some dxf)
    /\ Service.entities dxf = Some entities
    /\ validations = validateDxfFile entities
    /\ Service.calls s' =
         (Service.calls s ++ [Service.ReadFileSync filePath; Service.ParseSync data])%list.
Proof.
  intros H. run_validate H.
  split; [reflexivity|]. do 3 eexists. repeat split; try eassumption.
  now rewrite app_assoc_cons.
Qed.

Lemma validateDxfFile_throws (env : Service.Environment) (filePath : string)
  (s s' : Service.State) (message : string) :
  Service.validateDxfFile env filePath s = (s', Service.Throws message) ->
  Service.disk s' = Service.disk s
  /\ (exists cause, message = "Error processing DXF file: " ++ cause)
  /\ (Service.calls s' = (Service.calls s ++ [Service.ReadFileSync filePath])%list
      \/ exists data,
           Service.calls s' =
           (Service.calls s ++ [Service.ReadFileSync filePath; Service.ParseSync data])%list).
Proof.
  intros H. run_validate H.
  all: split; [reflexivity|]; split; [eexists; reflexivity|].
  all: first [left; reflexivity | right; eexists; now rewrite app_assoc_cons].
Qed.

(** The validation comes to an end: nothing in it is awaited. *)
Lemma validateDxfFile_settles (env : Service.Environment) (filePath : string)
  (s s' : Service.State) :
  Service.validateDxfFile env filePath s <> (s', Service.Pending).
Proof. intros H. run_validate H. Qed.

(** ** Runs of the handler *)

Lemma unlinkSync_cases (env : Service.Environment) (p : string) (s : Service.State) :
  Service.unlinkSync env p s =
  let called := (Service.calls s ++ [Service.UnlinkSync p])%list in
  match Service.disk s p with
  | Some _ =>
      (Service.mkState (Service.store (Service.disk s) p None) called, Service.Returns tt)
  | None =>
      (Service.mkState (Service.disk s) called,
       Service.Throws (Service.no_such_file env "unlink" p))
  end.
Proof.
  unfold Service.unlinkSync, Service.bind, Service.record.
  cbn [Service.disk Service.calls]. destruct (Service.disk s p); reflexivity.
Qed.

(** The handler, step by step. *)
Lemma upload_cases (env : Service.Environment) (uploaded : Service.UploadedFile)
  (s : Service.State) :
  Service.upload env (Some uploaded) s =
  let dwg := Service.path uploaded in
  match Service.convertDwgToDxf env dwg s with
  | (s1, Service.Pending) => (s1, Service.Pending)
  | (s1, Service.Settled (Service.Throws message)) =>
      (s1, Service.Returns (failure message))
  | (s1, Service.Settled (Service.Returns dxf)) =>
      match Service.validateDxfFile env dxf s1 with
      | (s2, Service.Pending) => (s2, Service.Pending)
      | (s2, Service.Settled (Service.Throws message)) =>
          (s2, Service.Returns (failure message))
      | (s2, Service.Settled (Service.Returns validations)) =>
          match Service.unlinkSync env dwg s2 with
          | (s3, Service.Pending) => (s3, Service.Pending)
          | (s3, Service.Settled (Service.Throws message)) =>
              (s3, Service.Returns (failure message))
          | (s3, Service.Settled (Service.Returns _)) =>
              match Service.unlinkSync env dxf s3 with
              | (s4, Service.Pending) => (s4, Service.Pending)
              | (s4, Service.Settled (Service.Throws message)) =>
                  (s4, Service.Returns (failure message))
              | (s4, Service.Settled (Service.Returns _)) =>
                  (s4, Service.Returns
                         (Service.mkResponse 200 (Service.ValidationsJson validations)))
              end
          end
      end
  end.
Proof.
  cbv zeta. unfold Service.upload, Service.try_catch, Service.bind, Service.read,
    Service.ret.
  destruct (Service.convertDwgToDxf env _ s) as [s1 [[dxf|m]|]]; try reflexivity.
  destruct (Service.validateDxfFile env dxf s1) as [s2 [[v|m]|]]; try reflexivity.
  destruct (Service.unlinkSync env _ s2) as [s3 [[u|m]|]]; try reflexivity.
  destruct (Service.unlinkSync env dxf s3) as [s4 [[u'|m]|]]; reflexivity.
Qed.

Lemma upload_no_file (env : Service.Environment) (s : Service.State) :
  Service.upload env None s =
  (s, Service.Returns (failure (Service.type_error env "path"))).
Proof. reflexivity. Qed.

Lemma unlinkSync_settles (env : Service.Environment) (p : string)
  (s s' : Service.State) :
  Service.unlinkSync env p s <> (s', Service.Pending).
Proof.
  rewrite unlinkSync_cases. cbv zeta.
  destruct (Service.disk s p); discriminate.
Qed.

(** The conversion stays pending exactly when the download returned
    and the write stream stalls. *)
Lemma convertDwgToDxf_pending (env : Service.Environment) (input : string)
  (s s' : Service.State) :
  Service.convertDwgToDxf env input s = (s', Service.Pending) <->
  exists s1 data remains,
    Service.download env input s = (s1, Service.Returns data)
    /\ Service.write_stream env (Service.replace_dwg input) data = Service.Stalled remains
    /\ s' = Service.mkState
              (Service.store (Service.disk s1) (Service.replace_dwg input) remains)
              (Service.calls s1 ++ [Service.WriteStream (Service.replace_dwg input) data])%list.
Proof.
  pose proof (convertDwgToDxf_cases env input s) as Hc. cbv zeta in Hc.
  split.
  - intros H.
    destruct (Service.download env input s) as [s1 [[data|m]|]] eqn:Hd;
      [| |exfalso; exact (download_settles _ _ _ _ Hd)].
    + destruct (Service.write_stream env _ data) as [|m remains|remains] eqn:Hw;
        rewrite Hc in H; inversion H; subst; clear H.
      exists s1, data, remains. repeat split. exact Hw.
    + rewrite Hc in H. discriminate.
  - intros (s1 & data & remains & Hd & Hw & ->).
    rewrite Hd in Hc. rewrite Hw in Hc. exact Hc.
Qed.

(** ** What the conversion does *)


(** X5.  A conversion that fails either failed before the output was
    written, and then its message is the cause's message behind
    [Conversion error: ] and the disk is as it was; or the write
    stream failed, and then the message is the stream's own, without
    the prefix (the promise is returned, not awaited, inside the [try]),
    and only the output path may have changed. *)
Theorem conversion_failure_message (env : Service.Environment) (input : string)
  (s s' : Service.State) (message : string) :
  Service.convertDwgToDxf env input s = (s', Service.Throws message) ->
  ((exists cause, message = "Conversion error: " ++ cause)
   /\ String.prefix "Conversion error: " message = true
   /\ Service.disk s' = Service.disk s)
  \/ (exists data remains,
        Service.write_stream env (Service.replace_dwg input) data
          = Service.Failed message remains
        /\ Service.disk s' (Service.replace_dwg input) = remains
        /\ forall q, q <> Service.replace_dwg input -> Service.disk s' q = Service.disk s q).
Proof.
  intros H.
  pose proof (convertDwgToDxf_cases env input s) as Hc. cbv zeta in Hc.
  destruct (Service.download env input s) as [s1 [[data|m]|]] eqn:Hd;
    [| |exfalso; exact (download_settles _ _ _ _ Hd)].
  - apply download_returns in Hd. destruct Hd as [Hdisk _].
    destruct (Service.write_stream env _ data) as [|m remains|remains] eqn:Hw;
      rewrite Hc in H; inversion H; subst; clear H.
    right. exists data, remains. cbn [Service.disk]. rewrite Hdisk.
    split; [exact Hw|]. split; [apply store_same | intros q Hq; now apply store_other].
  - rewrite Hc in H. inversion H; subst; clear H.
    apply download_throws in Hd. destruct Hd as (Hdisk & [cause ->] & _).
    left. split; [now exists cause|]. split; [apply prefix_append | exact Hdisk].
Qed.

Lemma conversion_failure_message_witness :
  exists s' message,
    Service.convertDwgToDxf offline plan_dwg (uploaded_at plan_dwg)
      = (s', Service.Throws message)
    /\ String.prefix "Conversion error: " message = true
    /\ Service.disk s' = Service.disk (uploaded_at plan_dwg).
Proof.
  exists (fst (Service.convertDwgToDxf offline plan_dwg (uploaded_at plan_dwg))),
    "Conversion error: getaddrinfo ENOTFOUND api.cloudconvert.com".
  split; [reflexivity|].
  destruct (conversion_failure_message offline plan_dwg (uploaded_at plan_dwg) _ _ eq_refl)
    as [(_ & Hprefix & Hdisk) | (data & remains & Hwrite & _)].
  - split; [exact Hprefix | exact Hdisk].
  - discriminate Hwrite.
Defined.

(** X6.  A conversion that returns, returns the output path; the job
    was created, the completed job had a task named [export-url] whose
    result lists a first file, the data fetched from that file's url was
    written, and the output path now holds exactly that data; every
    other path of the disk is as it was. *)
Theorem conversion_success (env : Service.Environment) (input : string)
  (s s' : Service.State) (output : string) :
  Service.convertDwgToDxf env input s = (s', Service.Returns output) ->
  output = Service.replace_dwg input
  /\ (exists job completedJob exportTask exportResult exportFiles file data,
        Service.jobs_create env = Service.Returns job
        /\ Service.jobs_wait env (Service.id job) = Service.Returns completedJob
        /\ find (fun task => String.eqb (Service.name task) "export-url")
                (Service.tasks completedJob) = Some exportTask
        /\ Service.result exportTask = Some exportResult
        /\ Service.files exportResult = Some exportFiles
        /\ nth_error exportFiles 0 = Some file
        /\ Service.axios_get env (Service.file_url file) = Service.Returns data
        /\ Service.write_stream env output data = Service.Finished
        /\ Service.disk s' output = Some data)
  /\ forall q, q <> output -> Service.disk s' q = Service.disk s q.
Proof.
  intros H.
  pose proof (convertDwgToDxf_cases env input s) as Hc. cbv zeta in Hc.
  destruct (Service.download env input s) as [s1 [[data|m]|]] eqn:Hd;
    [| |exfalso; exact (download_settles _ _ _ _ Hd)].
  - apply download_returns in Hd.
    destruct Hd as (Hdisk & job & ut & ur & uf & es & cj & et & er & efs & f & Hd).
    decompose [and] Hd. clear Hd.
    destruct (Service.write_stream env _ data) as [|m remains|remains] eqn:Hw;
      rewrite Hc in H; inversion H; subst; clear H.
    split; [reflexivity|]. cbn [Service.disk]. rewrite Hdisk. split.
    + exists job, cj, et, er, efs, f, data.
      rewrite <- first_named_find.
      repeat split; try assumption. apply store_same.
    + intros q Hq. now apply store_other.
  - rewrite Hc in H. discriminate.
Qed.

Lemma conversion_success_witness :
  exists s',
    Service.convertDwgToDxf cloud plan_dwg (uploaded_at plan_dwg)
      = (s', Service.Returns plan_dxf)
    /\ plan_dxf = Service.replace_dwg plan_dwg
    /\ forall q, q <> plan_dxf -> Service.disk s' q = Service.disk (uploaded_at plan_dwg) q.
Proof.
  exists (fst (Service.convertDwgToDxf cloud plan_dwg (uploaded_at plan_dwg))).
  split; [reflexivity|].
  destruct (conversion_success cloud plan_dwg (uploaded_at plan_dwg) _ plan_dxf eq_refl)
    as (Hout & _ & Hrest).
  split; [exact Hout | exact Hrest].
Defined.

Lemma download_posts (env : Service.Environment) (input : string)
  (s s1 : Service.State) (o : Service.outcome string)
  (t : list Service.Call) (url : string) (formData : Service.FormData) :
  Service.download env input s = (s1, o) ->
  Service.calls s1 = (Service.calls s ++ t)%list ->
  In (Service.AxiosPost url formData) t ->
  exists job uploadTask uploadResult uploadForm entries,
    Service.jobs_create env = Service.Returns job
    /\ Service.first_named "import-upload" (Service.tasks job) = Some uploadTask
    /\ Service.result uploadTask = Some uploadResult
    /\ Service.form uploadResult = Some uploadForm
    /\ Service.parameters uploadForm = Some entries
    /\ url = Service.form_url uploadForm
    /\ formData = Service.upload_form entries input.
Proof.
  intros H Ht Hin. run H.
  all: rewrite ?app_assoc_cons in Ht; apply app_inv_head in Ht; subst t; simpl in Hin;
    repeat (destruct Hin as [Hin | Hin]; try discriminate); try contradiction.
  all: injection Hin as <- <-; do 5 eexists; repeat split; eassumption.
Qed.

(** X7.  If a conversion posts a form at all, it posts it to the url of
    the first task named [import-upload] of the created job, and the
    form holds that task's parameters as text fields, in their order,
    followed by one field [file] that streams the input path. *)
Theorem upload_form_ends_with_the_file (env : Service.Environment) (input : string)
  (s s' : Service.State) (o : Service.completion string)
  (t : list Service.Call) (url : string) (formData : Service.FormData) :
  Service.convertDwgToDxf env input s = (s', o) ->
  Service.calls s' = (Service.calls s ++ t)%list ->
  In (Service.AxiosPost url formData) t ->
  exists job uploadTask uploadResult uploadForm entries,
    Service.jobs_create env = Service.Returns job
    /\ find (fun task => String.eqb (Service.name task) "import-upload")
            (Service.tasks job) = Some uploadTask
    /\ Service.result uploadTask = Some uploadResult
    /\ Service.form uploadResult = Some uploadForm
    /\ Service.parameters uploadForm = Some entries
    /\ url = Service.form_url uploadForm
    /\ formData =
         (map (fun entry => (fst entry, Service.Text (snd entry))) entries
          ++ [("file", Service.ReadStream input)])%list.
Proof.
  intros H Ht Hin.
  pose proof (convertDwgToDxf_cases env input s) as Hc. cbv zeta in Hc.
  destruct (Service.download env input s) as [s1 [[data|m]|]] eqn:Hd;
    [| |exfalso; exact (download_settles _ _ _ _ Hd)].
  - assert (Hs1 : exists t1, Service.calls s1 = (Service.calls s ++ t1)%list
                             /\ t = (t1 ++ [Service.WriteStream (Service.replace_dwg input) data])%list).
    { pose proof Hd as Hd'. apply download_returns in Hd'.
      destruct Hd' as (_ & job & ut & ur & uf & es & cj & et & er & efs & f & Hd').
      decompose [and] Hd'. clear Hd'.
      eexists. split; [eassumption|].
      destruct (Service.write_stream env _ data); rewrite Hc in H; inversion H; subst;
        cbn [Service.calls] in Ht;
        match goal with E : Service.calls s1 = _ |- _ => rewrite E in Ht end;
        rewrite <- app_assoc in Ht; apply app_inv_head in Ht; now rewrite Ht. }
    destruct Hs1 as (t1 & Hs1 & ->).
    apply in_app_or in Hin. destruct Hin as [Hin | [Hin | []]]; [|discriminate].
    destruct (download_posts env input s s1 _ t1 url formData Hd Hs1 Hin)
      as (job & ut & ur & uf & es & Hj & Hf & Hr & Hfo & Hp & -> & ->).
    exists job, ut, ur, uf, es. rewrite <- first_named_find, <- upload_form_entries.
    repeat split; assumption.
  - rewrite Hc in H. inversion H; subst.
    destruct (download_posts env input s s' _ t url formData Hd Ht Hin)
      as (job & ut & ur & uf & es & Hj & Hf & Hr & Hfo & Hp & -> & ->).
    exists job, ut, ur, uf, es. rewrite <- first_named_find, <- upload_form_entries.
    repeat split; assumption.
Qed.

Lemma upload_form_ends_with_the_file_witness :
  exists s' o t formData,
    Service.convertDwgToDxf cloud plan_dwg (uploaded_at plan_dwg) = (s', o)
    /\ Service.calls s' = (Service.calls (uploaded_at plan_dwg) ++ t)%list
    /\ In (Service.AxiosPost "https://upload.example/form" formData) t
    /\ exists entries,
         formData =
           (map (fun entry => (fst entry, Service.Text (snd entry))) entries
            ++ [("file", Service.ReadStream plan_dwg)])%list.
Proof.
  exists (fst (Service.convertDwgToDxf cloud plan_dwg (uploaded_at plan_dwg))),
    (Service.Returns plan_dxf),
    (Service.calls (fst (Service.convertDwgToDxf cloud plan_dwg (uploaded_at plan_dwg)))),
    [("key", Service.Text "k-1"); ("policy", Service.Text "p-1");
     ("file", Service.ReadStream plan_dwg)].
  assert (Hin : In (Service.AxiosPost "https://upload.example/form"
                      [("key", Service.Text "k-1"); ("policy", Service.Text "p-1");
                       ("file", Service.ReadStream plan_dwg)])
                   (Service.calls
                      (fst (Service.convertDwgToDxf cloud plan_dwg (uploaded_at plan_dwg))))).
  { right. left. reflexivity. }
  split; [reflexivity|]. split; [reflexivity|]. split; [exact Hin|].
  destruct (upload_form_ends_with_the_file cloud plan_dwg (uploaded_at plan_dwg)
              _ _ _ _ _ eq_refl eq_refl Hin)
    as (job & uploadTask & uploadResult & uploadForm & entries & _ & _ & _ & _ & _ & _ & H).
  exists entries. exact H.
Defined.

(** X8.  When the created job has no task named [import-upload], the
    conversion stops after creating the job: nothing is posted or
    written, and it throws the runtime's error for reading [result] of
    [undefined], behind [Conversion error: ]. *)
Theorem conversion_without_upload_task (env : Service.Environment) (input : string)
  (s : Service.State) (job : Service.Job) :
  Service.jobs_create env = Service.Returns job ->
  (forall task, In task (Service.tasks job) -> Service.name task <> "import-upload") ->
  Service.convertDwgToDxf env input s =
  (Service.mkState (Service.disk s) (Service.calls s ++ [Service.JobsCreate])%list,
   Service.Throws ("Conversion error: " ++ Service.type_error env "result")).
Proof.
  intros Hj Hnone.
  assert (Hf : Service.first_named "import-upload" (Service.tasks job) = None).
  { rewrite first_named_find. apply find_none_iff. intros task Hin.
    apply String.eqb_neq. now apply Hnone. }
  pose proof (convertDwgToDxf_cases env input s) as Hc. cbv zeta in Hc.
  assert (Hd : Service.download env input s =
               (Service.mkState (Service.disk s) (Service.calls s ++ [Service.JobsCreate])%list,
                Service.Throws ("Conversion error: " ++ Service.type_error env "result"))).
  { unfold Service.download, Service.try_catch, Service.bind, Service.record,
      Service.answer, Service.read, Service.throw.
    cbn beta iota. rewrite Hj, Hf. reflexivity. }
  rewrite Hd in Hc. exact Hc.
Qed.

Lemma conversion_without_upload_task_witness :
  Service.jobs_create cloud_without_upload_task
    = Service.Returns (Service.mkJob "job-2" [Service.mkTask "convert" None])
  /\ Service.convertDwgToDxf cloud_without_upload_task plan_dwg (uploaded_at plan_dwg)
     = (Service.mkState (Service.disk (uploaded_at plan_dwg)) [Service.JobsCreate],
        Service.Throws
          "Conversion error: Cannot read properties of undefined (reading 'result')").
Proof.
  split; [reflexivity|].
  apply (conversion_without_upload_task cloud_without_upload_task plan_dwg
           (uploaded_at plan_dwg) (Service.mkJob "job-2" [Service.mkTask "convert" None]));
    [reflexivity|].
  intros task [<- | []]. discriminate.
Defined.

(** ** What the validation does *)

(** X9.  The validation never changes the disk, and it always comes to
    an end.  When it returns, the file was there, the parser returned a
    drawing with entities for its contents, and the result is the
    verdict on those entities; when it throws, the message is the
    cause's message behind [Error processing DXF file: ]. *)
Theorem validation_reads_and_reports (env : Service.Environment) (filePath : string)
  (s : Service.State) :
  let (s', o) := Service.validateDxfFile env filePath s in
  Service.disk s' = Service.disk s
  /\ match o with
     | Service.Settled (Service.Returns validations) =>
         exists data dxf entities,
           Service.disk s filePath = Some data
           /\ Service.parseSync env data = Service.Returns (Some dxf)
           /\ Service.entities dxf = Some entities
           /\ validations = validateDxfFile entities
     | Service.Settled (Service.Throws message) =>
         (exists cause, message = "Error processing DXF file: " ++ cause)
         /\ String.prefix "Error processing DXF file: " message = true
     | Service.Pending => False
     end.
Proof.
  destruct (Service.validateDxfFile env filePath s) as [s' [[v|m]|]] eqn:H;
    [| |exfalso; exact (validateDxfFile_settles _ _ _ _ H)].
  - apply validateDxfFile_returns in H.
    destruct H as (Hdisk & data & dxf & es & H1 & H2 & H3 & H4 & _).
    split; [exact Hdisk|]. now exists data, dxf, es.
  - apply validateDxfFile_throws in H. destruct H as (Hdisk & [cause ->] & _).
    split; [exact Hdisk|]. split; [now exists cause | apply prefix_append].
Qed.

(** X10.  Validating a path that is not on the disk reads it and
    nothing more: the parser is not called, and the error is the file
    system's error behind [Error processing DXF file: ]. *)
Theorem validation_of_missing_file (env : Service.Environment) (filePath : string)
  (s : Service.State) :
  Service.disk s filePath = None ->
  Service.validateDxfFile env filePath s =
  (Service.mkState (Service.disk s) (Service.calls s ++ [Service.ReadFileSync filePath])%list,
   Service.Throws ("Error processing DXF file: "
                   ++ Service.no_such_file env "open" filePath)).
Proof.
  intros H.
  unfold Service.validateDxfFile, Service.readFileSync, Service.try_catch,
    Service.bind, Service.record, Service.throw.
  cbn [Service.disk Service.calls]. rewrite H. reflexivity.
Qed.

Lemma validation_of_missing_file_witness :
  Service.disk (uploaded_at plan_dwg) plan_dxf = None
  /\ Service.validateDxfFile cloud plan_dxf (uploaded_at plan_dwg)
     = (Service.mkState (Service.disk (uploaded_at plan_dwg))
          [Service.ReadFileSync plan_dxf],
        Service.Throws
          "Error processing DXF file: ENOENT: no such file or directory, open 'uploads/plan.dxf'").
Proof.
  split; [reflexivity|].
  apply (validation_of_missing_file cloud plan_dxf (uploaded_at plan_dwg)). reflexivity.
Defined.

(** X11.  When the parser returns no drawing ([null]) for the contents
    of the file, the validation throws the runtime's error for reading
    [entities], behind [Error processing DXF file: ]; no verdict is
    computed. *)
Theorem validation_without_drawing (env : Service.Environment) (filePath data : string)
  (s : Service.State) :
  Service.disk s filePath = Some data ->
  Service.parseSync env data = Service.Returns None ->
  Service.validateDxfFile env filePath s =
  (Service.mkState (Service.disk s)
     (Service.calls s ++ [Service.ReadFileSync filePath; Service.ParseSync data])%list,
   Service.Throws ("Error processing DXF file: " ++ Service.type_error env "entities")).
Proof.
  intros H Hp.
  unfold Service.validateDxfFile, Service.readFileSync, Service.try_catch,
    Service.bind, Service.record, Service.answer, Service.read, Service.throw.
  cbn [Service.disk Service.calls]. rewrite H. cbn [Service.disk Service.calls].
  rewrite Hp. cbn. now rewrite app_assoc_cons.
Qed.

Lemma validation_without_drawing_witness :
  Service.disk (uploaded_at plan_dxf) plan_dxf = Some "AC1027"
  /\ Service.parseSync cloud_with_silent_parser "AC1027" = Service.Returns None
  /\ Service.validateDxfFile cloud_with_silent_parser plan_dxf (uploaded_at plan_dxf)
     = (Service.mkState (Service.disk (uploaded_at plan_dxf))
          [Service.ReadFileSync plan_dxf; Service.ParseSync "AC1027"],
        Service.Throws
          "Error processing DXF file: Cannot read properties of null (reading 'entities')").
Proof.
  split; [reflexivity|]. split; [reflexivity|].
  apply (validation_without_drawing cloud_with_silent_parser plan_dxf "AC1027"
           (uploaded_at plan_dxf)); reflexivity.
Defined.

(** ** What the handler does *)

(** X12.  The handler never throws.  A request is answered with status
    200 and the validations, or with status 500 and an error message,
    or it is never answered; it is never answered exactly when the
    download returned and the write stream stalls: the promise of the
    conversion then stays pending, the write was the last call, and no
    file is removed.  When the write stream does not stall, every
    request is answered, also one without a file. *)
Theorem upload_answers_unless_the_stream_stalls (env : Service.Environment)
  (file : option Service.UploadedFile) (s : Service.State) :
  (let (s', c) := Service.upload env file s in
   match c with
   | Service.Settled (Service.Returns response) =>
       (Service.status response = 200
        /\ exists validations, Service.body response = Service.ValidationsJson validations)
       \/ (Service.status response = 500
           /\ exists message, Service.body response = Service.ErrorJson message)
   | Service.Settled (Service.Throws _) => False
   | Service.Pending =>
       exists uploaded s1 data remains,
         file = Some uploaded
         /\ Service.download env (Service.path uploaded) s = (s1, Service.Returns data)
         /\ Service.write_stream env (Service.replace_dwg (Service.path uploaded)) data
            = Service.Stalled remains
         /\ Service.calls s' =
            (Service.calls s1
             ++ [Service.WriteStream (Service.replace_dwg (Service.path uploaded)) data])%list
         /\ forall q, q <> Service.replace_dwg (Service.path uploaded) ->
                      Service.disk s' q = Service.disk s q
   end)
  /\ (forall uploaded s1 data remains,
        file = Some uploaded ->
        Service.download env (Service.path uploaded) s = (s1, Service.Returns data) ->
        Service.write_stream env (Service.replace_dwg (Service.path uploaded)) data
          = Service.Stalled remains ->
        exists s', Service.upload env file s = (s', Service.Pending))
  /\ ((forall path data remains,
         Service.write_stream env path data <> Service.Stalled remains) ->
      exists s' response, Service.upload env file s = (s', Service.Returns response)).
Proof.
  assert (Hshape :
    let (s', c) := Service.upload env file s in
    match c with
    | Service.Settled (Service.Returns response) =>
        (Service.status response = 200
         /\ exists validations, Service.body response = Service.ValidationsJson validations)
        \/ (Service.status response = 500
            /\ exists message, Service.body response = Service.ErrorJson message)
    | Service.Settled (Service.Throws _) => False
    | Service.Pending =>
        exists uploaded s1 data remains,
          file = Some uploaded
          /\ Service.download env (Service.path uploaded) s = (s1, Service.Returns data)
          /\ Service.write_stream env (Service.replace_dwg (Service.path uploaded)) data
             = Service.Stalled remains
          /\ Service.calls s' =
             (Service.calls s1
              ++ [Service.WriteStream (Service.replace_dwg (Service.path uploaded)) data])%list
          /\ forall q, q <> Service.replace_dwg (Service.path uploaded) ->
                       Service.disk s' q = Service.disk s q
    end).
  { destruct file as [uploaded|]; [|rewrite upload_no_file; right; split;
                                     [reflexivity | eexists; reflexivity]].
    rewrite upload_cases. cbv zeta.
    destruct (Service.convertDwgToDxf env _ s) as [s1 [[dxf|m]|]] eqn:Hc.
    - destruct (Service.validateDxfFile env dxf s1) as [s2 [[v|m]|]] eqn:Hv;
        [| right; split; [reflexivity | now exists m]
         | exfalso; exact (validateDxfFile_settles _ _ _ _ Hv)].
      destruct (Service.unlinkSync env _ s2) as [s3 [[u|m]|]] eqn:Hu;
        [| right; split; [reflexivity | now exists m]
         | exfalso; exact (unlinkSync_settles _ _ _ _ Hu)].
      destruct (Service.unlinkSync env dxf s3) as [s4 [[u'|m]|]] eqn:Hu';
        [| right; split; [reflexivity | now exists m]
         | exfalso; exact (unlinkSync_settles _ _ _ _ Hu')].
      left. split; [reflexivity | now exists v].
    - right. split; [reflexivity | now exists m].
    - apply convertDwgToDxf_pending in Hc.
      destruct Hc as (s0 & data & remains & Hd & Hw & ->).
      exists uploaded, s0, data, remains.
      split; [reflexivity|]. split; [exact Hd|]. split; [exact Hw|].
      split; [reflexivity|].
      intros q Hq. cbn [Service.disk]. rewrite store_other by exact Hq.
      apply download_returns in Hd. destruct Hd as [Hdisk _]. now rewrite Hdisk. }
  split; [exact Hshape|]. split.
  - intros uploaded s1 data remains -> Hd Hw.
    rewrite upload_cases. cbv zeta.
    assert (Hc : Service.convertDwgToDxf env (Service.path uploaded) s
                 = (Service.mkState
                      (Service.store (Service.disk s1)
                         (Service.replace_dwg (Service.path uploaded)) remains)
                      (Service.calls s1
                       ++ [Service.WriteStream
                             (Service.replace_dwg (Service.path uploaded)) data])%list,
                    Service.Pending)).
    { apply convertDwgToDxf_pending. now exists s1, data, remains. }
    rewrite Hc. eexists. reflexivity.
  - intros Hlive.
    destruct (Service.upload env file s) as [s' [[response|m]|]].
    + now exists s', response.
    + contradiction.
    + destruct Hshape as (uploaded & s1 & data & remains & _ & _ & Hw & _).
      exfalso. exact (Hlive _ _ _ Hw).
Qed.

(** A download whose stream fails while it is piped leaves the request
    unanswered; with a write stream that ends, the same request is
    answered. *)
Lemma upload_answers_unless_the_stream_stalls_witness :
  (exists s', Service.upload cloud_with_broken_download
                (Some (Service.mkUploadedFile plan_dwg)) (uploaded_at plan_dwg)
              = (s', Service.Pending))
  /\ exists s' response,
       Service.upload cloud (Some (Service.mkUploadedFile plan_dwg)) (uploaded_at plan_dwg)
       = (s', Service.Returns response).
Proof.
  split.
  - apply (proj1 (proj2 (upload_answers_unless_the_stream_stalls
                           cloud_with_broken_download
                           (Some (Service.mkUploadedFile plan_dwg))
                           (uploaded_at plan_dwg)))
             (Service.mkUploadedFile plan_dwg)
             (fst (Service.download cloud_with_broken_download plan_dwg
                     (uploaded_at plan_dwg)))
             "0 SECTION 2 ENTITIES" (Some "0 SECTION")); reflexivity.
  - apply (proj2 (proj2 (upload_answers_unless_the_stream_stalls
                           cloud (Some (Service.mkUploadedFile plan_dwg))
                           (uploaded_at plan_dwg)))).
    intros path data remains. discriminate.
Defined.

Lemma convert_output (env : Service.Environment) (input : string)
  (s s1 : Service.State) (output : string) :
  Service.convertDwgToDxf env input s = (s1, Service.Returns output) ->
  output = Service.replace_dwg input /\ Service.disk s1 output <> None
  /\ forall q, q <> output -> Service.disk s1 q = Service.disk s q.
Proof.
  intros H.
  pose proof (convertDwgToDxf_cases env input s) as Hc. cbv zeta in Hc.
  destruct (Service.download env input s) as [s0 [[data|m]|]] eqn:Hd;
    [| |exfalso; exact (download_settles _ _ _ _ Hd)].
  - apply download_returns in Hd. destruct Hd as [Hdisk _].
    destruct (Service.write_stream env _ data); rewrite Hc in H; inversion H; subst.
    cbn [Service.disk]. rewrite Hdisk. split; [reflexivity|]. split.
    + rewrite store_same. discriminate.
    + intros q Hq. now apply store_other.
  - rewrite Hc in H. discriminate.
Qed.

(** X13.  When the uploaded path does not end in [.dwg] (in any
    spelling), the request is never answered with status 200: every
    answer is a 500.  Even if conversion and validation both succeed,
    the converted drawing was written over the upload, the first removal
    deletes it, and the second removal of the same path fails: the
    answer is the file system's error for that removal, and the upload
    is gone. *)
Theorem upload_without_dwg_extension_fails (env : Service.Environment)
  (uploaded : Service.UploadedFile) (s : Service.State) :
  (forall stem ext, Service.path uploaded = stem ++ ext -> Service.matches_dwg ext = false) ->
  (forall s' response,
     Service.upload env (Some uploaded) s = (s', Service.Returns response) ->
     exists message, response = failure message)
  /\ forall s1 dxf s2 validations,
       Service.convertDwgToDxf env (Service.path uploaded) s = (s1, Service.Returns dxf) ->
       Service.validateDxfFile env dxf s1 = (s2, Service.Returns validations) ->
       dxf = Service.path uploaded
       /\ exists s',
            Service.upload env (Some uploaded) s =
              (s', Service.Returns
                     (failure (Service.no_such_file env "unlink" (Service.path uploaded))))
            /\ Service.disk s' (Service.path uploaded) = None.
Proof.
  intros Hno.
  assert (Hsame : Service.replace_dwg (Service.path uploaded) = Service.path uploaded).
  { destruct (replace_dwg_cases (Service.path uploaded))
      as [(stem & ext & Hp & Hext & _) | [_ H]]; [|exact H].
    rewrite (Hno stem ext Hp) in Hext. discriminate. }
  assert (Hruns : forall s1 dxf s2 validations,
            Service.convertDwgToDxf env (Service.path uploaded) s
              = (s1, Service.Returns dxf) ->
            Service.validateDxfFile env dxf s1 = (s2, Service.Returns validations) ->
            dxf = Service.path uploaded
            /\ exists s',
                 Service.upload env (Some uploaded) s =
                   (s', Service.Returns
                          (failure (Service.no_such_file env "unlink"
                                      (Service.path uploaded))))
                 /\ Service.disk s' (Service.path uploaded) = None).
  { intros s1 dxf s2 v Hc Hv.
    destruct (convert_output _ _ _ _ _ Hc) as (Hout & _ & _).
    rewrite Hsame in Hout. subst dxf. split; [reflexivity|].
    rewrite upload_cases. cbv zeta. rewrite Hc, Hv.
    rewrite unlinkSync_cases. cbv zeta.
    destruct (Service.disk s2 (Service.path uploaded)) as [d|] eqn:Hd.
    - rewrite unlinkSync_cases. cbv zeta. cbn [Service.disk Service.calls].
      rewrite store_same.
      eexists. split; [reflexivity|]. cbn [Service.disk]. apply store_same.
    - eexists. split; [reflexivity|]. exact Hd. }
  split; [|exact Hruns].
  intros s' response H.
  rewrite upload_cases in H. cbv zeta in H.
  destruct (Service.convertDwgToDxf env _ s) as [s1 [[dxf|m]|]] eqn:Hc;
    [| inversion H; now exists m | discriminate].
  destruct (Service.validateDxfFile env dxf s1) as [s2 [[v|m]|]] eqn:Hv;
    [| inversion H; now exists m | discriminate].
  destruct (Hruns s1 dxf s2 v eq_refl Hv) as (-> & s'' & Hup & _).
  rewrite upload_cases in Hup. cbv zeta in Hup. rewrite Hc, Hv in Hup.
  rewrite Hup in H. inversion H. eexists. reflexivity.
Qed.

Lemma upload_without_dwg_extension_fails_witness :
  exists s',
    Service.upload cloud (Some (Service.mkUploadedFile bare_upload)) (uploaded_at bare_upload)
      = (s', Service.Returns
               (failure "ENOENT: no such file or directory, unlink 'uploads/3f9a2c'"))
    /\ Service.disk s' bare_upload = None.
Proof.
  assert (Hbare : forall stem ext,
            Service.path (Service.mkUploadedFile bare_upload) = stem ++ ext ->
            Service.matches_dwg ext = false).
  { apply replace_dwg_fixed_iff. reflexivity. }
  destruct (upload_without_dwg_extension_fails cloud (Service.mkUploadedFile bare_upload)
              (uploaded_at bare_upload) Hbare) as (_ & Hruns).
  destruct (Hruns
              (fst (Service.convertDwgToDxf cloud bare_upload (uploaded_at bare_upload)))
              bare_upload
              (fst (Service.validateDxfFile cloud bare_upload
                      (fst (Service.convertDwgToDxf cloud bare_upload
                              (uploaded_at bare_upload)))))
              (validateDxfFile [building_0; boundary_at 20])
              eq_refl eq_refl) as (_ & s' & Hupload & Hgone).
  exists s'. split; [exact Hupload | exact Hgone].
Defined.

Lemma convert_data (env : Service.Environment) (input : string)
  (s s1 : Service.State) (output : string) :
  Service.convertDwgToDxf env input s = (s1, Service.Returns output) ->
  exists url data,
    Service.axios_get env url = Service.Returns data
    /\ Service.disk s1 output = Some data.
Proof.
  intros H.
  pose proof (convertDwgToDxf_cases env input s) as Hc. cbv zeta in Hc.
  destruct (Service.download env input s) as [s0 [[data|m]|]] eqn:Hd;
    [| |exfalso; exact (download_settles _ _ _ _ Hd)].
  - apply download_returns in Hd.
    destruct Hd as (Hdisk & job & ut & ur & uf & es & cj & et & er & efs & f & Hd).
    decompose [and] Hd. clear Hd.
    destruct (Service.write_stream env _ data); rewrite Hc in H; inversion H; subst.
    exists (Service.file_url f), data. split; [assumption|].
    cbn [Service.disk]. apply store_same.
  - rewrite Hc in H. discriminate.
Qed.

Lemma convert_never_unlinks (env : Service.Environment) (input : string)
  (s s1 : Service.State) (o : Service.outcome string) :
  Service.convertDwgToDxf env input s = (s1, o) ->
  exists t, Service.calls s1 = (Service.calls s ++ t)%list
            /\ forallb (fun c => negb (is_unlink c)) t = true.
Proof.
  intros H.
  pose proof (convertDwgToDxf_cases env input s) as Hc. cbv zeta in Hc.
  destruct (Service.download env input s) as [s0 [[data|m]|]] eqn:Hd;
    [| |exfalso; exact (download_settles _ _ _ _ Hd)].
  - apply download_returns in Hd.
    destruct Hd as (Hdisk & job & ut & ur & uf & es & cj & et & er & efs & f & Hd).
    decompose [and] Hd. clear Hd.
    destruct (Service.write_stream env _ data); rewrite Hc in H; inversion H; subst;
      cbn [Service.calls];
      match goal with E : Service.calls s0 = _ |- _ => rewrite E end;
      rewrite <- app_assoc; eexists; split; reflexivity.
  - rewrite Hc in H. inversion H; subst.
    apply download_throws in Hd.
    destruct Hd as (_ & _ & n & url & fd & i & url' & Hn & Hcalls).
    eexists. split; [exact Hcalls|].
    destruct n as [|[|[|[|[|n]]]]]; try lia; reflexivity.
Qed.

Lemma validate_never_unlinks (env : Service.Environment) (filePath : string)
  (s s1 : Service.State) (o : Service.outcome Validations) :
  Service.validateDxfFile env filePath s = (s1, o) ->
  Service.disk s1 = Service.disk s
  /\ exists t, Service.calls s1 = (Service.calls s ++ t)%list
               /\ forallb (fun c => negb (is_unlink c)) t = true.
Proof.
  intros H. destruct o as [v|m].
  - apply validateDxfFile_returns in H.
    destruct H as (Hdisk & data & dxf & es & _ & _ & _ & _ & Hcalls).
    split; [exact Hdisk|]. eexists. split; [exact Hcalls | reflexivity].
  - apply validateDxfFile_throws in H.
    destruct H as (Hdisk & _ & [Hcalls | [data Hcalls]]);
      (split; [exact Hdisk|]); eexists; (split; [exact Hcalls | reflexivity]).
Qed.

Lemma not_unlink_in (t : list Service.Call) (p : string) :
  forallb (fun c => negb (is_unlink c)) t = true -> ~ In (Service.UnlinkSync p) t.
Proof.
  intros H Hin. rewrite forallb_forall in H. specialize (H _ Hin). discriminate.
Qed.

(** X14.  When the uploaded path ends in [.dwg] and is on the disk,
    and conversion and validation succeed, the request is answered with
    status 200 and the validations computed from the entities the parser
    found in the downloaded data; the converted drawing was at the path
    with [.dxf] for the extension; afterwards neither file is on the
    disk, no other path has changed, and the two removals are the last
    calls, the upload first. *)
Theorem upload_success_cleans_up (env : Service.Environment)
  (uploaded : Service.UploadedFile) (stem ext : string)
  (s s1 s2 : Service.State) (dxf : string) (validations : Validations) :
  Service.path uploaded = stem ++ ext ->
  Service.matches_dwg ext = true ->
  Service.disk s (Service.path uploaded) <> None ->
  Service.convertDwgToDxf env (Service.path uploaded) s = (s1, Service.Returns dxf) ->
  Service.validateDxfFile env dxf s1 = (s2, Service.Returns validations) ->
  exists s',
    Service.upload env (Some uploaded) s =
      (s', Service.Returns (Service.mkResponse 200 (Service.ValidationsJson validations)))
    /\ dxf = stem ++ ".dxf"
    /\ Service.disk s' (Service.path uploaded) = None
    /\ Service.disk s' dxf = None
    /\ (forall q, q <> Service.path uploaded -> q <> dxf ->
                  Service.disk s' q = Service.disk s q)
    /\ Service.calls s' =
         (Service.calls s2 ++ [Service.UnlinkSync (Service.path uploaded);
                               Service.UnlinkSync dxf])%list
    /\ exists url data drawing entities,
         Service.axios_get env url = Service.Returns data
         /\ Service.parseSync env data = Service.Returns (Some drawing)
         /\ Service.entities drawing = Some entities
         /\ validations = validateDxfFile entities.
Proof.
  intros Hpath Hext Hthere Hc Hv.
  destruct (convert_output _ _ _ _ _ Hc) as (Hout & Hwritten & Hrest).
  rewrite Hpath, (replace_dwg_suffix stem ext Hext) in Hout.
  assert (Hne : Service.path uploaded <> dxf).
  { rewrite Hpath, Hout. intros E. apply append_inj_l in E.
    now apply (matches_dwg_not_dxf ext). }
  destruct (convert_data _ _ _ _ _ Hc) as (url & data & Hget & Hdata).
  pose proof Hv as Hv'. apply validateDxfFile_returns in Hv'.
  destruct Hv' as (Hdisk2 & data' & drawing & es & Hread & Hparse & Hes & Hval & _).
  rewrite Hdata in Hread. injection Hread as <-.
  rewrite upload_cases. cbv zeta. rewrite Hc, Hv.
  rewrite unlinkSync_cases. cbv zeta.
  assert (H2 : Service.disk s2 (Service.path uploaded) = Service.disk s (Service.path uploaded)).
  { rewrite Hdisk2. now apply Hrest. }
  destruct (Service.disk s2 (Service.path uploaded)) as [d|] eqn:Hd;
    [|rewrite <- H2 in Hthere; contradiction].
  rewrite unlinkSync_cases. cbv zeta. cbn [Service.disk Service.calls].
  rewrite store_other by (intros E; now apply Hne).
  rewrite Hdisk2, Hdata.
  eexists. split; [reflexivity|]. cbn [Service.disk Service.calls].
  split; [exact Hout|].
  split; [rewrite store_other by exact Hne; apply store_same|].
  split; [apply store_same|].
  split.
  - intros q Hq1 Hq2. rewrite !store_other by assumption. now apply Hrest.
  - split; [now rewrite app_assoc_cons|].
    exists url, data, drawing, es. repeat split; assumption.
Qed.

Lemma upload_success_cleans_up_witness :
  exists s',
    Service.upload cloud (Some (Service.mkUploadedFile plan_dwg)) (uploaded_at plan_dwg)
      = (s', Service.Returns
               (Service.mkResponse 200
                  (Service.ValidationsJson (validateDxfFile [building_0; boundary_at 20]))))
    /\ Service.disk s' plan_dwg = None
    /\ Service.disk s' plan_dxf = None.
Proof.
  destruct (upload_success_cleans_up cloud (Service.mkUploadedFile plan_dwg)
              "uploads/plan" ".dwg" (uploaded_at plan_dwg)
              (fst (Service.convertDwgToDxf cloud plan_dwg (uploaded_at plan_dwg)))
              (fst (Service.validateDxfFile cloud plan_dxf
                      (fst (Service.convertDwgToDxf cloud plan_dwg (uploaded_at plan_dwg)))))
              plan_dxf (validateDxfFile [building_0; boundary_at 20])
              eq_refl eq_refl ltac:(discriminate) eq_refl eq_refl)
    as (s' & Hupload & _ & Hdwg & Hdxf & _).
  exists s'. split; [exact Hupload|]. split; [exact Hdwg | exact Hdxf].
Defined.

(** X15.  The handler removes a file only after conversion and
    validation have both succeeded, and only the uploaded path or the
    converted path: a request that fails earlier leaves both files where
    they are. *)
Theorem cleanup_only_after_success (env : Service.Environment)
  (file : option Service.UploadedFile) (s s' : Service.State)
  (response : Service.Response) (t : list Service.Call) (p : string) :
  Service.upload env file s = (s', Service.Returns response) ->
  Service.calls s' = (Service.calls s ++ t)%list ->
  In (Service.UnlinkSync p) t ->
  exists uploaded s1 dxf s2 validations,
    file = Some uploaded
    /\ Service.convertDwgToDxf env (Service.path uploaded) s = (s1, Service.Returns dxf)
    /\ Service.validateDxfFile env dxf s1 = (s2, Service.Returns validations)
    /\ (p = Service.path uploaded \/ p = dxf).
Proof.
  intros H Ht Hin. destruct file as [uploaded|].
  2: { rewrite upload_no_file in H. inversion H; subst.
       rewrite <- (app_nil_r (Service.calls s')) in Ht at 1.
       apply app_inv_head in Ht. subst t. destruct Hin. }
  rewrite upload_cases in H. cbv zeta in H.
  destruct (Service.convertDwgToDxf env _ s) as [s1 [[dxf|m]|]] eqn:Hc;
    [| |discriminate].
  2: { inversion H; subst.
       destruct (convert_never_unlinks _ _ _ _ _ Hc) as (t1 & Ht1 & Hno).
       rewrite Ht1 in Ht. apply app_inv_head in Ht. subst t.
       now apply not_unlink_in in Hin. }
  destruct (convert_never_unlinks _ _ _ _ _ Hc) as (t1 & Ht1 & Hno1).
  destruct (Service.validateDxfFile env dxf s1) as [s2 [[v|m]|]] eqn:Hv;
    [| |discriminate].
  2: { inversion H; subst.
       destruct (validate_never_unlinks _ _ _ _ _ Hv) as (_ & t2 & Ht2 & Hno2).
       rewrite Ht2, Ht1, <- app_assoc in Ht. apply app_inv_head in Ht. subst t.
       apply in_app_or in Hin. destruct Hin as [Hin | Hin];
         [now apply not_unlink_in in Hin | now apply not_unlink_in in Hin]. }
  destruct (validate_never_unlinks _ _ _ _ _ Hv) as (_ & t2 & Ht2 & Hno2).
  exists uploaded, s1, dxf, s2, v.
  split; [reflexivity|]. split; [exact Hc|]. split; [exact Hv|].
  assert (Hs' : exists t3, Service.calls s' = (Service.calls s2 ++ t3)%list
                           /\ forall c, In c t3 ->
                                c = Service.UnlinkSync (Service.path uploaded)
                                \/ c = Service.UnlinkSync dxf).
  { rewrite unlinkSync_cases in H. cbv zeta in H.
    destruct (Service.disk s2 (Service.path uploaded)).
    - rewrite unlinkSync_cases in H. cbv zeta in H. cbn [Service.disk Service.calls] in H.
      destruct (Service.store _ _ _ dxf); inversion H; subst; cbn [Service.calls];
        rewrite app_assoc_cons; eexists; (split; [reflexivity|]);
        intros c [<- | [<- | []]]; tauto.
    - inversion H; subst. cbn [Service.calls]. eexists. split; [reflexivity|].
      intros c [<- | []]. tauto. }
  destruct Hs' as (t3 & Ht3 & Honly).
  rewrite Ht3, Ht2, Ht1, <- !app_assoc in Ht. apply app_inv_head in Ht. subst t.
  apply in_app_or in Hin. destruct Hin as [Hin | Hin]; [now apply not_unlink_in in Hin|].
  apply in_app_or in Hin. destruct Hin as [Hin | Hin]; [now apply not_unlink_in in Hin|].
  destruct (Honly _ Hin) as [E | E]; injection E as ->; tauto.
Qed.

Lemma cleanup_only_after_success_witness :
  exists s' response t,
    Service.upload cloud (Some (Service.mkUploadedFile plan_dwg)) (uploaded_at plan_dwg)
      = (s', Service.Returns response)
    /\ Service.calls s' = (Service.calls (uploaded_at plan_dwg) ++ t)%list
    /\ In (Service.UnlinkSync plan_dwg) t
    /\ exists s1 dxf s2 validations,
         Service.convertDwgToDxf cloud plan_dwg (uploaded_at plan_dwg)
           = (s1, Service.Returns dxf)
         /\ Service.validateDxfFile cloud dxf s1 = (s2, Service.Returns validations).
Proof.
  exists (fst (Service.upload cloud (Some (Service.mkUploadedFile plan_dwg))
                 (uploaded_at plan_dwg))),
    (Service.mkResponse 200
       (Service.ValidationsJson (validateDxfFile [building_0; boundary_at 20]))),
    (Service.calls (fst (Service.upload cloud (Some (Service.mkUploadedFile plan_dwg))
                           (uploaded_at plan_dwg)))).
  assert (Hin : In (Service.UnlinkSync plan_dwg)
                   (Service.calls
                      (fst (Service.upload cloud (Some (Service.mkUploadedFile plan_dwg))
                              (uploaded_at plan_dwg))))).
  { do 7 right. left. reflexivity. }
  split; [reflexivity|]. split; [reflexivity|]. split; [exact Hin|].
  destruct (cleanup_only_after_success cloud (Some (Service.mkUploadedFile plan_dwg))
              (uploaded_at plan_dwg) _ _ _ plan_dwg eq_refl eq_refl Hin)
    as (uploaded & s1 & dxf & s2 & validations & Hfile & Hconvert & Hvalidate & _).
  injection Hfile as <-.
  exists s1, dxf, s2, validations. split; [exact Hconvert | exact Hvalidate].
Defined.

(** ** The verdict of a whole drawing *)

Lemma validateDxfFile_filters (entities : list Entity) :
  validateDxfFile entities =
  mkValidations
    (checkSetbackDistance (filter is_building entities) (filter is_boundary entities)).
Proof.
  unfold validateDxfFile, classify. now rewrite classify_from.
Qed.

Lemma drawing_compliant_iff (entities : list Entity) :
  compliant (setbackCompliance (validateDxfFile entities)) = true <->
  exists building boundary,
    In building entities /\ In boundary entities
    /\ layer building = Some "BUILDING" /\ layer boundary = Some "BOUNDARY"
    /\ JS.ge (calculateDistance building boundary) MIN_SETBACK_DISTANCE = true.
Proof.
  rewrite validateDxfFile_filters. cbn [setbackCompliance].
  rewrite compliant_iff_find. split.
  - destruct (find qualifies _) as [[b bd]|] eqn:Hfind; [intros _ | congruence].
    destruct (find_some _ _ Hfind) as [Hin Hq].
    apply in_pairs in Hin. destruct Hin as [Hb Hbd].
    apply filter_In in Hb, Hbd. destruct Hb as [Hb Lb], Hbd as [Hbd Lbd].
    exists b, bd. repeat split; try assumption; now apply layer_is_iff.
  - intros (b & bd & Hb & Hbd & Lb & Lbd & Hq) Hnone.
    rewrite find_none_iff in Hnone.
    assert (Hin : In (b, bd) (pairs (filter is_building entities)
                                    (filter is_boundary entities))).
    { apply in_pairs. split; apply filter_In; split; try assumption;
        now apply layer_is_iff. }
    specialize (Hnone _ Hin). unfold qualifies in Hnone. simpl in Hnone. congruence.
Qed.

Lemma filter_none {A : Type} (f : A -> bool) (l : list A) :
  (forall a, In a l -> f a = false) -> filter f l = [].
Proof.
  induction l as [|a l IH]; simpl; intros H; [reflexivity|].
  rewrite (H a (or_introl eq_refl)). apply IH. intros b Hb. apply H. now right.
Qed.

Lemma checkSetbackDistance_no_boundaries (buildings : list Entity) :
  checkSetbackDistance buildings [] = mkVerdict false noncompliant_message.
Proof.
  rewrite checkSetbackDistance_find. unfold pairs.
  induction buildings as [|b buildings IH]; simpl; [reflexivity | exact IH].
Qed.

(** X16.  The verdict on a whole drawing is compliant exactly when an
    entity on the layer BUILDING and an entity on the layer BOUNDARY,
    anywhere in the drawing, are at least 10 apart; a drawing that has
    no entity on one of the two layers is never compliant. *)
Theorem drawing_compliant_iff_some_pair_clears (entities : list Entity) :
  (compliant (setbackCompliance (validateDxfFile entities)) = true <->
   exists building boundary,
     In building entities /\ In boundary entities
     /\ layer building = Some "BUILDING" /\ layer boundary = Some "BOUNDARY"
     /\ JS.ge (calculateDistance building boundary) MIN_SETBACK_DISTANCE = true)
  /\ ((forall e, In e entities -> layer e <> Some "BUILDING")
      \/ (forall e, In e entities -> layer e <> Some "BOUNDARY") ->
      validateDxfFile entities = mkValidations (mkVerdict false noncompliant_message)).
Proof.
  split; [apply drawing_compliant_iff|].
  intros Hnone. rewrite validateDxfFile_filters. f_equal.
  destruct Hnone as [Hnone | Hnone].
  - rewrite (filter_none is_building); [reflexivity|].
    intros e He. specialize (Hnone e He).
    destruct (is_building e) eqn:Hb; [|reflexivity].
    apply layer_is_iff in Hb. contradiction.
  - rewrite (filter_none is_boundary); [apply checkSetbackDistance_no_boundaries|].
    intros e He. specialize (Hnone e He).
    destruct (is_boundary e) eqn:Hb; [|reflexivity].
    apply layer_is_iff in Hb. contradiction.
Qed.

Lemma drawing_compliant_iff_some_pair_clears_witness :
  validateDxfFile [building_0; no_x]
  = mkValidations (mkVerdict false noncompliant_message).
Proof.
  apply (proj2 (drawing_compliant_iff_some_pair_clears [building_0; no_x])).
  right. intros e [<- | [<- | []]]; discriminate.
Defined.

Lemma filter_filter_implied {A : Type} (f g : A -> bool) (l : list A) :
  (forall a, f a = true -> g a = true) ->
  filter f (filter g l) = filter f l.
Proof.
  intros H. induction l as [|a l IH]; simpl; [reflexivity|].
  destruct (g a) eqn:Hg; simpl.
  - destruct (f a); now rewrite IH.
  - destruct (f a) eqn:Hf; [|exact IH]. rewrite (H a Hf) in Hg. discriminate.
Qed.

(** X17.  Entities on any other layer, or without a layer, do not
    influence the result: the validations of a drawing are those of the
    drawing with only its BUILDING and BOUNDARY entities left. *)
Theorem drawing_verdict_ignores_other_layers (entities : list Entity) :
  validateDxfFile entities =
  validateDxfFile
    (filter (fun e => layer_is e "BUILDING" || layer_is e "BOUNDARY") entities).
Proof.
  rewrite !validateDxfFile_filters.
  rewrite !filter_filter_implied; [reflexivity | |]; intros e H; unfold is_building, is_boundary in H;
    rewrite H; [apply orb_true_r | reflexivity].
Qed.

(** X18.  Entities added before or after a compliant drawing never
    make it non-compliant (they may change the pair that is quoted). *)
Theorem drawing_compliance_survives_more_entities (before entities after : list Entity) :
  compliant (setbackCompliance (validateDxfFile entities)) = true ->
  compliant (setbackCompliance (validateDxfFile (before ++ entities ++ after)%list)) = true.
Proof.
  rewrite !drawing_compliant_iff.
  intros (b & bd & Hb & Hbd & H). exists b, bd.
  repeat split; try tauto; apply in_or_app; right; apply in_or_app; now left.
Qed.

Lemma drawing_compliance_survives_more_entities_witness :
  compliant (setbackCompliance (validateDxfFile [building_0; boundary_at 20])) = true
  /\ compliant (setbackCompliance
                  (validateDxfFile ([boundary_at 5; no_x]
                                    ++ [building_0; boundary_at 20]
                                    ++ [negative_extents])%list)) = true.
Proof.
  split; [reflexivity|].
  apply (drawing_compliance_survives_more_entities
           [boundary_at 5; no_x] [building_0; boundary_at 20] [negative_extents]).
  reflexivity.
Defined.

(** X19.  Whether a drawing is compliant does not depend on the order
    of its entities; the order decides at most which pair the message
    quotes. *)
Theorem drawing_compliance_ignores_order (entities entities' : list Entity) :
  Permutation entities entities' ->
  compliant (setbackCompliance (validateDxfFile entities))
  = compliant (setbackCompliance (validateDxfFile entities')).
Proof.
  intros HP.
  assert (H : forall l l', Permutation l l' ->
              compliant (setbackCompliance (validateDxfFile l)) = true ->
              compliant (setbackCompliance (validateDxfFile l')) = true).
  { intros l l' P. rewrite !drawing_compliant_iff.
    intros (b & bd & Hb & Hbd & H). exists b, bd.
    repeat split; try tauto; eapply Permutation_in; eauto. }
  destruct (compliant (setbackCompliance (validateDxfFile entities))) eqn:E1,
           (compliant (setbackCompliance (validateDxfFile entities'))) eqn:E2;
    try reflexivity.
  - rewrite (H _ _ HP E1) in E2. discriminate.
  - rewrite (H _ _ (Permutation_sym HP) E2) in E1. discriminate.
Qed.

Lemma drawing_compliance_ignores_order_witness :
  Permutation [building_0; boundary_at 20] [boundary_at 20; building_0]
  /\ compliant (setbackCompliance (validateDxfFile [building_0; boundary_at 20]))
     = compliant (setbackCompliance (validateDxfFile [boundary_at 20; building_0])).
Proof.
  split; [apply perm_swap|].
  apply (drawing_compliance_ignores_order
           [building_0; boundary_at 20] [boundary_at 20; building_0]).
  apply perm_swap.
Defined.

(** X20.  Once the buildings of a list yield a compliant verdict,
    buildings that follow them are not looked at: whatever they are,
    malformed or not, the verdict and its message stay the same. *)
Theorem later_buildings_not_examined (buildings more boundaries : list Entity) :
  compliant (checkSetbackDistance buildings boundaries) = true ->
  checkSetbackDistance (buildings ++ more)%list boundaries
  = checkSetbackDistance buildings boundaries.
Proof.
  intros H. apply compliant_iff_find in H.
  rewrite !checkSetbackDistance_find. unfold pairs in *.
  assert (Hp : forall bs : list Entity,
               list_prod (bs ++ more) boundaries
               = (list_prod bs boundaries ++ list_prod more boundaries)%list).
  { induction bs as [|b bs IH]; simpl; [reflexivity|].
    rewrite IH. apply app_assoc. }
  rewrite Hp, find_app.
  destruct (find qualifies (list_prod buildings boundaries)); [reflexivity | congruence].
Qed.

Lemma later_buildings_not_examined_witness :
  compliant (checkSetbackDistance [building_0] [boundary_at 20]) = true
  /\ checkSetbackDistance ([building_0] ++ [no_x; at_infinity])%list [boundary_at 20]
     = checkSetbackDistance [building_0] [boundary_at 20].
Proof.
  split; [reflexivity|].
  apply (later_buildings_not_examined [building_0] [no_x; at_infinity] [boundary_at 20]).
  reflexivity.
Defined.

Lemma overlapping_distance_zero (building boundary : Entity) :
  numeric building = true -> numeric boundary = true ->
  overlap_on_x building boundary = true -> overlap_on_y building boundary = true ->
  calculateDistance building boundary = JS.pos_zero.
Proof.
  unfold numeric. rewrite !andb_true_iff.
  intros [[[? ?] ?] ?] [[[? ?] ?] ?] Hx Hy.
  change (calculateDistance building boundary)
    with (JS.Math_sqrt (JS.add (JS.square (xGap building boundary))
                               (JS.square (yGap building boundary)))).
  unfold xGap, yGap.
  rewrite !overlap_clamps_to_zero by assumption. reflexivity.
Qed.

(** X21.  When every building overlaps every boundary on both axes,
    all of them with finite positions and extents, the verdict is the
    non-compliant one: a building that sits on its boundaries never
    clears the setback, however many of them there are. *)
Theorem overlapping_rectangles_are_noncompliant (buildings boundaries : list Entity) :
  (forall building boundary,
     In building buildings -> In boundary boundaries ->
     numeric building = true /\ numeric boundary = true
     /\ overlap_on_x building boundary = true
     /\ overlap_on_y building boundary = true) ->
  checkSetbackDistance buildings boundaries = mkVerdict false noncompliant_message.
Proof.
  intros H. rewrite checkSetbackDistance_find.
  assert (Hnone : find qualifies (pairs buildings boundaries) = None).
  { apply find_none_iff. intros [b bd] Hin. apply in_pairs in Hin.
    destruct (H b bd (proj1 Hin) (proj2 Hin)) as (Nb & Nbd & Hx & Hy).
    unfold qualifies. cbn [fst snd].
    rewrite (overlapping_distance_zero b bd Nb Nbd Hx Hy). reflexivity. }
  now rewrite Hnone.
Qed.

Lemma overlapping_rectangles_are_noncompliant_witness :
  checkSetbackDistance [building_0; rect "BUILDING" 1 1 4 4]
                       [rect "BOUNDARY" 2 2 2 2; rect "BOUNDARY" 0 2 6 2]
  = mkVerdict false noncompliant_message.
Proof.
  apply (overlapping_rectangles_are_noncompliant
           [building_0; rect "BUILDING" 1 1 4 4]
           [rect "BOUNDARY" 2 2 2 2; rect "BOUNDARY" 0 2 6 2]).
  intros building boundary [<- | [<- | []]] [<- | [<- | []]];
    repeat split; reflexivity.
Defined.
